(** * Swell Strike: scoring, parsing, caching and strike queries

    A shallow embedding of the engine of the Swell Strike repository:
    [server.js] (buoy feed parser, surf scorer, buoy cache, strikes route),
    [ski-data-fetcher.js] (weather adapters, ski scorer, fallback chain,
    [findStrikes]) and the scoring functions and the [strikes] table of
    [database_schema.sql].

    JavaScript numbers are IEEE 754 binary64 values: they are modelled by
    Rocq's primitive floats, whose operations are the same round-to-nearest
    binary64 operations.  Scores are sums of a few small integer constants,
    which binary64 represents exactly, so a score is modelled as a [Z].
    PostgreSQL [DECIMAL] values are exact decimals and are modelled as
    rationals, with [None] for SQL NULL. *)

From Stdlib Require Import ZArith QArith Floats List Lia Uint63 Sorted Permutation.
From Stdlib Require Import Ascii String.
From Stdlib Require Import Lqa.
From stdpp Require Import gmap strings list fin_maps.

#[local] Set Warnings "-inexact-float".
#[local] Open Scope Z_scope.

(** ** JavaScript values and built-ins used by the sources *)
Module JS.

(** [x >= y], [x <= y], [x < y], [x > y] on numbers: false as soon as one
    side is NaN. *)
Definition ge (x y : float) : bool := PrimFloat.leb y x.
Definition le (x y : float) : bool := PrimFloat.leb x y.
Definition lt (x y : float) : bool := PrimFloat.ltb x y.
Definition gt (x y : float) : bool := PrimFloat.ltb y x.

(** Truthiness of a number: [NaN], [0] and [-0] are falsy. *)
Definition truthy (x : float) : bool :=
  negb (PrimFloat.is_nan x || PrimFloat.is_zero x).

(** Truthiness of a possibly [undefined] number. *)
Definition truthy_opt (v : option float) : bool :=
  match v with
  | Some x => truthy x
  | None => false
  end.

(** [a || b] where [a] and [b] are numbers or [undefined]. *)
Definition or (a b : option float) : option float :=
  if truthy_opt a then a else b.

(** [v || 0] for a number [v]. *)
Definition or_zero (v : float) : float :=
  if truthy v then v else PrimFloat.zero.

(** ToNumber of a value that is a number or [undefined]. *)
Definition to_number (v : option float) : float :=
  match v with
  | Some x => x
  | None => PrimFloat.nan
  end.

(** A value that is [undefined], [null], a boolean or a number; strings,
    objects, symbols and big integers are left out. *)
Inductive Value :=
| VUndefined
| VNull
| VBoolean (b : bool)
| VNumber (x : float).

(** ToNumber of such a value, which [<], [>] and [>=] apply to it when the
    other side is a number: [undefined] is NaN, [null] is 0, [true] is 1. *)
Definition ToNumber (v : Value) : float :=
  match v with
  | VUndefined => PrimFloat.nan
  | VNull => 0
  | VBoolean true => 1
  | VBoolean false => 0
  | VNumber x => x
  end.

(** [x?.p]: [undefined] when [x] is [undefined] or [null] ([None]), the
    property otherwise. *)
Definition optionalChain {A : Type} (x : option A) (p : A -> Value) : Value :=
  match x with
  | Some a => p a
  | None => VUndefined
  end.

(** [Math.max(0, Math.min(100, score))] on an integer score. *)
Definition clamp_0_100 (score : Z) : Z := Z.max 0 (Z.min 100 score).

(** *** Strings: [trim], [split] and the class [\s]

    A text is a [string] whose characters are the code points below 256,
    which covers the ASCII feed of the buoy centre. *)

(** White space and line terminators, as [trim] and [\s] see them. *)
Definition isWhiteSpace (c : ascii) : bool :=
  match c with
  | "009" | "010" | "011" | "012" | "013" | " " | "160" => true
  | _ => false
  end%char.

Fixpoint trimStart (s : string) : string :=
  match s with
  | String c s' => if isWhiteSpace c then trimStart s' else s
  | EmptyString => EmptyString
  end.

Fixpoint trimEnd (s : string) : string :=
  match s with
  | String c s' =>
      match trimEnd s' with
      | EmptyString => if isWhiteSpace c then EmptyString else String c EmptyString
      | t => String c t
      end
  | EmptyString => EmptyString
  end.

(** [s.trim()]. *)
Definition trim (s : string) : string := trimEnd (trimStart s).

(** Truthiness of a string: only the empty string is falsy. *)
Definition truthy_string (s : string) : bool :=
  match s with
  | EmptyString => false
  | String _ _ => true
  end.

(** [s.split(sep)] for a one-character separator. *)
Fixpoint split (sep : ascii) (s : string) : list string :=
  match s with
  | EmptyString => [EmptyString]
  | String c s' =>
      if Ascii.eqb c sep then EmptyString :: split sep s'
      else match split sep s' with
           | w :: ws => String c w :: ws
           | [] => [String c EmptyString]
           end
  end.

(** [s.split(/\s+/)]: a maximal run of white space is one separator, so a
    leading or trailing run leaves an empty first or last piece.  [inRun]
    tells that the character before was white space. *)
Fixpoint splitWhiteSpaceFrom (inRun : bool) (s : string) : list string :=
  match s with
  | EmptyString => [EmptyString]
  | String c s' =>
      if isWhiteSpace c then
        if inRun then splitWhiteSpaceFrom true s'
        else EmptyString :: splitWhiteSpaceFrom true s'
      else match splitWhiteSpaceFrom false s' with
           | w :: ws => String c w :: ws
           | [] => [String c EmptyString]
           end
  end.

Definition splitWhiteSpace (s : string) : list string :=
  splitWhiteSpaceFrom false s.

(** *** [parseFloat] *)

(** A natural number below 2^63 as a binary64 value. *)
Definition float_of_nonneg (z : Z) : float := PrimFloat.of_uint63 (Uint63.of_Z z).

(** [num / den] rounded to the nearest integer, ties to even. *)
Definition round_ratio (num den : Z) : Z :=
  let q := num / den in
  let r := num mod den in
  match 2 * r ?= den with
  | Lt => q
  | Gt => q + 1
  | Eq => if Z.even q then q else q + 1
  end.

(** The binary64 value nearest to [num / den], for positive [num] and [den]:
    the quotient is scaled by the power of two [k] that leaves 53 significant
    bits (or by 2^-1074 in the subnormal range), rounded to an integer and
    scaled back, which is exact. *)
Definition float_of_ratio (num den : Z) : float :=
  let k0 := Z.log2 num - Z.log2 den - 52 in
  let below :=
    if 0 <=? k0 then num <? den * 2 ^ (52 + k0)
    else num * 2 ^ (- k0) <? den * 2 ^ 52 in
  let k := Z.max (if below then k0 - 1 else k0) (-1074) in
  let q :=
    if 0 <=? k then round_ratio num (den * 2 ^ k)
    else round_ratio (num * 2 ^ (- k)) den in
  Z.ldexp (float_of_nonneg q) k.

(** The binary64 value nearest to [m * 10 ^ e10], for [m >= 0]: the Number
    value of a decimal literal.  When [m] is below 2^53 and the power of ten
    is at most 10^18, both are binary64 values (and fit [float_of_nonneg]),
    and one correctly rounded multiplication or division gives it; otherwise
    it is computed on integers. *)
Definition float_of_decimal (m e10 : Z) : float :=
  if m <=? 0 then PrimFloat.zero
  else if (m <? 9007199254740992) && (-18 <=? e10) && (e10 <=? 18) then
    if 0 <=? e10 then (float_of_nonneg m * float_of_nonneg (10 ^ e10))%float
    else (float_of_nonneg m / float_of_nonneg (10 ^ (- e10)))%float
  else if 0 <=? e10 then
    if 310 <=? e10 then PrimFloat.infinity
    else float_of_ratio (m * 10 ^ e10) 1
  else if Z.log2 m + 1 + 3 * e10 <=? -1075 then PrimFloat.zero
  else float_of_ratio m (10 ^ (- e10)).

(** The Number value of the decimal [k * 10 ^ e10] for an integer [k] of
    either sign. *)
Definition decimal (k e10 : Z) : float :=
  match k with
  | Z.neg p => PrimFloat.opp (float_of_decimal (Z.pos p) e10)
  | _ => float_of_decimal k e10
  end.

(** The decimal digits at the head of [s]: their value on top of [acc],
    their number on top of [n], and the rest of [s]. *)
Fixpoint scanDigits (acc n : Z) (s : string) : Z * Z * string :=
  match s with
  | String c s' =>
      match Ascii.is_nat c with
      | Some d => scanDigits (10 * acc + Z.of_nat d) (n + 1) s'
      | None => (acc, n, s)
      end
  | EmptyString => (acc, n, s)
  end.

(** An optional sign: whether it is a minus, and the rest. *)
Definition scanSign (s : string) : bool * string :=
  match s with
  | String "-" s' => (true, s')
  | String "+" s' => (false, s')
  | _ => (false, s)
  end.

(** An optional exponent part [e], [E] with an optional sign and at least
    one digit; 0 when there is none. *)
Definition scanExponent (s : string) : Z :=
  match s with
  | String c s' =>
      if Ascii.eqb c "e" || Ascii.eqb c "E" then
        let '(neg, s'') := scanSign s' in
        let '(v, n, _) := scanDigits 0 0 s'' in
        if n =? 0 then 0 else if neg then - v else v
      else 0
  | EmptyString => 0
  end.

(** [parseFloat] of a string: leading white space is skipped, the longest
    prefix that is a decimal literal is read, and [NaN] is returned when
    there is none. *)
Definition parseFloatString (input : string) : float :=
  let '(neg, s) := scanSign (trimStart input) in
  let sign (x : float) := if neg then PrimFloat.opp x else x in
  if String.prefix "Infinity" s then sign PrimFloat.infinity
  else
    let '(intPart, nInt, s1) := scanDigits 0 0 s in
    let '(m, nFrac, s2) :=
      match s1 with
      | String "." s1' => scanDigits intPart 0 s1'
      | _ => (intPart, 0, s1)
      end in
    if nInt + nFrac =? 0 then PrimFloat.nan
    else sign (float_of_decimal m (scanExponent s2 - nFrac)).

(** [parseFloat(v)] for a string or [undefined]; [undefined] is first turned
    into the string ["undefined"]. *)
Definition parseFloat (v : option string) : float :=
  match v with
  | Some s => parseFloatString s
  | None => parseFloatString "undefined"
  end.

(** A value inside a template literal: [undefined] prints as such. *)
Definition to_string (v : option string) : string :=
  match v with
  | Some s => s
  | None => "undefined"
  end.

(** *** [Array.prototype.sort] *)

(** [x] is put before the first element that [compare] does not place
    before it, so that equal elements keep their order (the sort is
    stable). *)
Fixpoint insertSorted {A : Type} (compare : A -> A -> Z) (x : A) (l : list A)
  : list A :=
  match l with
  | [] => [x]
  | y :: l' =>
      if 0 <? compare x y then y :: insertSorted compare x l'
      else x :: y :: l'
  end.

(** [l.sort(compare)] for a comparator that returns an integer. *)
Fixpoint sort {A : Type} (compare : A -> A -> Z) (l : list A) : list A :=
  match l with
  | [] => []
  | x :: l' => insertSorted compare x (sort compare l')
  end.

(** The value of an array index: a key that is the canonical decimal
    numeral of an integer from 0 to 2^32 - 2. *)
Definition arrayIndex (key : string) : option Z :=
  let '(v, n, rest) := scanDigits 0 0 key in
  let canonical :=
    match key with
    | String "0" (String _ _) => false
    | _ => true
    end in
  if (0 <? n) && negb (truthy_string rest) && canonical && (v <? 2 ^ 32 - 1)
  then Some v else None.

(** The order of the own keys of an object: array indices first, in
    ascending order; two other keys compare equal here. *)
Definition compareKeys (k1 k2 : string) : Z :=
  match arrayIndex k1, arrayIndex k2 with
  | Some i1, Some i2 => i1 - i2
  | Some _, None => -1
  | None, Some _ => 1
  | None, None => 0
  end.

(** [Object.values(o)] for an object used as a map: the values in the order
    of their keys.  Array indices come first, in ascending order, as in
    JavaScript; a map does not record the order of insertion, which decides
    among the other keys. *)
Definition Object_values {V : Type} (o : gmap string V) : list V :=
  (sort (fun e1 e2 => compareKeys e1.1 e2.1) (map_to_list o)).*2.

(** *** Objects used as maps, and blank text *)

(** [Object.keys(o)] for an object used as a map, in the order of
    [Object_values]. *)
Definition Object_keys {V : Type} (o : gmap string V) : list string :=
  (sort (fun e1 e2 => compareKeys e1.1 e2.1) (map_to_list o)).*1.

(** The names every object inherits from [Object.prototype]. *)
Definition inheritedNames : list string :=
  [ "constructor"; "__defineGetter__"; "__defineSetter__"; "hasOwnProperty";
    "__lookupGetter__"; "__lookupSetter__"; "isPrototypeOf";
    "propertyIsEnumerable"; "toString"; "valueOf"; "__proto__";
    "toLocaleString" ]%string.

(** What [o[key]] evaluates to: an own value, a function or object found on
    the prototype, or [undefined]. *)
Inductive Property (V : Type) :=
| Own (v : V)
| Inherited
| Undefined.

Arguments Own {V} v.
Arguments Inherited {V}.
Arguments Undefined {V}.

(** [o[key]] for an object literal used as a map. *)
Definition getProperty {V : Type} (o : gmap string V) (key : string)
  : Property V :=
  match o !! key with
  | Some v => Own v
  | None => if bool_decide (key ∈ inheritedNames) then Inherited else Undefined
  end.

(** A text made of white space only. *)
Fixpoint allWhiteSpace (s : string) : bool :=
  match s with
  | String c s' => isWhiteSpace c && allWhiteSpace s'
  | EmptyString => true
  end.

End JS.

(** ** server.js: the surf scorer *)
Module Server.

(** The object returned by [parseBuoyData]; [timestamp] holds the text
    handed to [new Date]. *)
Record BuoyReading := {
  buoyId : string;
  waveHeight : float;
  dominantPeriod : float;
  avgPeriod : float;
  waveDirection : float;
  windSpeed : float;
  windDirection : float;
  pressure : float;
  waterTemp : float;
  timestamp : string;
}.

(** [calculateSurfScore(data)]. *)
Definition calculateSurfScore (data : BuoyReading) : Z :=
  let score := 0 in
  let heightFeet := (waveHeight data * 3.28084)%float in
  let score :=
    if JS.ge heightFeet 4 && JS.le heightFeet 10 then score + 40
    else if JS.ge heightFeet 2 && JS.lt heightFeet 4 then score + 25
    else if JS.gt heightFeet 10 && JS.le heightFeet 15 then score + 30
    else score in
  let score :=
    if JS.ge (dominantPeriod data) 12 then score + 30
    else if JS.ge (dominantPeriod data) 10 then score + 20
    else if JS.ge (dominantPeriod data) 8 then score + 10
    else score in
  let windMph := (windSpeed data * 2.237)%float in
  let score :=
    if JS.lt windMph 10 then score + 20
    else if JS.lt windMph 15 then score + 10
    else score - 10 in
  let score := if JS.ge (avgPeriod data) 8 then score + 10 else score in
  JS.clamp_0_100 score.

(** The three wave-height bands of [calculateSurfScore], in the order of
    its chain: the test on the height in feet and the points added. *)
Definition heightBands : list ((float -> bool) * Z) :=
  [ (fun heightFeet => JS.ge heightFeet 4 && JS.le heightFeet 10, 40);
    (fun heightFeet => JS.ge heightFeet 2 && JS.lt heightFeet 4, 25);
    (fun heightFeet => JS.gt heightFeet 10 && JS.le heightFeet 15, 30) ].

(** What each metric adds to the running score in [calculateSurfScore]. *)
Definition heightPoints (heightFeet : float) : Z :=
  if JS.ge heightFeet 4 && JS.le heightFeet 10 then 40
  else if JS.ge heightFeet 2 && JS.lt heightFeet 4 then 25
  else if JS.gt heightFeet 10 && JS.le heightFeet 15 then 30
  else 0.

Definition periodPoints (dominantPeriod : float) : Z :=
  if JS.ge dominantPeriod 12 then 30
  else if JS.ge dominantPeriod 10 then 20
  else if JS.ge dominantPeriod 8 then 10
  else 0.

Definition windPoints (windMph : float) : Z :=
  if JS.lt windMph 10 then 20
  else if JS.lt windMph 15 then 10
  else -10.

Definition avgPeriodPoints (avgPeriod : float) : Z :=
  if JS.ge avgPeriod 8 then 10 else 0.

(** The bands of a table whose test holds for a value, and the sum of their
    points. *)
Definition matchingBands (bands : list ((float -> bool) * Z)) (x : float)
  : list ((float -> bool) * Z) :=
  filter (fun band => band.1 x = true) bands.

Definition sumPoints (bands : list ((float -> bool) * Z)) : Z :=
  foldr Z.add 0 (snd <$> bands).

(** The threshold test of the strikes route, [buoy.score >= 70]. *)
Definition isStrike (score : Z) : bool := 70 <=? score.


(** *** The buoy table, the parser and the cache *)

Record BuoyInfo := {
  name : string;
  lat : float;
  lon : float;
  region : string;
}.

(** [BUOYS], as [Object.keys] enumerates its integer-like keys: in
    ascending numeric order. *)
Definition BUOYS : list (string * BuoyInfo) :=
  [ ("46025", {| name := "Santa Monica Basin"; lat := 33.749; lon := -119.053;
                 region := "Southern CA" |});
    ("46086", {| name := "San Clemente"; lat := 32.491; lon := -118.034;
                 region := "Southern CA" |});
    ("46221", {| name := "Santa Barbara"; lat := 34.274; lon := -119.863;
                 region := "Southern CA" |});
    ("46222", {| name := "San Pedro"; lat := 33.618; lon := -118.317;
                 region := "Southern CA" |}) ]%string.

(** The object [data] that [headers.forEach] fills: [data[header]] is set to
    [latest[i]], which is [undefined] ([None]) past the end of [latest]; a
    header met again overwrites. *)
Definition assignColumns (headers latest : list string)
  : gmap string (option string) :=
  foldl (fun data '(i, header) => <[header := latest !! i]> data) ∅
        (imap (fun i header => (i, header)) headers).

(** [data.KEY]: [undefined] when the property is missing. *)
Definition getColumn (data : gmap string (option string)) (key : string)
  : option string :=
  match data !! key with
  | Some v => v
  | None => None
  end.

(** The non-blank lines, [text.split('\n').filter(l => l.trim())]. *)
Definition nonBlankLines (text : string) : list string :=
  filter (fun l => JS.truthy_string (JS.trim l) = true) (JS.split "010" text).

(** [parseBuoyData(text, buoyId)]; [None] is [null]. *)
Definition parseBuoyData (text : string) (buoyId : string)
  : option BuoyReading :=
  let lines := nonBlankLines text in
  if (length lines <? 3)%nat then None
  else
    let headers := JS.splitWhiteSpace (nth 0 lines "") in
    let latest := JS.splitWhiteSpace (nth 2 lines "") in
    let data := assignColumns headers latest in
    let number key := JS.or_zero (JS.parseFloat (getColumn data key)) in
    let text key := JS.to_string (getColumn data key) in
    Some {|
      buoyId := buoyId;
      waveHeight := number "WVHT";
      dominantPeriod := number "DPD";
      avgPeriod := number "APD";
      waveDirection := number "MWD";
      windSpeed := number "WSPD";
      windDirection := number "WDIR";
      pressure := number "PRES";
      waterTemp := number "WTMP";
      timestamp :=
        text "YY" +:+ "-" +:+ text "MM" +:+ "-" +:+ text "DD" +:+ "T"
        +:+ text "hh" +:+ ":" +:+ text "mm" +:+ ":00Z";
    |}%string.

(** A value of the cache, [{...BUOYS[buoyId], ...parsed, score}]. *)
Record BuoyEntry := {
  info : BuoyInfo;
  reading : BuoyReading;
  score : Z;
}.

(** The module's variables [buoyCache] and [lastUpdate] ([null] at first);
    a date is a number of milliseconds. *)
Record State := {
  buoyCache : gmap string BuoyEntry;
  lastUpdate : option Z;
}.

Definition initialState : State := {| buoyCache := ∅; lastUpdate := None |}.

(** One turn of the loop of [fetchAllBuoys].  [fetchText buoyId] is the body
    of the feed's response, or [None] when [fetch] or [response.text()]
    throws, which the [catch] only logs. *)
Definition fetchOneBuoy (fetchText : string -> option string)
    (results : gmap string BuoyEntry) (buoy : string * BuoyInfo)
  : gmap string BuoyEntry :=
  let '(buoyId, buoyInfo) := buoy in
  match fetchText buoyId with
  | Some text =>
      match parseBuoyData text buoyId with
      | Some parsed =>
          <[buoyId := {| info := buoyInfo; reading := parsed;
                         score := calculateSurfScore parsed |}]> results
      | None => results
      end
  | None => results
  end.

(** [fetchAllBuoys()], run at time [now] on the state [st]. *)
Definition fetchAllBuoys (fetchText : string -> option string) (now : Z)
    (st : State) : State :=
  let results := foldl (fetchOneBuoy fetchText) ∅ BUOYS in
  {| buoyCache := results; lastUpdate := Some now |}.

(** *** The route [/api/strikes] *)

Record Strike := {
  strike_type : string;
  strike_id : string;
  strike_name : string;
  strike_location : float * float;
  strike_score : Z;
  strike_data : float * float * float;
  strike_timestamp : string;
}.

(** The object pushed for a buoy of the cache. *)
Definition toStrike (buoy : BuoyEntry) : Strike :=
  {| strike_type := "surf";
     strike_id := buoyId (reading buoy);
     strike_name := name (info buoy);
     strike_location := (lat (info buoy), lon (info buoy));
     strike_score := score buoy;
     strike_data := (waveHeight (reading buoy), dominantPeriod (reading buoy),
                     windSpeed (reading buoy));
     strike_timestamp := timestamp (reading buoy) |}.

(** The handler's [forEach] over the values of the cache. *)
Definition collectStrikes (buoys : list BuoyEntry) : list Strike :=
  foldl (fun strikes buoy =>
           if isStrike (score buoy) then strikes ++ [toStrike buoy]
           else strikes)
        [] buoys.

(** The response of [GET /api/strikes]: [strikes] and [updated]. *)
Definition getStrikes (st : State) : list Strike * option Z :=
  let strikes := collectStrikes (JS.Object_values (buoyCache st)) in
  (JS.sort (fun a b => strike_score b - strike_score a) strikes,
   lastUpdate st).

(** *** The placeholder ski scorer of server.js *)

(** The arguments [weatherData] and [snowData], as far as they are read.
    An argument that is [undefined] or [null] is [None]; a property is a
    value, [undefined] when the object does not have it. *)
Record WeatherArg := {
  weather_temp : JS.Value;
  weather_windSpeed : JS.Value;
}.

Record SnowArg := {
  freshSnow24h : JS.Value;
  baseDepth : JS.Value;
}.

(** [calculateSkiScore(weatherData, snowData)] of server.js.  Each
    comparison converts the property with ToNumber: [undefined] compares as
    NaN does, [null] as 0. *)
Definition calculateSkiScore (weatherData : option WeatherArg)
    (snowData : option SnowArg) : Z :=
  let score := 0 in
  let fresh := JS.ToNumber (JS.optionalChain snowData freshSnow24h) in
  let score :=
    if JS.ge fresh 12 then score + 40
    else if JS.ge fresh 6 then score + 25
    else score in
  let temp := JS.ToNumber (JS.optionalChain weatherData weather_temp) in
  let score :=
    if JS.lt temp 32 && JS.gt temp 10 then score + 20 else score in
  let wind := JS.ToNumber (JS.optionalChain weatherData weather_windSpeed) in
  let score :=
    if JS.lt wind 20 then score + 20
    else if JS.lt wind 30 then score + 10
    else score in
  let score :=
    if JS.ge (JS.ToNumber (JS.optionalChain snowData baseDepth)) 60
    then score + 20
    else score in
  JS.clamp_0_100 score.

(** What one turn of the loop stores for a buoy: the scored reading, when
    the feed was fetched and parsed. *)
Definition storedEntry (fetchText : string -> option string)
    (buoyId : string) (buoyInfo : BuoyInfo) : option BuoyEntry :=
  text ← fetchText buoyId;
  parsed ← parseBuoyData text buoyId;
  Some {| info := buoyInfo; reading := parsed;
          score := calculateSurfScore parsed |}.

(** What a cycle stores for [buoyId]: the scored reading of a buoy of
    [BUOYS] whose feed was fetched and parsed, nothing otherwise. *)
Definition refreshedEntry (fetchText : string -> option string)
    (buoyId : string) : option BuoyEntry :=
  buoyInfo ← (list_to_map BUOYS : gmap string BuoyInfo) !! buoyId;
  storedEntry fetchText buoyId buoyInfo.

(** The metrics of a reading. *)
Definition metrics (r : BuoyReading) : list float :=
  [ waveHeight r; dominantPeriod r; avgPeriod r; waveDirection r;
    windSpeed r; windDirection r; pressure r; waterTemp r ].

(** The object [data] that [parseBuoyData] builds for a text, and the
    columns its metrics are read from, in the order of [metrics]. *)
Definition latestColumns (text : string) : gmap string (option string) :=
  let lines := nonBlankLines text in
  assignColumns (JS.splitWhiteSpace (nth 0 lines ""))
                (JS.splitWhiteSpace (nth 2 lines "")).

Definition metricColumns : list string :=
  [ "WVHT"; "DPD"; "APD"; "MWD"; "WSPD"; "WDIR"; "PRES"; "WTMP" ]%string.

(** A feed in the format of the buoy centre: a header row, a units row and
    the observations, latest first. *)
Definition sampleFeed : string :=
"#YY  MM DD hh mm WDIR WSPD GST  WVHT   DPD   APD MWD   PRES  ATMP  WTMP  DEWP  VIS PTDY  TIDE
#yr  mo dy hr mn degT m/s  m/s     m   sec   sec degT   hPa  degC  degC  degC  nmi  hPa    ft
2024 01 15 18 50 280  2.0  3.0   2.0    14  10.0 270 1015.2  14.1  15.2   9.0   MM   MM    MM
2024 01 15 18 20 280  4.0  5.0   1.9    13   9.0 270 1015.2  14.1  15.2   9.0   MM   MM    MM
".

(** A feed whose latest observation has the marker [MM] of a missing value
    in every column of a metric. *)
Definition missingFeed : string :=
"#YY  MM DD hh mm WDIR WSPD GST  WVHT   DPD   APD MWD   PRES  ATMP  WTMP  DEWP  VIS PTDY  TIDE
#yr  mo dy hr mn degT m/s  m/s     m   sec   sec degT   hPa  degC  degC  degC  nmi  hPa    ft
2024 01 15 18 50  MM   MM   MM    MM    MM    MM  MM     MM    MM    MM    MM   MM   MM    MM
".


(** *** The other routes of server.js *)

(** The tokens of the header row and of the row read as the latest
    observation, for a text of at least three non-blank lines. *)
Definition headerTokens (text : string) : list string :=
  JS.splitWhiteSpace (nth 0 (nonBlankLines text) "").

Definition latestTokens (text : string) : list string :=
  JS.splitWhiteSpace (nth 2 (nonBlankLines text) "").

(** The response of [GET /api/health]. *)
Record Health := {
  health_status : string;
  health_lastUpdate : option Z;
  health_buoysCount : nat;
}.

Definition getHealth (st : State) : Health :=
  {| health_status := "healthy";
     health_lastUpdate := lastUpdate st;
     health_buoysCount := length (JS.Object_keys (buoyCache st)) |}.

(** The response of [GET /api/buoys]: [buoys], [count] and [updated]. *)
Definition getBuoys (st : State)
  : gmap string BuoyEntry * nat * option Z :=
  (buoyCache st, length (JS.Object_keys (buoyCache st)), lastUpdate st).

(** The response of [GET /api/buoys/:id]: the status 404 when
    [buoyCache[id]] is falsy, the value as JSON otherwise; a value found on
    the prototype is a function or an object, hence not falsy. *)
Inductive BuoyResponse :=
| BuoyNotFound
| BuoyFound (buoy : BuoyEntry)
| BuoyInherited.

Definition getBuoy (st : State) (id : string) : BuoyResponse :=
  match JS.getProperty (buoyCache st) id with
  | JS.Own buoy => BuoyFound buoy
  | JS.Inherited => BuoyInherited
  | JS.Undefined => BuoyNotFound
  end.

(** The resorts of server.js. *)
Record SkiResort := {
  resort_id : string;
  resort_name : string;
  resort_lat : float;
  resort_lon : float;
  resort_region : string;
}.

Definition SKI_RESORTS : list SkiResort :=
  [ {| resort_id := "whistler"; resort_name := "Whistler Blackcomb";
       resort_lat := 50.116; resort_lon := -122.949; resort_region := "BC" |};
    {| resort_id := "jackson"; resort_name := "Jackson Hole";
       resort_lat := 43.588; resort_lon := -110.828; resort_region := "WY" |};
    {| resort_id := "alta"; resort_name := "Alta";
       resort_lat := 40.588; resort_lon := -111.638; resort_region := "UT" |} ]%string.

(** [fetchSkiWeather(lat, lon)]: the first three periods of the forecast,
    or [null] when a request or a property access throws.  [periods] is the
    forecast of the weather service for the point, [None] on any failure;
    [P] is the type of a period. *)
Definition fetchSkiWeather {P : Type}
    (periods : float -> float -> option (list P)) (lat lon : float)
  : option (list P) :=
  match periods lat lon with
  | Some ps => Some (take 3 ps)
  | None => None
  end.

(** The response of [GET /api/resorts]: [resorts] and [count]. *)
Definition getResorts : list SkiResort * nat :=
  (SKI_RESORTS, length SKI_RESORTS).

(** The response of [GET /api/resorts/:id]: 404 when no resort has the id,
    the resort and its weather (which may be [null]) otherwise. *)
Inductive ResortResponse (P : Type) :=
| ResortNotFound
| ResortFound (resort : SkiResort) (weather : option (list P)).

Arguments ResortNotFound {P}.
Arguments ResortFound {P} resort weather.

Definition getResort {P : Type}
    (periods : float -> float -> option (list P)) (id : string)
  : ResortResponse P :=
  match find (fun r => String.eqb (resort_id r) id) SKI_RESORTS with
  | None => ResortNotFound
  | Some r =>
      ResortFound r (fetchSkiWeather periods (resort_lat r) (resort_lon r))
  end.

(** A feed that has none of the columns of a metric. *)
Definition bareFeed : string :=
"time
unit
1200
".

End Server.

(** ** ski-data-fetcher.js: the ski scorer *)
Module Ski.

(** The argument object of [calculateSkiScore]. *)
Record SkiInput := {
  snow24h : float;
  snow48h : float;
  temp : float;
  windSpeed : float;
}.

(** [calculateSkiScore(data)]. *)
Definition calculateSkiScore (data : SkiInput) : Z :=
  let score := 0 in
  let score :=
    if JS.ge (snow24h data) 12 then score + 40
    else if JS.ge (snow24h data) 8 then score + 30
    else if JS.ge (snow24h data) 4 then score + 20
    else if JS.ge (snow48h data) 18 then score + 25
    else if JS.ge (snow48h data) 12 then score + 15
    else score in
  let tempF := (temp data * 9 / 5 + 32)%float in
  let score :=
    if JS.lt tempF 32 && JS.gt tempF 15 then score + 20
    else if JS.lt tempF 15 then score + 15
    else if JS.lt tempF 35 then score + 10
    else score in
  let windMph := (windSpeed data * 2.237)%float in
  let score :=
    if JS.lt windMph 15 then score + 20
    else if JS.lt windMph 25 then score + 10
    else if JS.gt windMph 40 then score - 10
    else score in
  let score :=
    if JS.ge (snow24h data) 6 && JS.lt tempF 28 then score + 10 else score in
  let score := if JS.ge (snow48h data) 20 then score + 10 else score in
  JS.clamp_0_100 score.


(** *** The resorts and the two weather adapters *)

Record Resort := {
  id : string;
  name : string;
  lat : float;
  lon : float;
  country : string;
}.

Definition SKI_RESORTS : list Resort :=
  [ {| id := "whistler"; name := "Whistler Blackcomb"; lat := 50.116; lon := -122.949; country := "CA" |};
    {| id := "baker"; name := "Mt. Baker"; lat := 48.859; lon := -121.686; country := "US" |};
    {| id := "stevens"; name := "Stevens Pass"; lat := 47.745; lon := -121.089; country := "US" |};
    {| id := "jackson"; name := "Jackson Hole"; lat := 43.588; lon := -110.828; country := "US" |};
    {| id := "alta"; name := "Alta"; lat := 40.588; lon := -111.638; country := "US" |};
    {| id := "snowbird"; name := "Snowbird"; lat := 40.583; lon := -111.657; country := "US" |};
    {| id := "brighton"; name := "Brighton"; lat := 40.598; lon := -111.583; country := "US" |};
    {| id := "solitude"; name := "Solitude"; lat := 40.619; lon := -111.592; country := "US" |};
    {| id := "vail"; name := "Vail"; lat := 39.640; lon := -106.374; country := "US" |};
    {| id := "aspen"; name := "Aspen"; lat := 39.191; lon := -106.818; country := "US" |};
    {| id := "telluride"; name := "Telluride"; lat := 37.938; lon := -107.812; country := "US" |};
    {| id := "crested"; name := "Crested Butte"; lat := 38.900; lon := -106.966; country := "US" |};
    {| id := "mammoth"; name := "Mammoth"; lat := 37.631; lon := -119.033; country := "US" |};
    {| id := "squaw"; name := "Palisades Tahoe"; lat := 39.197; lon := -120.235; country := "US" |};
    {| id := "heavenly"; name := "Heavenly"; lat := 38.935; lon := -119.940; country := "US" |};
    {| id := "valle_nevado"; name := "Valle Nevado"; lat := -33.350; lon := -70.250; country := "CL" |};
    {| id := "portillo"; name := "Portillo"; lat := -32.835; lon := -70.137; country := "CL" |};
    {| id := "las_lenas"; name := "Las Leñas"; lat := -35.148; lon := -70.078; country := "AR" |};
    {| id := "cerro_catedral"; name := "Cerro Catedral"; lat := -41.163; lon := -71.408; country := "AR" |} ]%string.

(** [data.current], as far as it is read: [temp] and [windSpeed]. *)
Record Current := {
  current_temp : option float;
  current_windSpeed : option float;
}.

(** An element of [data.forecast], as far as it is read: [main.temp] and
    [wind.speed], each [undefined] when a step of the path is missing. *)
Record ForecastItem := {
  main_temp : option float;
  wind_speed : option float;
}.

(** The object an adapter returns, as far as the rest of the file reads it. *)
Record WeatherData := {
  current : option Current;
  forecast : list ForecastItem;
  data_snow24h : option float;
  data_snow48h : option float;
  source : string;
}.

(** What the weather service answers for a point: [NoaaError] stands for a
    thrown error or a response that is not [ok], anywhere in the three
    requests; otherwise the periods of the forecast. *)
Inductive NoaaReply :=
| NoaaError
| NoaaForecast (periods : list ForecastItem).

(** An element of OpenWeather's [forecast.list]. *)
Record OwItem := {
  dt : float;
  snow_3h : option float;
  item : ForecastItem;
}.

(** What OpenWeather answers: an error thrown anywhere, or the current
    weather and the forecast list. *)
Inductive OwReply :=
| OwError
| OwForecast (cur : Current) (list : list OwItem).

(** The outside world of one run, as the adapters meet it when they are
    called for a point: what the two services answer, and what
    [Date.now() / 1000] reads in the call of [fetchOpenWeather] for that
    point.  The loop of [fetchAllSkiData], the only caller, calls an adapter
    at most once for a resort, a second or more after the call before, and
    no two resorts share their point; so the clock of each call is a value
    of its own, and nothing relates the clocks of two calls. *)
Record World := {
  noaa : float -> float -> NoaaReply;
  openweather : float -> float -> OwReply;
  OPENWEATHER_KEY : option string;
  nowSeconds : float -> float -> float;
}.

(** The adapter calls made so far, oldest first. *)
Inductive Call :=
| CallNOAA (lat lon : float)
| CallOpenWeather (lat lon : float).

(** A computation that may call adapters: it extends the log of calls. *)
Definition M (A : Type) : Type := list Call -> A * list Call.

Definition ret {A : Type} (a : A) : M A := fun log => (a, log).

Definition bind {A B : Type} (m : M A) (f : A -> M B) : M B :=
  fun log => let '(a, log') := m log in f a log'.

Definition called (c : Call) : M unit := fun log => (tt, log ++ [c]).

Notation "x <- m ;; k" := (bind m (fun x => k))
  (at level 100, m at next level, right associativity).

(** [fetchNOAAWeather(lat, lon)]: [null] on any failure; the object it
    builds has [source: 'noaa'] and neither [current], [snow24h] nor
    [snow48h]. *)
Definition fetchNOAAWeather (w : World) (lat lon : float)
  : M (option WeatherData) :=
  _ <- called (CallNOAA lat lon) ;;
  match noaa w lat lon with
  | NoaaError => ret None
  | NoaaForecast periods =>
      ret (Some {| current := None;
                   forecast := take 6 periods;
                   data_snow24h := None;
                   data_snow48h := None;
                   source := "noaa" |})
  end.

(** The accumulation loop of [fetchOpenWeather] over [forecast.list]. *)
Definition accumulateSnow (now : float) (items : list OwItem)
  : float * float :=
  foldl (fun '(snow24h, snow48h) it =>
           if JS.truthy_opt (snow_3h it) then
             let hours := ((dt it - now) / 3600)%float in
             let snowMm := JS.to_number (snow_3h it) in
             ((if JS.le hours 24 then snow24h + snowMm else snow24h)%float,
              (if JS.le hours 48 then snow48h + snowMm else snow48h)%float)
           else (snow24h, snow48h))
        (0%float, 0%float) items.

(** [fetchOpenWeather(lat, lon)]: [null] without a key or on any failure. *)
Definition fetchOpenWeather (w : World) (lat lon : float)
  : M (option WeatherData) :=
  _ <- called (CallOpenWeather lat lon) ;;
  match OPENWEATHER_KEY w with
  | None | Some EmptyString => ret None
  | Some _ =>
      match openweather w lat lon with
      | OwError => ret None
      | OwForecast cur items =>
          let now := nowSeconds w lat lon in
          let '(snow24h, snow48h) := accumulateSnow now items in
          ret (Some {| current := Some cur;
                       forecast := item <$> take 8 items;
                       data_snow24h := Some (snow24h / 25.4)%float;
                       data_snow48h := Some (snow48h / 25.4)%float;
                       source := "openweather" |})
      end
  end.

(** *** [fetchAllSkiData] and [findStrikes] *)

(** The choice of adapters in the loop of [fetchAllSkiData]: the weather
    service first for a resort of the United States, OpenWeather when it
    fails; OpenWeather alone elsewhere. *)
Definition fetchResortData (w : World) (resort : Resort)
  : M (option WeatherData) :=
  if String.eqb (country resort) "US" then
    data <- fetchNOAAWeather w (lat resort) (lon resort) ;;
    match data with
    | Some _ => ret data
    | None => fetchOpenWeather w (lat resort) (lon resort)
    end
  else fetchOpenWeather w (lat resort) (lon resort).

(** [a || 0] for a number or [undefined] [a]. *)
Definition orZero (a : option float) : float :=
  JS.to_number (JS.or a (Some 0%float)).

(** The object handed to [calculateSkiScore]. *)
Definition scoreInput (data : WeatherData) : SkiInput :=
  {| snow24h := orZero (data_snow24h data);
     snow48h := orZero (data_snow48h data);
     temp := orZero (JS.or (current data ≫= current_temp)
                           (forecast data !! 0%nat ≫= main_temp));
     windSpeed := orZero (JS.or (current data ≫= current_windSpeed)
                                (forecast data !! 0%nat ≫= wind_speed)) |}.

(** An element of the array [fetchAllSkiData] returns. *)
Record Result := {
  resort : Resort;
  weather : WeatherData;
  score : Z;
  isStrike : bool;
}.

Definition makeResult (r : Resort) (data : WeatherData) : Result :=
  let score := calculateSkiScore (scoreInput data) in
  {| resort := r; weather := data; score := score;
     isStrike := 70 <=? score |}.

(** The loop of [fetchAllSkiData] over the resorts left, [results] being the
    array built so far. *)
Fixpoint fetchEach (w : World) (resorts : list Resort) (results : list Result)
  : M (list Result) :=
  match resorts with
  | [] => ret results
  | r :: rest =>
      data <- fetchResortData w r ;;
      match data with
      | Some d => fetchEach w rest (results ++ [makeResult r d])
      | None => fetchEach w rest results
      end
  end.

(** [fetchAllSkiData()], with the log of the adapter calls it made. *)
Definition fetchAllSkiData (w : World) : list Result * list Call :=
  fetchEach w SKI_RESORTS [] [].

(** An element of the array [findStrikes] returns; a number that the source
    formats is kept as a number, and ['N/A'] is [None]. *)
Record SkiStrike := {
  strike_name : string;
  strike_location : float * float;
  strike_score : Z;
  strike_snow24h : option float;
  strike_snow48h : option float;
  strike_temp : option float;
}.

Definition toSkiStrike (r : Result) : SkiStrike :=
  {| strike_name := name (resort r);
     strike_location := (lat (resort r), lon (resort r));
     strike_score := score r;
     strike_snow24h := data_snow24h (weather r);
     strike_snow48h := data_snow48h (weather r);
     strike_temp := JS.or (current (weather r) ≫= current_temp) None |}.

(** [findStrikes(resortData)]. *)
Definition findStrikes (resortData : list Result) : list SkiStrike :=
  toSkiStrike <$>
    JS.sort (fun a b => score b - score a)
            (filter (fun r => isStrike r = true) resortData).

(** *** The fallback chain, in the words of the specification *)

Inductive Adapter :=
| NOAA
| OpenWeather.

Definition runAdapter (w : World) (a : Adapter) (lat lon : float)
  : M (option WeatherData) :=
  match a with
  | NOAA => fetchNOAAWeather w lat lon
  | OpenWeather => fetchOpenWeather w lat lon
  end.

(** The call an adapter logs, and the reading it answers with. *)
Definition callOf (lat lon : float) (a : Adapter) : Call :=
  match a with
  | NOAA => CallNOAA lat lon
  | OpenWeather => CallOpenWeather lat lon
  end.

Definition answer (w : World) (lat lon : float) (a : Adapter)
  : option WeatherData :=
  (runAdapter w a lat lon []).1.

(** The preference order of a resort, as the comments of the loop give it:
    the weather service then OpenWeather in the United States, OpenWeather
    alone elsewhere. *)
Definition preferenceOrder (r : Resort) : list Adapter :=
  if String.eqb (country r) "US" then [NOAA; OpenWeather] else [OpenWeather].

(** The resolver of the specification: each adapter of the preference order
    is tried in turn, the first that returns a reading wins, and there is no
    reading when all fail. *)
Fixpoint resolve (w : World) (lat lon : float) (adapters : list Adapter)
  : M (option WeatherData) :=
  match adapters with
  | [] => ret None
  | a :: rest =>
      data <- runAdapter w a lat lon ;;
      match data with
      | Some _ => ret data
      | None => resolve w lat lon rest
      end
  end.

(** *** Two worlds for the examples *)

(** OpenWeather's answer in both: -5 degrees, 2 m/s, and 400 mm of snow
    forecast within the day. *)
Definition snowyReply : OwReply :=
  OwForecast {| current_temp := Some (-5)%float;
                current_windSpeed := Some 2%float |}
             [ {| dt := 3600; snow_3h := Some 400%float;
                  item := {| main_temp := Some (-5)%float;
                             wind_speed := Some 2%float |} |} ].

(** The weather service is down. *)
Definition noaaDown : World :=
  {| noaa := fun _ _ => NoaaError;
     openweather := fun _ _ => snowyReply;
     OPENWEATHER_KEY := Some "key"%string;
     nowSeconds := fun _ _ => 0%float |}.

(** The weather service answers, with periods that have neither [main] nor
    [wind], as its forecasts are. *)
Definition noaaUp : World :=
  {| noaa := fun _ _ =>
       NoaaForecast [ {| main_temp := None; wind_speed := None |} ];
     openweather := fun _ _ => snowyReply;
     OPENWEATHER_KEY := Some "key"%string;
     nowSeconds := fun _ _ => 0%float |}.

Definition baker : Resort :=
  {| id := "baker"; name := "Mt. Baker"; lat := 48.859; lon := -121.686;
     country := "US" |}.

(** *** What a run does for one resort *)

(** The reading resolved for a resort and the adapter calls made for it,
    from an empty log. *)
Definition resolved (w : World) (r : Resort) : option WeatherData :=
  (fetchResortData w r []).1.

Definition callsFor (w : World) (r : Resort) : list Call :=
  (fetchResortData w r []).2.

(** The items of [forecast.list] that the accumulation loop counts in the
    48 h total: those with a truthy [snow['3h']] at most 48 hours ahead. *)
Definition counted (now : float) (it : OwItem) : bool :=
  JS.truthy_opt (snow_3h it) && JS.le ((dt it - now) / 3600)%float 48.

End Ski.

(** ** database_schema.sql: the scoring functions *)
Module Sql.

(** A [DECIMAL] value: an exact decimal, or NULL ([None]).  The special
    values [NaN] and [Infinity] of the type are left out. *)
Definition numeric : Type := option Q.

Definition mul (a b : numeric) : numeric :=
  match a, b with
  | Some x, Some y => Some (x * y)%Q
  | _, _ => None
  end.

(** Comparisons are three-valued: NULL as soon as one side is NULL. *)
Definition cmp (test : Q -> Q -> bool) (a b : numeric) : option bool :=
  match a, b with
  | Some x, Some y => Some (test x y)
  | _, _ => None
  end.

Definition ge : numeric -> numeric -> option bool :=
  cmp (fun x y => Qle_bool y x).
Definition le : numeric -> numeric -> option bool :=
  cmp (fun x y => Qle_bool x y).
Definition lt : numeric -> numeric -> option bool :=
  cmp (fun x y => negb (Qle_bool y x)).
Definition gt : numeric -> numeric -> option bool :=
  cmp (fun x y => negb (Qle_bool x y)).

(** [a AND b]. *)
Definition and3 (a b : option bool) : option bool :=
  match a, b with
  | Some false, _ | _, Some false => Some false
  | Some true, Some true => Some true
  | _, _ => None
  end.

(** The branch of an [IF] is taken when its condition is true, not when it
    is false or NULL. *)
Definition holds (c : option bool) : bool :=
  match c with
  | Some true => true
  | _ => false
  end.

(** A numeric literal. *)
Definition lit (q : Q) : numeric := Some q.

(** [calculate_surf_score(wave_height, dominant_period, wind_speed,
    avg_period)]. *)
Definition calculate_surf_score
    (wave_height dominant_period wind_speed avg_period : numeric) : Z :=
  let score := 0 in
  let height_feet := mul wave_height (lit 3.28084) in
  let wind_mph := mul wind_speed (lit 2.237) in
  let score :=
    if holds (and3 (ge height_feet (lit 4)) (le height_feet (lit 10)))
    then score + 40
    else if holds (and3 (ge height_feet (lit 2)) (lt height_feet (lit 4)))
    then score + 25
    else if holds (and3 (gt height_feet (lit 10)) (le height_feet (lit 15)))
    then score + 30
    else score in
  let score :=
    if holds (ge dominant_period (lit 12)) then score + 30
    else if holds (ge dominant_period (lit 10)) then score + 20
    else if holds (ge dominant_period (lit 8)) then score + 10
    else score in
  let score :=
    if holds (lt wind_mph (lit 10)) then score + 20
    else if holds (lt wind_mph (lit 15)) then score + 10
    else score - 10 in
  let score :=
    if holds (ge avg_period (lit 8)) then score + 10 else score in
  Z.max 0 (Z.min 100 score).

(** [calculate_ski_score(snow_24h, snow_48h, base_depth, temperature,
    wind_speed)]. *)
Definition calculate_ski_score
    (snow_24h snow_48h base_depth temperature wind_speed : numeric) : Z :=
  let score := 0 in
  let score :=
    if holds (ge snow_24h (lit 12)) then score + 40
    else if holds (ge snow_24h (lit 6)) then score + 25
    else if holds (ge snow_48h (lit 18)) then score + 30
    else score in
  let score :=
    if holds (and3 (lt temperature (lit 32)) (gt temperature (lit 10)))
    then score + 20
    else if holds (lt temperature (lit 10)) then score + 15
    else score in
  let score :=
    if holds (lt wind_speed (lit 20)) then score + 20
    else if holds (lt wind_speed (lit 30)) then score + 10
    else score in
  let score :=
    if holds (ge base_depth (lit 60)) then score + 20
    else if holds (ge base_depth (lit 40)) then score + 10
    else score in
  Z.max 0 (Z.min 100 score).

(** What each metric adds to the running score in [calculate_surf_score]. *)
Definition heightPoints (height_feet : numeric) : Z :=
  if holds (and3 (ge height_feet (lit 4)) (le height_feet (lit 10))) then 40
  else if holds (and3 (ge height_feet (lit 2)) (lt height_feet (lit 4)))
  then 25
  else if holds (and3 (gt height_feet (lit 10)) (le height_feet (lit 15)))
  then 30
  else 0.

Definition periodPoints (dominant_period : numeric) : Z :=
  if holds (ge dominant_period (lit 12)) then 30
  else if holds (ge dominant_period (lit 10)) then 20
  else if holds (ge dominant_period (lit 8)) then 10
  else 0.

Definition windPoints (wind_mph : numeric) : Z :=
  if holds (lt wind_mph (lit 10)) then 20
  else if holds (lt wind_mph (lit 15)) then 10
  else -10.

Definition avgPeriodPoints (avg_period : numeric) : Z :=
  if holds (ge avg_period (lit 8)) then 10 else 0.

End Sql.

(** ** Inputs shared by the two surf scorers *)
Module Compat.

(** A metric as the table [buoy_readings] stores it, in a [DECIMAL(5, 2)]
    column: [Some k] is the decimal [k / 100], with at most five digits, and
    [None] is a missing value. *)
Definition inColumn (v : option Z) : Prop :=
  match v with
  | Some k => -99999 <= k <= 99999
  | None => True
  end.

(** The metric as JavaScript holds it: the Number nearest to the decimal,
    or NaN when it is missing. *)
Definition jsMetric (v : option Z) : float :=
  match v with
  | Some k => JS.decimal k (-2)
  | None => PrimFloat.nan
  end.

(** The metric as PostgreSQL holds it: the decimal itself, or NULL. *)
Definition sqlMetric (v : option Z) : Sql.numeric :=
  match v with
  | Some k => Some (k # 100)
  | None => None
  end.

(** The reading JavaScript scores for four stored metrics. *)
Definition jsReading (wave dominant wind avg : option Z)
  : Server.BuoyReading :=
  {| Server.buoyId := ""; Server.waveHeight := jsMetric wave;
     Server.dominantPeriod := jsMetric dominant;
     Server.avgPeriod := jsMetric avg; Server.waveDirection := 0;
     Server.windSpeed := jsMetric wind; Server.windDirection := 0;
     Server.pressure := 0; Server.waterTemp := 0; Server.timestamp := "" |}.

(** [f] holds of the [p] integers from [lo] on. *)
Fixpoint forall_range (p : positive) (lo : Z) (f : Z -> bool) : bool :=
  match p with
  | xH => f lo
  | xO p' => forall_range p' lo f && forall_range p' (lo + Z.pos p') f
  | xI p' =>
      f lo && forall_range p' (lo + 1) f
      && forall_range p' (lo + 1 + Z.pos p') f
  end.

(** The points the SQL chains give a stored metric [k / 100], read off [k]:
    the band edges 2, 4, 10 and 15 ft fall between the hundredths of a metre
    60 and 61, 121 and 122, 304 and 305, 457 and 458; the edges 10 and
    15 mph fall between the hundredths of a metre per second 447 and 448,
    670 and 671. *)
Definition heightPointsAt (k : Z) : Z :=
  if (122 <=? k) && (k <=? 304) then 40
  else if (61 <=? k) && (k <=? 121) then 25
  else if (305 <=? k) && (k <=? 457) then 30
  else 0.

Definition periodPointsAt (k : Z) : Z :=
  if 1200 <=? k then 30
  else if 1000 <=? k then 20
  else if 800 <=? k then 10
  else 0.

Definition windPointsAt (k : Z) : Z :=
  if k <=? 447 then 20
  else if k <=? 670 then 10
  else -10.

Definition avgPeriodPointsAt (k : Z) : Z :=
  if 800 <=? k then 10 else 0.

(** JavaScript gives the stored metric [k / 100] these points. *)
Definition jsHeightPointsAt (k : Z) : bool :=
  Server.heightPoints (jsMetric (Some k) * 3.28084)%float =? heightPointsAt k.

Definition jsPeriodPointsAt (k : Z) : bool :=
  Server.periodPoints (jsMetric (Some k)) =? periodPointsAt k.

Definition jsWindPointsAt (k : Z) : bool :=
  Server.windPoints (jsMetric (Some k) * 2.237)%float =? windPointsAt k.

Definition jsAvgPeriodPointsAt (k : Z) : bool :=
  Server.avgPeriodPoints (jsMetric (Some k)) =? avgPeriodPointsAt k.

End Compat.

(** ** The strike detector *)
Module StrikeDetector.

(** Modelled from the spec: the strike detector is not in the sources, which
    compute a score at each refresh and declare the table [strikes] with its
    columns [started_at], [ended_at], [peak_score] and [peak_time]; the
    event, the state and the transitions below follow the description of
    the strike lifecycle. *)
Record StrikeEvent := {
  locationId : string;
  startedAt : Z;
  endedAt : option Z;
  peakScore : Z;
  peakAt : Z;
}.

(** Modelled from the spec: the strike threshold. *)
Definition threshold : Z := 70.

(** Modelled from the spec: the state [Active] of a location, with the time
    of its last successful reading, which the silence limit is counted
    from. *)
Record Active := {
  event : StrikeEvent;
  lastSeen : Z;
}.

(** Modelled from the spec: the state of the detector.  A location is
    [Active] when it is a key of [active] and [NoStrike] otherwise; [closed]
    holds the events emitted as closed, oldest first. *)
Record Detector := {
  active : gmap string Active;
  closed : list StrikeEvent;
}.

(** Modelled from the spec: at first every location is [NoStrike]. *)
Definition initial : Detector := {| active := ∅; closed := [] |}.

(** Modelled from the spec: the event created at the onset of a strike. *)
Definition newEvent (now : Z) (loc : string) (score : Z) : StrikeEvent :=
  {| locationId := loc; startedAt := now; endedAt := None;
     peakScore := score; peakAt := now |}.

(** Modelled from the spec: the peak is updated when a later score of the
    interval exceeds it. *)
Definition raisePeak (now score : Z) (e : StrikeEvent) : StrikeEvent :=
  if peakScore e <? score then
    {| locationId := locationId e; startedAt := startedAt e;
       endedAt := endedAt e; peakScore := score; peakAt := now |}
  else e.

(** Modelled from the spec: closing an event sets [endedAt]. *)
Definition close (now : Z) (e : StrikeEvent) : StrikeEvent :=
  {| locationId := locationId e; startedAt := startedAt e;
     endedAt := Some now; peakScore := peakScore e; peakAt := peakAt e |}.

(** Modelled from the spec: the transition on a successful score for [loc]
    at time [now]. *)
Definition onScore (now : Z) (loc : string) (score : Z) (d : Detector)
  : Detector :=
  match active d !! loc with
  | None =>
      if threshold <=? score then
        {| active := <[loc := {| event := newEvent now loc score;
                                 lastSeen := now |}]> (active d);
           closed := closed d |}
      else d
  | Some a =>
      if threshold <=? score then
        {| active := <[loc := {| event := raisePeak now score (event a);
                                 lastSeen := now |}]> (active d);
           closed := closed d |}
      else
        {| active := delete loc (active d);
           closed := closed d ++ [close now (event a)] |}
  end.

(** Modelled from the spec: a cycle that brings no reading for [loc] leaves
    its state as it is, unless it is [Active] and has been silent for more
    than [maxSilence], in which case the event is closed. *)
Definition onSilence (maxSilence now : Z) (loc : string) (d : Detector)
  : Detector :=
  match active d !! loc with
  | Some a =>
      if maxSilence <? now - lastSeen a then
        {| active := delete loc (active d);
           closed := closed d ++ [close now (event a)] |}
      else d
  | None => d
  end.

(** Modelled from the spec: what a refresh cycle reports for a location, a
    score or no reading. *)
Inductive Input :=
| Scored (now : Z) (loc : string) (score : Z)
| Silent (now : Z) (loc : string).

(** Modelled from the spec: the transition function, invoked once per
    location and cycle. *)
Definition step (maxSilence : Z) (d : Detector) (i : Input) : Detector :=
  match i with
  | Scored now loc score => onScore now loc score d
  | Silent now loc => onSilence maxSilence now loc d
  end.

(** Modelled from the spec: the detector after the inputs, from the initial
    state. *)
Definition run (maxSilence : Z) (inputs : list Input) : Detector :=
  foldl (step maxSilence) initial inputs.

(** Modelled from the spec: all the events the detector holds or has
    emitted. *)
Definition events (d : Detector) : list StrikeEvent :=
  closed d ++ (event <$> (map_to_list (active d)).*2).

(** Modelled from the spec: the open events ([endedAt == null]) of a
    location. *)
Definition openEvents (loc : string) (d : Detector) : list StrikeEvent :=
  filter (fun e => locationId e = loc /\ endedAt e = None) (events d).

(** The invariant of the detector: an active event is open and belongs to
    the location it is stored under, and an emitted event is closed. *)
Definition consistent (d : Detector) : Prop :=
  (forall loc a, active d !! loc = Some a ->
     locationId (event a) = loc /\ endedAt (event a) = None) /\
  Forall (fun e => endedAt e <> None) (closed d).

End StrikeDetector.

(** ** Theorems *)

(** *** Comparisons of binary64 values *)

Ltac fold_pos_compare :=
  repeat match goal with
  | |- context [PosDef.Pos.compare_cont Eq ?a ?b] =>
      change (PosDef.Pos.compare_cont Eq a b) with (Pos.compare a b)
  | H : context [PosDef.Pos.compare_cont Eq ?a ?b] |- _ =>
      change (PosDef.Pos.compare_cont Eq a b) with (Pos.compare a b) in H
  end.

Ltac cases_compare :=
  repeat match goal with
  | H : context [(?a ?= ?b)%Z] |- _ =>
      destruct (Z.compare_spec a b); simpl in H
  | H : context [(?a ?= ?b)%positive] |- _ =>
      destruct (Pos.compare_spec a b); simpl in H
  | |- context [(?a ?= ?b)%Z] => destruct (Z.compare_spec a b); simpl
  | |- context [(?a ?= ?b)%positive] => destruct (Pos.compare_spec a b); simpl
  end.

Lemma SFcompare_antisym (x y : spec_float) :
  SFcompare y x = option_map CompOpp (SFcompare x y).
Proof.
  destruct x as [sx|sx| |sx mx ex], y as [sy|sy| |sy my ey]; simpl;
    try reflexivity;
    try (destruct sx; reflexivity); try (destruct sy; reflexivity);
    try (destruct sx, sy; reflexivity).
  fold_pos_compare.
  rewrite (Z.compare_antisym ex ey), (Pos.compare_antisym mx my).
  destruct sx, sy; simpl; try reflexivity;
    destruct (ex ?= ey); simpl; try reflexivity;
    destruct (mx ?= my)%positive; reflexivity.
Qed.

Lemma SFcompare_lt_trans (x y z : spec_float) :
  SFcompare x y = Some Lt -> SFcompare y z = Some Lt ->
  SFcompare x z = Some Lt.
Proof.
  destruct x as [sx|sx| |sx mx ex], y as [sy|sy| |sy my ey],
           z as [sz|sz| |sz mz ez]; simpl;
    repeat match goal with s : bool |- _ => destruct s end; simpl;
    try congruence; fold_pos_compare; intros H1 H2;
    cases_compare; subst; try congruence; try lia.
Qed.

Lemma ltb_SFcompare (x y : float) :
  PrimFloat.ltb x y = true <-> SFcompare (Prim2SF x) (Prim2SF y) = Some Lt.
Proof.
  rewrite FloatAxioms.ltb_spec. unfold SFltb.
  destruct (SFcompare (Prim2SF x) (Prim2SF y)) as [[]|]; split; congruence.
Qed.

Lemma lt_not_ge (x y : float) : JS.lt x y = true -> JS.ge x y = false.
Proof.
  unfold JS.lt, JS.ge. intros H%ltb_SFcompare.
  rewrite FloatAxioms.leb_spec. unfold SFleb.
  rewrite (SFcompare_antisym (Prim2SF x) (Prim2SF y)), H. reflexivity.
Qed.

Lemma le_not_gt (x y : float) : JS.le x y = true -> JS.gt x y = false.
Proof.
  unfold JS.le, JS.gt. rewrite FloatAxioms.leb_spec, FloatAxioms.ltb_spec. unfold SFleb, SFltb.
  rewrite (SFcompare_antisym (Prim2SF x) (Prim2SF y)).
  destruct (SFcompare (Prim2SF x) (Prim2SF y)) as [[]|]; simpl; congruence.
Qed.

Lemma lt_trans (x y z : float) :
  JS.lt x y = true -> JS.lt y z = true -> JS.lt x z = true.
Proof.
  unfold JS.lt. rewrite !ltb_SFcompare. apply SFcompare_lt_trans.
Qed.

Lemma SFleb_trans (x y z : spec_float) :
  SFleb x y = true -> SFleb y z = true -> SFleb x z = true.
Proof.
  unfold SFleb.
  destruct x as [sx|sx| |sx mx ex], y as [sy|sy| |sy my ey],
           z as [sz|sz| |sz mz ez]; simpl;
    repeat match goal with s : bool |- _ => destruct s end; simpl;
    try congruence; fold_pos_compare; intros H1 H2;
    cases_compare; subst; try congruence; try lia.
Qed.

Lemma js_le_trans (x y z : float) :
  JS.le x y = true -> JS.le y z = true -> JS.le x z = true.
Proof.
  unfold JS.le. rewrite !FloatAxioms.leb_spec. apply SFleb_trans.
Qed.

Lemma js_lt_le (x y : float) : JS.lt x y = true -> JS.le x y = true.
Proof.
  unfold JS.lt, JS.le. rewrite FloatAxioms.ltb_spec, FloatAxioms.leb_spec.
  unfold SFltb, SFleb.
  destruct (SFcompare (Prim2SF x) (Prim2SF y)) as [[]|]; congruence.
Qed.

(** [x >= c] fails as soon as [x >= c'] fails for a smaller [c']. *)
Lemma ge_false_above (x c' c : float) :
  JS.le c' c = true -> JS.ge x c' = false -> JS.ge x c = false.
Proof.
  unfold JS.ge. fold (JS.le c' x) (JS.le c x). intros Hc Hx.
  destruct (JS.le c x) eqn:Hcx; [|reflexivity].
  rewrite (js_le_trans _ _ _ Hc Hcx) in Hx. discriminate.
Qed.

Lemma SFcompare_refl (x : spec_float) :
  x <> S754_nan -> SFcompare x x = Some Eq.
Proof.
  destruct x as [s|s| |s m e]; simpl; try congruence.
  - destruct s; reflexivity.
  - intros _. fold_pos_compare.
    rewrite Z.compare_refl, Pos.compare_refl. destruct s; reflexivity.
Qed.

Lemma is_nan_Prim2SF (x : float) :
  PrimFloat.is_nan x = true <-> Prim2SF x = S754_nan.
Proof.
  unfold PrimFloat.is_nan. rewrite FloatAxioms.eqb_spec. unfold SFeqb.
  split.
  - intros H. destruct (Prim2SF x) as [s|s| |s m e] eqn:Hx; [| |reflexivity|];
      rewrite SFcompare_refl in H by discriminate; discriminate.
  - intros ->. reflexivity.
Qed.

Lemma SFcompare_None (x y : spec_float) :
  SFcompare x y = None -> x = S754_nan \/ y = S754_nan.
Proof.
  destruct x as [sx|sx| |sx mx ex], y as [sy|sy| |sy my ey]; simpl;
    try discriminate; auto.
Qed.

(** A comparison with NaN on the left is false. *)
Lemma nan_compares_false (x y : float) :
  PrimFloat.is_nan x = true ->
  JS.lt x y = false /\ JS.gt x y = false /\
  JS.le x y = false /\ JS.ge x y = false.
Proof.
  intros Hx%is_nan_Prim2SF. unfold JS.lt, JS.gt, JS.le, JS.ge.
  rewrite !FloatAxioms.ltb_spec, !FloatAxioms.leb_spec. unfold SFltb, SFleb.
  rewrite (SFcompare_antisym (Prim2SF x) (Prim2SF y)), Hx. auto.
Qed.

(** Two numbers are ordered: [x < y] or [x >= y]. *)
Lemma lt_or_ge (x y : float) :
  PrimFloat.is_nan x = false -> PrimFloat.is_nan y = false ->
  JS.lt x y = true \/ JS.ge x y = true.
Proof.
  intros Hx Hy. unfold JS.lt, JS.ge.
  rewrite FloatAxioms.ltb_spec, FloatAxioms.leb_spec. unfold SFltb, SFleb.
  rewrite (SFcompare_antisym (Prim2SF x) (Prim2SF y)).
  destruct (SFcompare (Prim2SF x) (Prim2SF y)) as [[]|] eqn:Hc; simpl; auto.
  apply SFcompare_None in Hc as [Hn|Hn]; apply is_nan_Prim2SF in Hn;
    congruence.
Qed.

Lemma gt_or_le (x y : float) :
  PrimFloat.is_nan x = false -> PrimFloat.is_nan y = false ->
  JS.gt x y = true \/ JS.le x y = true.
Proof. intros Hx Hy. apply (lt_or_ge y x Hy Hx). Qed.

(** *** The scorers *)

Lemma clamp_0_100_range (score : Z) : 0 <= JS.clamp_0_100 score <= 100.
Proof. unfold JS.clamp_0_100. lia. Qed.

(** C1: for every reading, whatever its metric values (negative, infinite,
    NaN or missing), [calculateSurfScore] and [calculateSkiScore] return an
    integer between 0 and 100; so does the placeholder [calculateSkiScore]
    of server.js. *)
Theorem C1_scores_in_range :
  (forall data : Server.BuoyReading,
      0 <= Server.calculateSurfScore data <= 100) /\
  (forall data : Ski.SkiInput,
      0 <= Ski.calculateSkiScore data <= 100) /\
  (forall weatherData snowData,
      0 <= Server.calculateSkiScore weatherData snowData <= 100).
Proof.
  split; [|split]; intros.
  - unfold Server.calculateSurfScore. apply clamp_0_100_range.
  - unfold Ski.calculateSkiScore. apply clamp_0_100_range.
  - unfold Server.calculateSkiScore. apply clamp_0_100_range.
Qed.

(** The second scenario of the specification: 0.5 m, 6 s and 10 m/s give
    0 + 0 - 10, clamped to 0. *)
Example surf_score_B2 :
  Server.calculateSurfScore
    {| Server.buoyId := "B2"; Server.waveHeight := 0.5;
       Server.dominantPeriod := 6; Server.avgPeriod := 6;
       Server.waveDirection := 0; Server.windSpeed := 10;
       Server.windDirection := 0; Server.pressure := 0;
       Server.waterTemp := 0; Server.timestamp := "" |} = 0.
Proof. vm_compute. reflexivity. Qed.

(** The surf score is the clamped sum of what the four metrics add. *)
Lemma calculateSurfScore_points (data : Server.BuoyReading) :
  Server.calculateSurfScore data =
  JS.clamp_0_100
    (Server.heightPoints (Server.waveHeight data * 3.28084)%float
     + Server.periodPoints (Server.dominantPeriod data)
     + Server.windPoints (Server.windSpeed data * 2.237)%float
     + Server.avgPeriodPoints (Server.avgPeriod data)).
Proof.
  unfold Server.calculateSurfScore, Server.heightPoints, Server.periodPoints,
    Server.windPoints, Server.avgPeriodPoints.
  repeat match goal with
         | |- context [if ?c then _ else _] => destruct c
         end; reflexivity.
Qed.

(** A wave height matches at most one band, and the height chain adds the
    points of the bands matched. *)
Lemma heightBands_exclusive (heightFeet : float) :
  (length (Server.matchingBands Server.heightBands heightFeet) <= 1)%nat /\
  Server.heightPoints heightFeet =
  Server.sumPoints (Server.matchingBands Server.heightBands heightFeet).
Proof.
  unfold Server.matchingBands, Server.heightBands, Server.heightPoints,
    Server.sumPoints.
  rewrite !filter_cons, filter_nil. cbn [fst snd].
  destruct (JS.ge heightFeet 4) eqn:Hge4, (JS.le heightFeet 10) eqn:Hle10,
    (JS.ge heightFeet 2) eqn:Hge2, (JS.lt heightFeet 4) eqn:Hlt4,
    (JS.gt heightFeet 10) eqn:Hgt10, (JS.le heightFeet 15) eqn:Hle15;
    cbn [andb];
    repeat match goal with
    | H : JS.lt heightFeet 4 = true |- _ =>
        first [ rewrite (lt_not_ge _ _ H) in Hge4; discriminate
              | pose proof (lt_trans _ _ _ Hgt10 H) as Habs;
                vm_compute in Habs; discriminate ]
    | H : JS.le heightFeet 10 = true |- _ =>
        rewrite (le_not_gt _ _ H) in Hgt10; discriminate
    | |- context [decide ?P] => destruct (decide P); try congruence
    end; cbn; split; (lia || reflexivity).
Qed.

(** A wave height matches no band exactly when it is below 2 ft, above
    15 ft or not a number: the three bands cover the heights from 2 to
    15 ft. *)
Lemma heightBands_none (heightFeet : float) :
  Server.matchingBands Server.heightBands heightFeet = [] <->
  JS.lt heightFeet 2 = true \/ JS.gt heightFeet 15 = true \/
  PrimFloat.is_nan heightFeet = true.
Proof.
  unfold Server.matchingBands, Server.heightBands.
  rewrite !filter_cons, filter_nil. cbn [fst snd].
  split.
  - intros Hnone.
    destruct (PrimFloat.is_nan heightFeet) eqn:Hnan; [auto|].
    destruct (lt_or_ge heightFeet 2 Hnan eq_refl) as [Hlt|Hge2]; [auto|].
    destruct (gt_or_le heightFeet 15 Hnan eq_refl) as [Hgt|Hle15]; [auto|].
    exfalso.
    destruct (lt_or_ge heightFeet 4 Hnan eq_refl) as [Hlt4|Hge4].
    { rewrite Hge2, Hlt4 in Hnone. cbn [andb] in Hnone.
      repeat match type of Hnone with
             | context [decide ?P] => destruct (decide P)
             end; try discriminate; congruence. }
    destruct (gt_or_le heightFeet 10 Hnan eq_refl) as [Hgt10|Hle10].
    { rewrite Hgt10, Hle15 in Hnone. cbn [andb] in Hnone.
      repeat match type of Hnone with
             | context [decide ?P] => destruct (decide P)
             end; try discriminate; congruence. }
    rewrite Hge4, Hle10 in Hnone. cbn [andb] in Hnone.
    repeat match type of Hnone with
           | context [decide ?P] => destruct (decide P)
           end; try discriminate; congruence.
  - intros Hout.
    assert (H2 : JS.ge heightFeet 2 = false \/ JS.le heightFeet 15 = false).
    { destruct Hout as [Hlt|[Hgt|Hnan]].
      - left. apply lt_not_ge, Hlt.
      - right. apply (lt_not_ge 15 heightFeet), Hgt.
      - destruct (nan_compares_false heightFeet 2 Hnan) as (_ & _ & _ & H).
        left. exact H. }
    assert (Hge4 : JS.ge heightFeet 4 && JS.le heightFeet 10 = false).
    { destruct (JS.ge heightFeet 4) eqn:Hge, (JS.le heightFeet 10) eqn:Hle;
        try reflexivity. exfalso. destruct H2 as [H2|H2].
      - rewrite (ge_false_above _ 2 4 eq_refl H2) in Hge. discriminate.
      - rewrite (js_le_trans _ 10 15 Hle eq_refl) in H2. discriminate. }
    assert (Hge2 : JS.ge heightFeet 2 && JS.lt heightFeet 4 = false).
    { destruct (JS.ge heightFeet 2) eqn:Hge, (JS.lt heightFeet 4) eqn:Hlt;
        try reflexivity. exfalso. destruct H2 as [H2|H2]; [discriminate|].
      rewrite (js_le_trans _ 4 15 (js_lt_le _ _ Hlt) eq_refl) in H2.
      discriminate. }
    assert (Hgt10 : JS.gt heightFeet 10 && JS.le heightFeet 15 = false).
    { destruct (JS.gt heightFeet 10) eqn:Hgt, (JS.le heightFeet 15) eqn:Hle;
        try reflexivity. exfalso. destruct H2 as [H2|H2]; [|discriminate].
      pose proof (js_le_trans 2 10 heightFeet eq_refl (js_lt_le _ _ Hgt)) as H.
      unfold JS.ge in H2. unfold JS.le in H. congruence. }
    rewrite Hge4, Hge2, Hgt10.
    repeat match goal with
           | |- context [decide ?P] => destruct (decide P); try discriminate
           end.
    reflexivity.
Qed.

(** C4, as the code has it: the wave height of a reading matches at most
    one of the three height bands, never two, and the surf score is the
    clamped sum of the points of the bands matched and of what the other
    three metrics add.  No band is matched, and the height adds nothing,
    exactly when the height is below 2 ft, above 15 ft or not a number. *)
Theorem C4_height_bands_exclusive (data : Server.BuoyReading) :
  let heightFeet := (Server.waveHeight data * 3.28084)%float in
  let matching := Server.matchingBands Server.heightBands heightFeet in
  (length matching <= 1)%nat /\
  Server.calculateSurfScore data =
  JS.clamp_0_100
    (Server.sumPoints matching
     + Server.periodPoints (Server.dominantPeriod data)
     + Server.windPoints (Server.windSpeed data * 2.237)%float
     + Server.avgPeriodPoints (Server.avgPeriod data)) /\
  (matching = [] <->
   JS.lt heightFeet 2 = true \/ JS.gt heightFeet 15 = true \/
   PrimFloat.is_nan heightFeet = true) /\
  (JS.lt heightFeet 2 = true \/ JS.gt heightFeet 15 = true \/
   PrimFloat.is_nan heightFeet = true ->
   Server.calculateSurfScore data =
   JS.clamp_0_100
     (Server.periodPoints (Server.dominantPeriod data)
      + Server.windPoints (Server.windSpeed data * 2.237)%float
      + Server.avgPeriodPoints (Server.avgPeriod data))).
Proof.
  intros heightFeet matching.
  destruct (heightBands_exclusive heightFeet) as [Hone Hsum].
  assert (Hscore : Server.calculateSurfScore data =
            JS.clamp_0_100
              (Server.sumPoints matching
               + Server.periodPoints (Server.dominantPeriod data)
               + Server.windPoints (Server.windSpeed data * 2.237)%float
               + Server.avgPeriodPoints (Server.avgPeriod data))).
  { rewrite calculateSurfScore_points. fold heightFeet.
    rewrite Hsum. reflexivity. }
  split; [exact Hone|]. split; [exact Hscore|].
  split; [apply heightBands_none|].
  intros Hout%heightBands_none. rewrite Hscore.
  fold matching in Hout. rewrite Hout. reflexivity.
Qed.

(** The reading of the second scenario, 0.5 m or about 1.6 ft: no band is
    matched and the score is that of the other three metrics. *)
Lemma C4_height_bands_exclusive_witness :
  JS.lt (0.5 * 3.28084)%float 2 = true /\
  Server.matchingBands Server.heightBands (0.5 * 3.28084)%float = [] /\
  Server.calculateSurfScore
    {| Server.buoyId := "B2"; Server.waveHeight := 0.5;
       Server.dominantPeriod := 6; Server.avgPeriod := 6;
       Server.waveDirection := 0; Server.windSpeed := 10;
       Server.windDirection := 0; Server.pressure := 0;
       Server.waterTemp := 0; Server.timestamp := "" |}
  = JS.clamp_0_100
      (Server.periodPoints 6 + Server.windPoints (10 * 2.237)%float
       + Server.avgPeriodPoints 6).
Proof.
  pose proof (C4_height_bands_exclusive
                {| Server.buoyId := "B2"; Server.waveHeight := 0.5;
                   Server.dominantPeriod := 6; Server.avgPeriod := 6;
                   Server.waveDirection := 0; Server.windSpeed := 10;
                   Server.windDirection := 0; Server.pressure := 0;
                   Server.waterTemp := 0; Server.timestamp := "" |})
    as (_ & _ & Hnone & Hscore).
  split; [vm_compute; reflexivity|]. split.
  - apply Hnone. left. vm_compute. reflexivity.
  - apply Hscore. left. vm_compute. reflexivity.
Defined.

(** C4 as stated fails: a wave of 0.5 m (about 1.6 ft) matches no height
    band, so the number of bands that contribute is 0 and not 1. *)
Lemma C4_no_band_for_half_a_metre :
  let heightFeet := (0.5 * 3.28084)%float in
  Server.matchingBands Server.heightBands heightFeet = [] /\
  length (Server.matchingBands Server.heightBands heightFeet) <> 1%nat /\
  Server.heightPoints heightFeet = 0.
Proof. vm_compute. repeat split. discriminate. Qed.

(** C6: the reading with a wave height of 2.0 m, a dominant period of 14 s,
    an average period of 10 s and a wind of 2 m/s scores 40 + 30 + 20 + 10 =
    100, passes the strike test, and is what the strikes route returns for a
    cache that holds it. *)
Theorem C6_end_to_end_B1 (info : Server.BuoyInfo)
    (waveDirection windDirection pressure waterTemp : float)
    (timestamp : string) (updated : option Z) :
  let data :=
    {| Server.buoyId := "B1"; Server.waveHeight := 2.0;
       Server.dominantPeriod := 14; Server.avgPeriod := 10;
       Server.waveDirection := waveDirection; Server.windSpeed := 2;
       Server.windDirection := windDirection; Server.pressure := pressure;
       Server.waterTemp := waterTemp; Server.timestamp := timestamp |} in
  let entry :=
    {| Server.info := info; Server.reading := data;
       Server.score := Server.calculateSurfScore data |} in
  Server.heightPoints (2.0 * 3.28084)%float = 40 /\
  Server.periodPoints 14 = 30 /\
  Server.windPoints (2 * 2.237)%float = 20 /\
  Server.avgPeriodPoints 10 = 10 /\
  Server.calculateSurfScore data = 100 /\
  Server.isStrike (Server.calculateSurfScore data) = true /\
  Server.getStrikes {| Server.buoyCache := {[ "B1"%string := entry ]};
                       Server.lastUpdate := updated |}
  = ([Server.toStrike entry], updated).
Proof.
  intros data entry. repeat split; vm_compute; reflexivity.
Qed.

(** *** Sorting *)

Section Sort.
Context {A : Type} (compare : A -> A -> Z).

Lemma insertSorted_Permutation (x : A) (l : list A) :
  JS.insertSorted compare x l ≡ₚ x :: l.
Proof.
  induction l as [|y l IH]; cbn; [reflexivity|].
  destruct (0 <? compare x y); [|reflexivity].
  rewrite IH. apply Permutation_swap.
Qed.

Lemma sort_Permutation (l : list A) : JS.sort compare l ≡ₚ l.
Proof.
  induction l as [|x l IH]; cbn; [reflexivity|].
  rewrite insertSorted_Permutation, IH. reflexivity.
Qed.

(** A comparator [(a, b) => key(b) - key(a)] sorts by descending key. *)
Context (key : A -> Z).
Hypothesis compare_key : forall a b, compare a b = key b - key a.

Lemma insertSorted_descending (x : A) (l : list A) :
  StronglySorted (fun a b => key b <= key a) l ->
  StronglySorted (fun a b => key b <= key a) (JS.insertSorted compare x l).
Proof.
  induction 1 as [|y l Hl IH Hy]; cbn.
  - repeat constructor.
  - destruct (Z.ltb_spec 0 (compare x y)) as [Hlt|Hge];
      rewrite compare_key in *.
    + constructor; [exact IH|].
      rewrite insertSorted_Permutation. constructor; [|exact Hy].
      lia.
    + constructor; [constructor; assumption|].
      constructor; [lia|].
      eapply Forall_impl; [exact Hy|].
      cbn beta. intros z Hz. lia.
Qed.

Lemma sort_descending (l : list A) :
  StronglySorted (fun a b => key b <= key a) (JS.sort compare l).
Proof.
  induction l as [|x l IH]; cbn; [constructor|].
  apply insertSorted_descending, IH.
Qed.

End Sort.

(** Sorting the images by a comparator on the images is sorting by the
    comparator read through the map. *)
Lemma insertSorted_fmap {A B : Type} (f : A -> B) (compareB : B -> B -> Z)
    (compareA : A -> A -> Z) (x : A) (l : list A) :
  (forall a b, compareB (f a) (f b) = compareA a b) ->
  JS.insertSorted compareB (f x) (f <$> l) = f <$> JS.insertSorted compareA x l.
Proof.
  intros Hc. induction l as [|y l IH]; cbn; [reflexivity|].
  rewrite Hc. destruct (0 <? compareA x y); [|reflexivity].
  cbn. f_equal. exact IH.
Qed.

Lemma sort_fmap {A B : Type} (f : A -> B) (compareB : B -> B -> Z)
    (compareA : A -> A -> Z) (l : list A) :
  (forall a b, compareB (f a) (f b) = compareA a b) ->
  JS.sort compareB (f <$> l) = f <$> JS.sort compareA l.
Proof.
  intros Hc. induction l as [|x l IH]; cbn; [reflexivity|].
  rewrite IH. apply insertSorted_fmap, Hc.
Qed.

Lemma StronglySorted_mapped {A B : Type} (f : A -> B)
    (R : A -> A -> Prop) (S : B -> B -> Prop) (l : list A) :
  (forall a b, R a b -> S (f a) (f b)) ->
  StronglySorted R l -> StronglySorted S (f <$> l).
Proof.
  intros Hf. induction 1 as [|x l Hl IH Hx]; cbn; constructor.
  - exact IH.
  - apply Forall_fmap. eapply Forall_impl; [exact Hx|].
    intros y Hy. apply Hf, Hy.
Qed.

(** *** The strikes route and [findStrikes] *)

Lemma collectStrikes_filter (buoys : list Server.BuoyEntry) :
  Server.collectStrikes buoys =
  Server.toStrike <$>
    filter (fun buoy => Server.isStrike (Server.score buoy) = true) buoys.
Proof.
  unfold Server.collectStrikes.
  enough (Hgen : forall acc,
             foldl (fun strikes buoy =>
                      if Server.isStrike (Server.score buoy)
                      then strikes ++ [Server.toStrike buoy] else strikes)
                   acc buoys
             = acc ++ (Server.toStrike <$>
                 filter (fun buoy => Server.isStrike (Server.score buoy) = true)
                        buoys))
    by apply (Hgen []).
  induction buoys as [|b buoys IH]; intros acc; cbn [foldl].
  - rewrite filter_nil, app_nil_r. reflexivity.
  - rewrite IH, filter_cons.
    destruct (Server.isStrike (Server.score b)) eqn:Hb.
    + rewrite decide_True by reflexivity. rewrite <- app_assoc. reflexivity.
    + rewrite decide_False by discriminate. reflexivity.
Qed.

Lemma Object_values_Permutation {V : Type} (o : gmap string V) :
  JS.Object_values o ≡ₚ (map_to_list o).*2.
Proof. unfold JS.Object_values. rewrite sort_Permutation. reflexivity. Qed.

Lemma elem_of_Object_values {V : Type} (o : gmap string V) (v : V) :
  v ∈ JS.Object_values o <-> exists k, o !! k = Some v.
Proof.
  rewrite Object_values_Permutation, list_elem_of_fmap. split.
  - intros [[k v'] [-> Hin]]. exists k. apply elem_of_map_to_list, Hin.
  - intros [k Hk]. exists (k, v). split; [reflexivity|].
    apply elem_of_map_to_list, Hk.
Qed.

(** Every element of the array built by [fetchAllSkiData] carries the
    strike flag of its score. *)
Lemma fetchEach_isStrike (w : Ski.World) (resorts : list Ski.Resort) :
  forall results log,
    Forall (fun r => Ski.isStrike r = (70 <=? Ski.score r)) results ->
    Forall (fun r => Ski.isStrike r = (70 <=? Ski.score r))
           (Ski.fetchEach w resorts results log).1.
Proof.
  induction resorts as [|r rest IH]; intros results log Hres; cbn.
  - exact Hres.
  - unfold Ski.bind.
    destruct (Ski.fetchResortData w r log) as [[d|] log'].
    + apply IH. apply Forall_app. split; [exact Hres|].
      repeat constructor.
    + apply IH, Hres.
Qed.

(** C8: the strikes route returns one object for each buoy of the cache
    whose score is at least 70 and none for the others, by descending
    score; each object has the type ['surf'] and the id, name, position,
    score, metrics and timestamp of its buoy.  [findStrikes], on the array
    built by [fetchAllSkiData], returns one object for each resort whose
    score is at least 70 and none for the others, by descending score,
    with the name, position, score, snow totals and temperature of its
    resort. *)
Theorem C8_active_strikes_sorted :
  (forall st : Server.State,
      let strikes := (Server.getStrikes st).1 in
      StronglySorted
        (fun a b => Server.strike_score b <= Server.strike_score a) strikes /\
      strikes ≡ₚ
        Server.toStrike <$>
          filter (fun buoy => 70 <= Server.score buoy)
                 (map_to_list (Server.buoyCache st)).*2 /\
      (forall s, s ∈ strikes <->
         exists buoyId buoy,
           Server.buoyCache st !! buoyId = Some buoy /\
           70 <= Server.score buoy /\ s = Server.toStrike buoy) /\
      exists buoys : list Server.BuoyEntry,
        buoys ≡ₚ filter (fun buoy => 70 <= Server.score buoy)
                        (map_to_list (Server.buoyCache st)).*2 /\
        Forall2 (fun s buoy =>
                   Server.strike_type s = "surf"%string /\
                   Server.strike_id s = Server.buoyId (Server.reading buoy) /\
                   Server.strike_name s = Server.name (Server.info buoy) /\
                   Server.strike_location s =
                     (Server.lat (Server.info buoy),
                      Server.lon (Server.info buoy)) /\
                   Server.strike_score s = Server.score buoy /\
                   70 <= Server.strike_score s /\
                   Server.strike_data s =
                     (Server.waveHeight (Server.reading buoy),
                      Server.dominantPeriod (Server.reading buoy),
                      Server.windSpeed (Server.reading buoy)) /\
                   Server.strike_timestamp s =
                     Server.timestamp (Server.reading buoy))
                strikes buoys) /\
  (forall w : Ski.World,
      let resortData := (Ski.fetchAllSkiData w).1 in
      let strikes := Ski.findStrikes resortData in
      StronglySorted
        (fun a b => Ski.strike_score b <= Ski.strike_score a) strikes /\
      strikes ≡ₚ
        Ski.toSkiStrike <$> filter (fun r => 70 <= Ski.score r) resortData /\
      exists rs : list Ski.Result,
        rs ≡ₚ filter (fun r => 70 <= Ski.score r) resortData /\
        Forall2 (fun s r =>
                   Ski.strike_name s = Ski.name (Ski.resort r) /\
                   Ski.strike_location s =
                     (Ski.lat (Ski.resort r), Ski.lon (Ski.resort r)) /\
                   Ski.strike_score s = Ski.score r /\
                   70 <= Ski.strike_score s /\
                   Ski.strike_snow24h s = Ski.data_snow24h (Ski.weather r) /\
                   Ski.strike_snow48h s = Ski.data_snow48h (Ski.weather r) /\
                   Ski.strike_temp s =
                     match Ski.current (Ski.weather r) with
                     | Some cur =>
                         if JS.truthy_opt (Ski.current_temp cur)
                         then Ski.current_temp cur else None
                     | None => None
                     end)
                strikes rs).
Proof.
  split.
  - intros st strikes.
    assert (Hvalues :
              JS.sort (fun a b => Server.score b - Server.score a)
                (filter (fun buoy => Server.isStrike (Server.score buoy) = true)
                        (JS.Object_values (Server.buoyCache st)))
              ≡ₚ filter (fun buoy => 70 <= Server.score buoy)
                        (map_to_list (Server.buoyCache st)).*2).
    { rewrite sort_Permutation, Object_values_Permutation.
      erewrite list_filter_iff; [reflexivity|].
      intros buoy. unfold Server.isStrike. cbn beta.
      rewrite Z.leb_le. reflexivity. }
    assert (Hstrikes :
              strikes =
              Server.toStrike <$>
                JS.sort (fun a b => Server.score b - Server.score a)
                  (filter (fun buoy =>
                             Server.isStrike (Server.score buoy) = true)
                          (JS.Object_values (Server.buoyCache st)))).
    { subst strikes. unfold Server.getStrikes. cbn [fst].
      rewrite collectStrikes_filter. apply sort_fmap. reflexivity. }
    assert (Hperm : strikes ≡ₚ
              Server.toStrike <$>
                filter (fun buoy => 70 <= Server.score buoy)
                       (map_to_list (Server.buoyCache st)).*2).
    { rewrite Hstrikes. apply fmap_Permutation, Hvalues. }
    split; [|split; [|split]].
    + subst strikes. unfold Server.getStrikes. cbn [fst].
      apply (sort_descending _ Server.strike_score). reflexivity.
    + exact Hperm.
    + intros s. rewrite Hperm, list_elem_of_fmap. split.
      * intros [buoy [-> Hin]].
        apply list_elem_of_filter in Hin as [Hscore Hin].
        apply list_elem_of_fmap in Hin as [[k buoy'] [-> Hin]].
        exists k, buoy'. split; [apply elem_of_map_to_list, Hin|].
        split; [exact Hscore|reflexivity].
      * intros (k & buoy & Hk & Hscore & ->). exists buoy.
        split; [reflexivity|].
        apply list_elem_of_filter. split; [exact Hscore|].
        apply list_elem_of_fmap. exists (k, buoy).
        split; [reflexivity|]. apply elem_of_map_to_list, Hk.
    + eexists. split; [exact Hvalues|].
      rewrite Hstrikes. apply Forall2_fmap_l, Forall_Forall2_diag.
      apply Forall_forall. intros buoy Hin.
      rewrite Hvalues in Hin. apply list_elem_of_filter in Hin as [Hscore _].
      cbn. repeat split; try reflexivity. exact Hscore.
  - intros w resortData strikes. subst strikes. unfold Ski.findStrikes.
    assert (Hflag : Forall (fun r => Ski.isStrike r = (70 <=? Ski.score r))
                           resortData).
    { subst resortData. unfold Ski.fetchAllSkiData.
      apply fetchEach_isStrike. constructor. }
    assert (Heq : filter (fun r => Ski.isStrike r = true) resortData
                  = filter (fun r => 70 <= Ski.score r) resortData).
    { clear -Hflag. induction Hflag as [|r l Hr _ IH]; [reflexivity|].
      rewrite !filter_cons, IH.
      destruct (Z.leb_spec 70 (Ski.score r)) as [Hle|Hlt].
      * rewrite decide_True by exact Hr.
        rewrite decide_True by exact Hle. reflexivity.
      * rewrite decide_False by (rewrite Hr; discriminate).
        rewrite decide_False by lia. reflexivity. }
    split; [|split].
    + apply (StronglySorted_mapped Ski.toSkiStrike
               (fun a b => Ski.score b <= Ski.score a)).
      * intros a b Hab. exact Hab.
      * apply (sort_descending _ Ski.score). reflexivity.
    + apply fmap_Permutation. rewrite sort_Permutation, Heq. reflexivity.
    + eexists. split; [rewrite <- Heq; apply sort_Permutation|].
      apply Forall2_fmap_l, Forall_Forall2_diag.
      apply Forall_forall. intros r Hin.
      rewrite sort_Permutation, Heq in Hin.
      apply list_elem_of_filter in Hin as [Hscore _].
      cbn. repeat split; try reflexivity; [exact Hscore|].
      unfold JS.or. destruct (Ski.current (Ski.weather r)) as [cur|];
        cbn; [|reflexivity].
      destruct (JS.truthy_opt (Ski.current_temp cur)); reflexivity.
Qed.


(** *** The refresh cycle and the cache *)

Section Refresh.
Context (fetchText : string -> option string).

Lemma fetchOneBuoy_lookup (results : gmap string Server.BuoyEntry)
    (buoyId : string) (buoyInfo : Server.BuoyInfo) (k : string) :
  Server.fetchOneBuoy fetchText results (buoyId, buoyInfo) !! k =
  if decide (k = buoyId)
  then match Server.storedEntry fetchText buoyId buoyInfo with
       | Some e => Some e
       | None => results !! k
       end
  else results !! k.
Proof.
  unfold Server.fetchOneBuoy, Server.storedEntry.
  destruct (fetchText buoyId) as [text|]; cbn;
    [destruct (Server.parseBuoyData text buoyId) as [parsed|]; cbn|];
    destruct (decide (k = buoyId)) as [->|Hne]; try reflexivity.
  - apply lookup_insert_eq.
  - apply lookup_insert_ne. congruence.
Qed.

Lemma fetch_loop_lookup (buoys : list (string * Server.BuoyInfo)) :
  NoDup buoys.*1 ->
  forall (results : gmap string Server.BuoyEntry) (k : string),
    foldl (Server.fetchOneBuoy fetchText) results buoys !! k =
    match (list_to_map buoys : gmap string Server.BuoyInfo) !! k
          ≫= Server.storedEntry fetchText k with
    | Some e => Some e
    | None => results !! k
    end.
Proof.
  induction buoys as [|[buoyId buoyInfo] buoys IH]; intros Hnd results k.
  - cbn. rewrite lookup_empty. reflexivity.
  - cbn [fmap list_fmap fst] in Hnd. apply NoDup_cons in Hnd as [Hfresh Hnd].
    cbn [foldl list_to_map foldr]. rewrite (IH Hnd), fetchOneBuoy_lookup.
    cbn [uncurry fst snd].
    destruct (decide (k = buoyId)) as [->|Hne].
    + rewrite lookup_insert_eq.
      rewrite (not_elem_of_list_to_map_1 _ _ Hfresh). cbn.
      reflexivity.
    + rewrite lookup_insert_ne by congruence. reflexivity.
Qed.

Lemma BUOYS_NoDup : NoDup Server.BUOYS.*1.
Proof. apply (bool_decide_unpack _). vm_compute. exact I. Qed.

Lemma fetchAllBuoys_lookup (now : Z) (st : Server.State) (buoyId : string) :
  Server.buoyCache (Server.fetchAllBuoys fetchText now st) !! buoyId =
  Server.refreshedEntry fetchText buoyId.
Proof.
  unfold Server.fetchAllBuoys. cbn [Server.buoyCache].
  rewrite (fetch_loop_lookup _ BUOYS_NoDup), lookup_empty.
  unfold Server.refreshedEntry.
  destruct (list_to_map Server.BUOYS !! buoyId) as [buoyInfo|]; cbn;
    [|reflexivity].
  destruct (Server.storedEntry fetchText buoyId buoyInfo); reflexivity.
Qed.

End Refresh.

(** C2, as the code has it: a cycle of [fetchAllBuoys] builds a new cache
    from nothing and assigns it, so whatever the cache held before, the
    entry of a location after the cycle is the scored reading fetched and
    parsed in this cycle, and there is no entry when the fetch failed in
    this cycle (or the location is not a buoy of [BUOYS]). *)
Theorem C2_cycle_rebuilds_cache (fetchText : string -> option string)
    (now : Z) (st : Server.State) (buoyId : string) :
  let st' := Server.fetchAllBuoys fetchText now st in
  Server.buoyCache st' !! buoyId = Server.refreshedEntry fetchText buoyId /\
  ((fetchText buoyId ≫= fun text => Server.parseBuoyData text buoyId) = None ->
   Server.buoyCache st' !! buoyId = None) /\
  Server.lastUpdate st' = Some now.
Proof.
  intros st'. subst st'. rewrite fetchAllBuoys_lookup.
  split; [reflexivity|]. split; [|reflexivity].
  unfold Server.refreshedEntry, Server.storedEntry. intros Hfail.
  destruct (list_to_map Server.BUOYS !! buoyId); cbn; [|reflexivity].
  destruct (fetchText buoyId) as [text|]; cbn in *; [|reflexivity].
  rewrite Hfail. reflexivity.
Qed.

(** A cycle in which every fetch fails, after one that fetched every buoy:
    buoy 46221 has no entry left. *)
Lemma C2_cycle_rebuilds_cache_witness :
  Server.buoyCache
    (Server.fetchAllBuoys (fun _ => None) 2
       (Server.fetchAllBuoys (fun _ => Some Server.sampleFeed) 1
                             Server.initialState)) !! "46221"%string = None.
Proof.
  apply (C2_cycle_rebuilds_cache (fun _ => None) 2
           (Server.fetchAllBuoys (fun _ => Some Server.sampleFeed) 1
                                 Server.initialState) "46221").
  reflexivity.
Defined.

(** C2 as stated fails: after a cycle that fetched buoy 46221, a cycle in
    which every fetch fails leaves no entry for it; the stale entry is
    evicted, not retained. *)
Lemma C2_stale_entry_evicted :
  let st1 :=
    Server.fetchAllBuoys (fun _ => Some Server.sampleFeed) 1
                         Server.initialState in
  let st2 := Server.fetchAllBuoys (fun _ => None) 2 st1 in
  is_Some (Server.buoyCache st1 !! "46221"%string) /\
  Server.buoyCache st2 !! "46221"%string = None /\
  Server.buoyCache st2 !! "46221"%string
  <> Server.buoyCache st1 !! "46221"%string.
Proof.
  intros st1 st2. split; [|split].
  - eexists. vm_compute. reflexivity.
  - vm_compute. reflexivity.
  - vm_compute. discriminate.
Qed.

Lemma or_zero_not_nan (v : float) : PrimFloat.is_nan (JS.or_zero v) = false.
Proof.
  unfold JS.or_zero, JS.truthy.
  destruct (PrimFloat.is_nan v) eqn:Hnan, (PrimFloat.is_zero v);
    cbn [orb negb]; first [exact Hnan | reflexivity].
Qed.

Lemma or_zero_of_nan (v : float) :
  PrimFloat.is_nan v = true -> JS.or_zero v = 0%float.
Proof. unfold JS.or_zero, JS.truthy. intros ->. reflexivity. Qed.

Lemma or_zero_of_truthy (v : float) : JS.truthy v = true -> JS.or_zero v = v.
Proof. unfold JS.or_zero. intros ->. reflexivity. Qed.

Lemma parseBuoyData_metrics (text buoyId : string) (r : Server.BuoyReading) :
  Server.parseBuoyData text buoyId = Some r ->
  Server.metrics r =
  (fun key =>
     JS.or_zero (JS.parseFloat
                   (Server.getColumn (Server.latestColumns text) key)))
  <$> Server.metricColumns.
Proof.
  unfold Server.parseBuoyData, Server.latestColumns.
  destruct (length (Server.nonBlankLines text) <? 3)%nat; [discriminate|].
  intros [= <-]. reflexivity.
Qed.

(** C3, as the code has it: [parseBuoyData] returns no reading exactly when
    the text has fewer than three non-blank lines.  Otherwise it returns a
    reading in which each metric is the number parsed from its column, or 0
    when the column does not parse (or parses to 0); no metric is NaN; and a
    cycle that fetches this text for a buoy stores the scored reading in the
    cache, however many columns failed to parse. *)
Theorem C3_parse_defaults_to_zero (text buoyId : string) :
  (Server.parseBuoyData text buoyId = None <->
   (length (Server.nonBlankLines text) < 3)%nat) /\
  (forall r, Server.parseBuoyData text buoyId = Some r ->
     Forall2 (fun key x =>
                let v := JS.parseFloat
                           (Server.getColumn (Server.latestColumns text) key) in
                (PrimFloat.is_nan v = true -> x = 0%float) /\
                (JS.truthy v = true -> x = v) /\
                PrimFloat.is_nan x = false)
             Server.metricColumns (Server.metrics r) /\
     forall fetchText now st buoyInfo,
       (buoyId, buoyInfo) ∈ Server.BUOYS ->
       fetchText buoyId = Some text ->
       Server.buoyCache (Server.fetchAllBuoys fetchText now st) !! buoyId =
       Some {| Server.info := buoyInfo; Server.reading := r;
               Server.score := Server.calculateSurfScore r |}).
Proof.
  split.
  - unfold Server.parseBuoyData.
    destruct (Nat.ltb_spec (length (Server.nonBlankLines text)) 3);
      split; intros; (reflexivity || discriminate || lia).
  - intros r Hr. split.
    + rewrite (parseBuoyData_metrics _ _ _ Hr).
      apply Forall2_fmap_r, Forall_Forall2_diag, Forall_forall.
      intros key _. cbn zeta.
      split; [apply or_zero_of_nan|].
      split; [apply or_zero_of_truthy|apply or_zero_not_nan].
    + intros fetchText now st buoyInfo Hin Hfetch.
      rewrite fetchAllBuoys_lookup.
      unfold Server.refreshedEntry, Server.storedEntry.
      rewrite (elem_of_list_to_map_1 _ _ _ BUOYS_NoDup Hin). cbn.
      rewrite Hfetch. cbn. rewrite Hr. reflexivity.
Qed.

(** The sample feed parses, and a cycle that fetches it stores the reading
    of buoy 46221 with its score. *)
Lemma C3_parse_defaults_to_zero_witness :
  exists r buoyInfo,
    Server.parseBuoyData Server.sampleFeed "46221" = Some r /\
    Server.buoyCache
      (Server.fetchAllBuoys (fun _ => Some Server.sampleFeed) 1
                            Server.initialState) !! "46221"%string
    = Some {| Server.info := buoyInfo; Server.reading := r;
              Server.score := Server.calculateSurfScore r |}.
Proof.
  eexists. eexists. split; [vm_compute; reflexivity|].
  apply (C3_parse_defaults_to_zero Server.sampleFeed "46221").
  - vm_compute. reflexivity.
  - do 2 apply list_elem_of_further. apply list_elem_of_here.
  - reflexivity.
Defined.

(** C3 as stated fails: in [missingFeed] every metric column holds [MM] and
    none parses, yet [parseBuoyData] returns a reading, with every metric 0,
    and the cycle stores it in the cache with the score 20. *)
Lemma C3_unparseable_reading_cached :
  Forall (fun key =>
            PrimFloat.is_nan
              (JS.parseFloat
                 (Server.getColumn (Server.latestColumns Server.missingFeed)
                                   key)) = true)
         Server.metricColumns /\
  (exists r, Server.parseBuoyData Server.missingFeed "46221" = Some r /\
             Server.metrics r = [0; 0; 0; 0; 0; 0; 0; 0]%float) /\
  (exists e,
      Server.buoyCache
        (Server.fetchAllBuoys (fun _ => Some Server.missingFeed) 1
                              Server.initialState) !! "46221"%string
      = Some e /\
      Server.metrics (Server.reading e) = [0; 0; 0; 0; 0; 0; 0; 0]%float /\
      Server.score e = 20).
Proof.
  split; [|split].
  - unfold Server.metricColumns.
    repeat (constructor; [vm_compute; reflexivity|]). constructor.
  - eexists. split; vm_compute; reflexivity.
  - eexists. split; [vm_compute; reflexivity|].
    split; vm_compute; reflexivity.
Qed.

(** *** The fallback chain *)

Lemma runAdapter_log (w : Ski.World) (a : Ski.Adapter) (lat lon : float)
    (log : list Ski.Call) :
  Ski.runAdapter w a lat lon log =
  (Ski.answer w lat lon a, log ++ [Ski.callOf lat lon a]).
Proof.
  unfold Ski.answer.
  destruct a; cbn; unfold Ski.fetchNOAAWeather, Ski.fetchOpenWeather,
    Ski.bind, Ski.called, Ski.ret.
  - destruct (Ski.noaa w lat lon); reflexivity.
  - destruct (Ski.OPENWEATHER_KEY w) as [[|c k]|]; try reflexivity.
    destruct (Ski.openweather w lat lon) as [|cur items]; [reflexivity|].
    cbv zeta.
    destruct (Ski.accumulateSnow (Ski.nowSeconds w lat lon) items).
    reflexivity.
Qed.

(** The resolver calls the adapters in order up to the first that answers,
    and returns that answer. *)
Lemma resolve_first_answer (w : Ski.World) (lat lon : float)
    (failed : list Ski.Adapter) (a : Ski.Adapter) (rest : list Ski.Adapter)
    (r : Ski.WeatherData) :
  Forall (fun x => Ski.answer w lat lon x = None) failed ->
  Ski.answer w lat lon a = Some r ->
  forall log,
    Ski.resolve w lat lon (failed ++ a :: rest) log =
    (Some r, log ++ (Ski.callOf lat lon <$> failed ++ [a])).
Proof.
  intros Hfailed Ha. induction Hfailed as [|x failed Hx _ IH]; intros log.
  - cbn. unfold Ski.bind. rewrite runAdapter_log, Ha. reflexivity.
  - cbn. unfold Ski.bind. rewrite runAdapter_log, Hx, IH.
    rewrite <- app_assoc. reflexivity.
Qed.

Lemma fetchResortData_resolve (w : Ski.World) (resort : Ski.Resort)
    (log : list Ski.Call) :
  Ski.fetchResortData w resort log =
  Ski.resolve w (Ski.lat resort) (Ski.lon resort)
              (Ski.preferenceOrder resort) log.
Proof.
  unfold Ski.fetchResortData, Ski.preferenceOrder.
  destruct (String.eqb (Ski.country resort) "US");
    cbn [Ski.resolve Ski.runAdapter]; unfold Ski.bind.
  - destruct (Ski.fetchNOAAWeather w (Ski.lat resort) (Ski.lon resort) log)
      as [[d|] log']; [reflexivity|].
    destruct (Ski.fetchOpenWeather w (Ski.lat resort) (Ski.lon resort) log')
      as [[d|] log'']; reflexivity.
  - destruct (Ski.fetchOpenWeather w (Ski.lat resort) (Ski.lon resort) log)
      as [[d|] log']; reflexivity.
Qed.

(** C7: the loop of [fetchAllSkiData] resolves a resort as the fallback
    resolver does on the resort's preference order.  When the adapters
    [failed] at the head of the order fail and the next one, [a], answers
    with a reading, the result is that reading, the failures are not
    surfaced, and the adapters called are [failed] then [a], in this order,
    and none after [a]. *)
Theorem C7_fallback_order (w : Ski.World) (resort : Ski.Resort)
    (log : list Ski.Call) (failed : list Ski.Adapter) (a : Ski.Adapter)
    (rest : list Ski.Adapter) (r : Ski.WeatherData) :
  Ski.preferenceOrder resort = failed ++ a :: rest ->
  Forall (fun x => Ski.answer w (Ski.lat resort) (Ski.lon resort) x = None)
         failed ->
  Ski.answer w (Ski.lat resort) (Ski.lon resort) a = Some r ->
  Ski.fetchResortData w resort log =
  Ski.resolve w (Ski.lat resort) (Ski.lon resort)
              (Ski.preferenceOrder resort) log /\
  Ski.fetchResortData w resort log =
  (Some r,
   log ++ (Ski.callOf (Ski.lat resort) (Ski.lon resort) <$> failed ++ [a])).
Proof.
  intros Horder Hfailed Ha. split; [apply fetchResortData_resolve|].
  rewrite fetchResortData_resolve, Horder.
  apply resolve_first_answer; assumption.
Qed.

(** With the weather service down, Mt. Baker is resolved by OpenWeather,
    after one call to each adapter. *)
Lemma C7_fallback_order_witness :
  exists r,
    Ski.answer Ski.noaaDown (Ski.lat Ski.baker) (Ski.lon Ski.baker)
               Ski.OpenWeather = Some r /\
    Ski.fetchResortData Ski.noaaDown Ski.baker [] =
    (Some r, [Ski.CallNOAA (Ski.lat Ski.baker) (Ski.lon Ski.baker);
              Ski.CallOpenWeather (Ski.lat Ski.baker) (Ski.lon Ski.baker)]).
Proof.
  eexists. split; [vm_compute; reflexivity|].
  apply (C7_fallback_order Ski.noaaDown Ski.baker [] [Ski.NOAA]
                           Ski.OpenWeather []).
  - reflexivity.
  - repeat constructor.
  - vm_compute. reflexivity.
Defined.

(** *** Results of the weather service adapter *)

(** A reading resolved for a resort and marked ['noaa'] has neither
    [current] nor snow totals. *)
Lemma fetchResortData_noaa_shape (w : Ski.World) (resort : Ski.Resort)
    (log : list Ski.Call) (d : Ski.WeatherData) :
  (Ski.fetchResortData w resort log).1 = Some d ->
  Ski.source d = "noaa"%string ->
  Ski.current d = None /\ Ski.data_snow24h d = None /\
  Ski.data_snow48h d = None.
Proof.
  assert (Hnoaa : forall log' d',
             (Ski.fetchNOAAWeather w (Ski.lat resort) (Ski.lon resort) log').1
             = Some d' ->
             Ski.current d' = None /\ Ski.data_snow24h d' = None /\
             Ski.data_snow48h d' = None).
  { intros log' d'. unfold Ski.fetchNOAAWeather, Ski.bind, Ski.called, Ski.ret.
    destruct (Ski.noaa w (Ski.lat resort) (Ski.lon resort));
      cbn; [discriminate|]. intros [= <-]. cbn. auto. }
  assert (How : forall log' d',
             (Ski.fetchOpenWeather w (Ski.lat resort) (Ski.lon resort) log').1
             = Some d' ->
             Ski.source d' = "openweather"%string).
  { intros log' d'. unfold Ski.fetchOpenWeather, Ski.bind, Ski.called, Ski.ret.
    destruct (Ski.OPENWEATHER_KEY w) as [[|c k]|]; cbn; try discriminate.
    destruct (Ski.openweather w (Ski.lat resort) (Ski.lon resort))
      as [|cur items]; cbn; [discriminate|].
    destruct (Ski.accumulateSnow _ items). cbn.
    intros [= <-]. reflexivity. }
  unfold Ski.fetchResortData, Ski.bind.
  destruct (String.eqb (Ski.country resort) "US").
  - destruct (Ski.fetchNOAAWeather w (Ski.lat resort) (Ski.lon resort) log)
      as [[d0|] log'] eqn:Hn.
    + cbn. intros [= <-] _. apply (Hnoaa log). rewrite Hn. reflexivity.
    + intros Hd Hsrc. apply How in Hd. congruence.
  - intros Hd Hsrc. apply How in Hd. congruence.
Qed.

(** Without snow totals the ski score is at most 40, whatever the
    temperature and the wind. *)
Lemma calculateSkiScore_no_snow (temp windSpeed : float) :
  Ski.calculateSkiScore {| Ski.snow24h := 0; Ski.snow48h := 0;
                           Ski.temp := temp; Ski.windSpeed := windSpeed |}
  <= 40.
Proof.
  unfold Ski.calculateSkiScore. cbn [Ski.snow24h Ski.snow48h Ski.temp Ski.windSpeed].
  set (tempF := (temp * 9 / 5 + 32)%float).
  set (windMph := (windSpeed * 2.237)%float).
  destruct (JS.lt tempF 32), (JS.gt tempF 15), (JS.lt tempF 15),
    (JS.lt tempF 35), (JS.lt tempF 28), (JS.lt windMph 15),
    (JS.lt windMph 25), (JS.gt windMph 40);
    vm_compute; congruence.
Qed.

(** Every element of the array built by [fetchAllSkiData] is made from the
    reading resolved for its resort. *)
Lemma fetchEach_results (w : Ski.World) (P : Ski.Result -> Prop) :
  (forall resort log d,
      (Ski.fetchResortData w resort log).1 = Some d ->
      P (Ski.makeResult resort d)) ->
  forall resorts results log,
    Forall P results ->
    Forall P (Ski.fetchEach w resorts results log).1.
Proof.
  intros HP. induction resorts as [|r rest IH]; intros results log Hres.
  - exact Hres.
  - cbn [Ski.fetchEach]. unfold Ski.bind.
    destruct (Ski.fetchResortData w r log) as [[d|] log'] eqn:Hd.
    + apply IH. apply Forall_app. split; [exact Hres|].
      constructor; [|constructor]. apply (HP r log). rewrite Hd. reflexivity.
    + apply IH, Hres.
Qed.

(** C10: an element of the array built by [fetchAllSkiData] whose reading
    comes from the weather service adapter (source ['noaa']) is scored with
    both snow totals at 0, its score is at most 40, and it is not a
    strike. *)
Theorem C10_noaa_results_never_strike (w : Ski.World) (i : nat)
    (r : Ski.Result) :
  (Ski.fetchAllSkiData w).1 !! i = Some r ->
  Ski.source (Ski.weather r) = "noaa"%string ->
  Ski.snow24h (Ski.scoreInput (Ski.weather r)) = 0%float /\
  Ski.snow48h (Ski.scoreInput (Ski.weather r)) = 0%float /\
  Ski.score r = Ski.calculateSkiScore (Ski.scoreInput (Ski.weather r)) /\
  Ski.score r <= 40 /\
  Ski.isStrike r = false.
Proof.
  intros Hi.
  assert (Hall : Forall
            (fun r =>
               Ski.source (Ski.weather r) = "noaa"%string ->
               Ski.snow24h (Ski.scoreInput (Ski.weather r)) = 0%float /\
               Ski.snow48h (Ski.scoreInput (Ski.weather r)) = 0%float /\
               Ski.score r
               = Ski.calculateSkiScore (Ski.scoreInput (Ski.weather r)) /\
               Ski.score r <= 40 /\ Ski.isStrike r = false)
            (Ski.fetchAllSkiData w).1).
  { unfold Ski.fetchAllSkiData. apply fetchEach_results; [|constructor].
    intros resort log d Hd Hsrc. cbn [Ski.makeResult Ski.weather] in *.
    destruct (fetchResortData_noaa_shape _ _ _ _ Hd Hsrc)
      as (Hcur & H24 & H48).
    assert (Hle : Ski.calculateSkiScore (Ski.scoreInput d) <= 40).
    { unfold Ski.scoreInput. rewrite H24, H48.
      apply calculateSkiScore_no_snow. }
    unfold Ski.makeResult. cbn [Ski.score Ski.isStrike Ski.weather].
    repeat split.
    - unfold Ski.scoreInput. rewrite H24. reflexivity.
    - unfold Ski.scoreInput. rewrite H48. reflexivity.
    - exact Hle.
    - apply Z.leb_gt. lia. }
  eapply Forall_lookup_1 in Hall; [exact Hall|exact Hi].
Qed.

(** With the weather service up, Mt. Baker (the second resort) gets a
    reading of source ['noaa'], the score 30 and no strike. *)
Lemma C10_noaa_results_never_strike_witness :
  exists r,
    (Ski.fetchAllSkiData Ski.noaaUp).1 !! 1%nat = Some r /\
    Ski.source (Ski.weather r) = "noaa"%string /\
    Ski.score r <= 40 /\ Ski.isStrike r = false.
Proof.
  eexists. split; [vm_compute; reflexivity|].
  split; [reflexivity|].
  apply (C10_noaa_results_never_strike Ski.noaaUp 1).
  - vm_compute. reflexivity.
  - reflexivity.
Defined.

(** *** The strike detector *)

Module DetectorFacts.
Import StrikeDetector.

Lemma consistent_initial : consistent initial.
Proof.
  split; [|constructor]. intros loc a. cbn. rewrite lookup_empty.
  discriminate.
Qed.

Lemma raisePeak_same (now score : Z) (e : StrikeEvent) :
  locationId (raisePeak now score e) = locationId e /\
  endedAt (raisePeak now score e) = endedAt e.
Proof. unfold raisePeak. destruct (peakScore e <? score); split; reflexivity. Qed.

Lemma consistent_close (now : Z) (loc : string) (a : Active) (d : Detector) :
  consistent d ->
  consistent {| active := delete loc (active d);
                closed := closed d ++ [close now (event a)] |}.
Proof.
  intros [Hact Hclosed]. split; cbn.
  - intros loc' a' [_ Hold]%lookup_delete_Some. apply Hact, Hold.
  - apply Forall_app. split; [exact Hclosed|].
    constructor; [|constructor]. cbn. discriminate.
Qed.

Lemma consistent_onScore (now : Z) (loc : string) (score : Z) (d : Detector) :
  consistent d -> consistent (onScore now loc score d).
Proof.
  intros Hd. pose proof Hd as [Hact Hclosed]. unfold onScore.
  destruct (active d !! loc) as [a|] eqn:Ha;
    destruct (threshold <=? score); try exact Hd.
  - split; [|exact Hclosed]. cbn.
    intros loc' a' [[<- <-]|[_ Hold]]%lookup_insert_Some; [|apply Hact, Hold].
    cbn. destruct (raisePeak_same now score (event a)) as [-> ->].
    apply Hact, Ha.
  - apply consistent_close, Hd.
  - split; [|exact Hclosed]. cbn.
    intros loc' a' [[<- <-]|[_ Hold]]%lookup_insert_Some; [|apply Hact, Hold].
    split; reflexivity.
Qed.

Lemma consistent_onSilence (maxSilence now : Z) (loc : string) (d : Detector) :
  consistent d -> consistent (onSilence maxSilence now loc d).
Proof.
  intros Hd. unfold onSilence.
  destruct (active d !! loc) as [a|]; [|exact Hd].
  destruct (maxSilence <? now - lastSeen a); [|exact Hd].
  apply consistent_close, Hd.
Qed.

Lemma consistent_run (maxSilence : Z) (inputs : list Input) :
  consistent (run maxSilence inputs).
Proof.
  unfold run. generalize consistent_initial. generalize initial.
  induction inputs as [|i inputs IH]; intros d Hd; [exact Hd|].
  cbn [foldl]. apply IH. destruct i; cbn.
  - apply consistent_onScore, Hd.
  - apply consistent_onSilence, Hd.
Qed.

(** Among entries with distinct keys that belong to their keys, at most one
    is an open event of [loc]. *)
Lemma open_among_entries (loc : string) (l : list (string * Active)) :
  NoDup l.*1 ->
  (forall k a, (k, a) ∈ l -> locationId (event a) = k) ->
  (length (filter (fun e => locationId e = loc /\ endedAt e = None)
                  (event <$> l.*2)) <= 1)%nat /\
  (loc ∉ l.*1 ->
   filter (fun e => locationId e = loc /\ endedAt e = None)
          (event <$> l.*2) = []).
Proof.
  induction l as [|[k a] l IH]; intros Hnd Hkeys.
  - split; [cbn; lia|reflexivity].
  - cbn [fmap list_fmap fst snd] in *.
    apply NoDup_cons in Hnd as [Hk Hnd].
    destruct (IH Hnd) as [IHlen IHnone].
    { intros k' a' Hin. apply Hkeys. right. exact Hin. }
    assert (Hka : locationId (event a) = k) by (apply Hkeys; left).
    rewrite filter_cons. split.
    + destruct (decide (locationId (event a) = loc /\ endedAt (event a) = None))
        as [[Hloc _]|_]; [|exact IHlen].
      rewrite IHnone by congruence. cbn. lia.
    + intros Hnot. apply not_elem_of_cons in Hnot as [Hne Hnot].
      rewrite decide_False by (intros [Hloc _]; congruence).
      apply IHnone, Hnot.
Qed.

Lemma openEvents_consistent (loc : string) (d : Detector) :
  consistent d -> (length (openEvents loc d) <= 1)%nat.
Proof.
  intros [Hact Hclosed]. unfold openEvents, events.
  rewrite filter_app.
  assert (Hnone : filter (fun e => locationId e = loc /\ endedAt e = None)
                         (closed d) = []).
  { induction Hclosed as [|e l He _ IH]; [reflexivity|].
    rewrite filter_cons, decide_False by (intros [_ Hopen]; congruence).
    exact IH. }
  rewrite Hnone. cbn [app].
  apply open_among_entries.
  - apply NoDup_fst_map_to_list.
  - intros k a Hin%elem_of_map_to_list. apply Hact, Hin.
Qed.

End DetectorFacts.

(** C9: after any sequence of scores and silent cycles, the events the
    detector holds or has emitted contain at most one open event for each
    location. *)
Theorem C9_at_most_one_open_event (maxSilence : Z)
    (inputs : list StrikeDetector.Input) (loc : string) :
  (length (StrikeDetector.openEvents
             loc (StrikeDetector.run maxSilence inputs)) <= 1)%nat.
Proof.
  apply DetectorFacts.openEvents_consistent, DetectorFacts.consistent_run.
Qed.

(** The lifecycle of the specification: the scores 50, 80, 95 and 60 of one
    location give one event, of peak 95, closed when the score drops to
    60. *)
Example strike_lifecycle :
  StrikeDetector.events
    (StrikeDetector.run 100
       [ StrikeDetector.Scored 1 "B1" 50; StrikeDetector.Scored 2 "B1" 80;
         StrikeDetector.Scored 3 "B1" 95; StrikeDetector.Scored 4 "B1" 60 ])
  = [ {| StrikeDetector.locationId := "B1"; StrikeDetector.startedAt := 2;
         StrikeDetector.endedAt := Some 4; StrikeDetector.peakScore := 95;
         StrikeDetector.peakAt := 3 |} ].
Proof. vm_compute. reflexivity. Qed.

(** *** The two surf scorers *)

Lemma forall_range_spec (p : positive) :
  forall (lo : Z) (f : Z -> bool),
    Compat.forall_range p lo f = true ->
    forall k, lo <= k < lo + Z.pos p -> f k = true.
Proof.
  induction p as [p IH|p IH|]; intros lo f Hall k Hk; cbn in Hall.
  - apply andb_prop in Hall as [Hall H2]. apply andb_prop in Hall as [H0 H1].
    destruct (Z.eq_dec k lo) as [->|Hne]; [exact H0|].
    destruct (Z_lt_le_dec k (lo + 1 + Z.pos p)).
    + apply (IH _ _ H1). lia.
    + apply (IH _ _ H2). lia.
  - apply andb_prop in Hall as [H1 H2].
    destruct (Z_lt_le_dec k (lo + Z.pos p)).
    + apply (IH _ _ H1). lia.
    + apply (IH _ _ H2). lia.
  - assert (k = lo) as -> by lia. exact Hall.
Qed.

Ltac q_cases :=
  repeat match goal with
  | |- context [Qle_bool ?a ?b] =>
      let H := fresh "Hq" in
      destruct (Qle_bool a b) eqn:H;
      [ apply Qle_bool_iff in H
      | apply not_true_iff_false in H; rewrite Qle_bool_iff in H ];
      unfold Qle in H; cbn in H
  end.

Ltac z_cases :=
  repeat match goal with
  | |- context [(?a <=? ?b)%Z] => destruct (Z.leb_spec a b)
  end.

Ltac sql_points :=
  unfold Sql.heightPoints, Sql.periodPoints, Sql.windPoints,
    Sql.avgPeriodPoints, Sql.mul, Compat.sqlMetric, Sql.lit, Sql.ge, Sql.le,
    Sql.lt, Sql.gt, Sql.cmp, Compat.heightPointsAt, Compat.periodPointsAt,
    Compat.windPointsAt, Compat.avgPeriodPointsAt;
  q_cases; z_cases; cbn; try reflexivity; lia.

(** The SQL chains, on exact decimals, are decided by the hundredths. *)
Lemma sql_heightPoints_at (k : Z) :
  Sql.heightPoints (Sql.mul (Compat.sqlMetric (Some k)) (Sql.lit 3.28084))
  = Compat.heightPointsAt k.
Proof. sql_points. Qed.

Lemma sql_periodPoints_at (k : Z) :
  Sql.periodPoints (Compat.sqlMetric (Some k)) = Compat.periodPointsAt k.
Proof. sql_points. Qed.

Lemma sql_windPoints_at (k : Z) :
  Sql.windPoints (Sql.mul (Compat.sqlMetric (Some k)) (Sql.lit 2.237))
  = Compat.windPointsAt k.
Proof. sql_points. Qed.

Lemma sql_avgPeriodPoints_at (k : Z) :
  Sql.avgPeriodPoints (Compat.sqlMetric (Some k)) = Compat.avgPeriodPointsAt k.
Proof. sql_points. Qed.

(** The JavaScript chains, on binary64 values, are checked on each of the
    199999 values of a column. *)
Lemma js_heightPoints_column :
  Compat.forall_range 199999 (-99999) Compat.jsHeightPointsAt = true.
Proof. vm_compute. reflexivity. Qed.

Lemma js_periodPoints_column :
  Compat.forall_range 199999 (-99999) Compat.jsPeriodPointsAt = true.
Proof. vm_compute. reflexivity. Qed.

Lemma js_windPoints_column :
  Compat.forall_range 199999 (-99999) Compat.jsWindPointsAt = true.
Proof. vm_compute. reflexivity. Qed.

Lemma js_avgPeriodPoints_column :
  Compat.forall_range 199999 (-99999) Compat.jsAvgPeriodPointsAt = true.
Proof. vm_compute. reflexivity. Qed.

(** The SQL surf score is the clamped sum of what the four metrics add. *)
Lemma calculate_surf_score_points
    (wave_height dominant_period wind_speed avg_period : Sql.numeric) :
  Sql.calculate_surf_score wave_height dominant_period wind_speed avg_period =
  JS.clamp_0_100
    (Sql.heightPoints (Sql.mul wave_height (Sql.lit 3.28084))
     + Sql.periodPoints dominant_period
     + Sql.windPoints (Sql.mul wind_speed (Sql.lit 2.237))
     + Sql.avgPeriodPoints avg_period).
Proof.
  unfold Sql.calculate_surf_score, Sql.heightPoints, Sql.periodPoints,
    Sql.windPoints, Sql.avgPeriodPoints, JS.clamp_0_100.
  repeat match goal with
         | |- context [if ?c then _ else _] => destruct c
         end; reflexivity.
Qed.

Section SameColumn.
Context (v : option Z) (Hv : Compat.inColumn v).

Lemma same_heightPoints :
  Server.heightPoints (Compat.jsMetric v * 3.28084)%float =
  Sql.heightPoints (Sql.mul (Compat.sqlMetric v) (Sql.lit 3.28084)).
Proof.
  destruct v as [k|]; [|reflexivity]. cbn in Hv.
  rewrite sql_heightPoints_at. apply Z.eqb_eq.
  apply (forall_range_spec _ _ _ js_heightPoints_column). lia.
Qed.

Lemma same_periodPoints :
  Server.periodPoints (Compat.jsMetric v) =
  Sql.periodPoints (Compat.sqlMetric v).
Proof.
  destruct v as [k|]; [|reflexivity]. cbn in Hv.
  rewrite sql_periodPoints_at. apply Z.eqb_eq.
  apply (forall_range_spec _ _ _ js_periodPoints_column). lia.
Qed.

Lemma same_windPoints :
  Server.windPoints (Compat.jsMetric v * 2.237)%float =
  Sql.windPoints (Sql.mul (Compat.sqlMetric v) (Sql.lit 2.237)).
Proof.
  destruct v as [k|]; [|reflexivity]. cbn in Hv.
  rewrite sql_windPoints_at. apply Z.eqb_eq.
  apply (forall_range_spec _ _ _ js_windPoints_column). lia.
Qed.

Lemma same_avgPeriodPoints :
  Server.avgPeriodPoints (Compat.jsMetric v) =
  Sql.avgPeriodPoints (Compat.sqlMetric v).
Proof.
  destruct v as [k|]; [|reflexivity]. cbn in Hv.
  rewrite sql_avgPeriodPoints_at. apply Z.eqb_eq.
  apply (forall_range_spec _ _ _ js_avgPeriodPoints_column). lia.
Qed.

End SameColumn.

(** C5, as the code has it: the JavaScript and the SQL surf scorers have
    the same bands, and return equal scores for every reading whose four
    metrics are values of the [DECIMAL(5, 2)] columns of [buoy_readings]
    (two decimals, at most five digits) or are missing (NaN in JavaScript,
    NULL in SQL). *)
Theorem C5_surf_scorers_agree_on_columns (wave dominant wind avg : option Z) :
  Compat.inColumn wave -> Compat.inColumn dominant ->
  Compat.inColumn wind -> Compat.inColumn avg ->
  Server.calculateSurfScore (Compat.jsReading wave dominant wind avg) =
  Sql.calculate_surf_score (Compat.sqlMetric wave) (Compat.sqlMetric dominant)
                           (Compat.sqlMetric wind) (Compat.sqlMetric avg).
Proof.
  intros Hwave Hdominant Hwind Havg.
  rewrite calculateSurfScore_points, calculate_surf_score_points.
  cbn [Compat.jsReading Server.waveHeight Server.dominantPeriod
       Server.windSpeed Server.avgPeriod].
  rewrite (same_heightPoints _ Hwave), (same_periodPoints _ Hdominant),
    (same_windPoints _ Hwind), (same_avgPeriodPoints _ Havg).
  reflexivity.
Qed.

(** The stored reading 2.00 m, 14.00 s, 2.00 m/s, 10.00 s, which both
    scorers give 100. *)
Lemma C5_surf_scorers_agree_on_columns_witness :
  Server.calculateSurfScore
    (Compat.jsReading (Some 200) (Some 1400) (Some 200) (Some 1000)) = 100 /\
  Sql.calculate_surf_score (Compat.sqlMetric (Some 200))
    (Compat.sqlMetric (Some 1400)) (Compat.sqlMetric (Some 200))
    (Compat.sqlMetric (Some 1000)) = 100.
Proof.
  split; [vm_compute; reflexivity|].
  rewrite <- (C5_surf_scorers_agree_on_columns
                (Some 200) (Some 1400) (Some 200) (Some 1000));
    [vm_compute; reflexivity|cbn; lia..].
Defined.

(** The stored values are the numbers [parseFloat] reads from the feed. *)
Example jsMetric_parseFloat :
  Compat.jsMetric (Some 122) = JS.parseFloat (Some "1.22"%string) /\
  Compat.jsMetric (Some (-350)) = JS.parseFloat (Some "-3.50"%string) /\
  Compat.jsMetric None = JS.parseFloat (Some "MM"%string).
Proof. repeat split; vm_compute; reflexivity. Qed.

(** C5 as stated fails, for each scorer.  Ski: for 8 in of snow in 24 h and
    none in 48 h, at 100 degrees and 15 m/s, [calculateSkiScore] returns 30,
    a score that [calculate_ski_score] returns for no base depth,
    temperature and wind, since it gives this snow 25.  Surf: for the wave
    height 0.6095999804928006 m and the other metrics at 0, the binary64
    product with 3.28084 is 2 and JavaScript scores 25 + 20, while the exact
    product is below 2 and SQL scores 20. *)
Lemma C5_scorers_differ :
  (Ski.calculateSkiScore {| Ski.snow24h := 8; Ski.snow48h := 0;
                            Ski.temp := 100; Ski.windSpeed := 15 |} = 30 /\
   forall base_depth temperature wind_speed : Sql.numeric,
     Sql.calculate_ski_score (Some 8%Q) (Some 0%Q)
                             base_depth temperature wind_speed <> 30) /\
  (JS.parseFloat (Some "0.6095999804928006"%string)
   = JS.decimal 6095999804928006 (-16) /\
   Server.calculateSurfScore
     {| Server.buoyId := ""; Server.waveHeight := JS.decimal 6095999804928006 (-16);
        Server.dominantPeriod := 0; Server.avgPeriod := 0;
        Server.waveDirection := 0; Server.windSpeed := 0;
        Server.windDirection := 0; Server.pressure := 0;
        Server.waterTemp := 0; Server.timestamp := "" |} = 45 /\
   Sql.calculate_surf_score (Some (6095999804928006 # 10 ^ 16))
                            (Some 0%Q) (Some 0%Q) (Some 0%Q) = 20).
Proof.
  split; [split|].
  - vm_compute. reflexivity.
  - intros base_depth temperature wind_speed.
    unfold Sql.calculate_ski_score.
    repeat match goal with
    | |- context [Sql.holds ?c] =>
        lazymatch c with
        | context [base_depth] => generalize (Sql.holds c); intros []
        | context [temperature] => generalize (Sql.holds c); intros []
        | context [wind_speed] => generalize (Sql.holds c); intros []
        end
    end; vm_compute; discriminate.
  - repeat split; vm_compute; reflexivity.
Qed.

(** ** Further properties of the code *)

(** *** What a strike needs *)

Lemma periodPoints_le (dominantPeriod : float) :
  Server.periodPoints dominantPeriod <= 30.
Proof.
  unfold Server.periodPoints.
  repeat match goal with |- context [if ?c then _ else _] => destruct c end;
    lia.
Qed.

Lemma windPoints_le (windMph : float) : Server.windPoints windMph <= 20.
Proof.
  unfold Server.windPoints.
  repeat match goal with |- context [if ?c then _ else _] => destruct c end;
    lia.
Qed.

Lemma avgPeriodPoints_le (avgPeriod : float) :
  Server.avgPeriodPoints avgPeriod <= 10.
Proof. unfold Server.avgPeriodPoints. destruct (JS.ge avgPeriod 8); lia. Qed.

Lemma heightPoints_band (heightFeet : float) :
  Server.heightPoints heightFeet <> 0 ->
  JS.ge heightFeet 2 = true /\ JS.le heightFeet 15 = true.
Proof.
  unfold Server.heightPoints.
  destruct (JS.ge heightFeet 4 && JS.le heightFeet 10) eqn:H1.
  { apply andb_prop in H1 as [Hge Hle]. intros _. split.
    - unfold JS.ge in *. fold (JS.le 2 heightFeet) (JS.le 4 heightFeet) in *.
      apply (js_le_trans 2 4); [reflexivity|exact Hge].
    - apply (js_le_trans _ 10); [exact Hle|reflexivity]. }
  destruct (JS.ge heightFeet 2 && JS.lt heightFeet 4) eqn:H2.
  { apply andb_prop in H2 as [Hge Hlt]. intros _. split; [exact Hge|].
    apply (js_le_trans _ 4); [apply js_lt_le, Hlt|reflexivity]. }
  destruct (JS.gt heightFeet 10 && JS.le heightFeet 15) eqn:H3.
  { apply andb_prop in H3 as [Hgt Hle]. intros _. split; [|exact Hle].
    unfold JS.ge. fold (JS.le 2 heightFeet).
    apply (js_le_trans 2 10); [reflexivity|]. apply js_lt_le, Hgt. }
  congruence.
Qed.

(** X1: a reading is a surf strike (score at least 70) only if its wave
    height in feet lies between 2 and 15: without a height band the three
    other metrics add at most 30 + 20 + 10 = 60. *)
Theorem X1_surf_strike_needs_height_band (data : Server.BuoyReading) :
  Server.isStrike (Server.calculateSurfScore data) = true ->
  let heightFeet := (Server.waveHeight data * 3.28084)%float in
  JS.ge heightFeet 2 = true /\ JS.le heightFeet 15 = true.
Proof.
  intros Hstrike heightFeet. apply heightPoints_band. intros Hzero.
  unfold Server.isStrike in Hstrike. apply Z.leb_le in Hstrike.
  rewrite calculateSurfScore_points in Hstrike. fold heightFeet in Hstrike.
  rewrite Hzero in Hstrike.
  pose proof (periodPoints_le (Server.dominantPeriod data)).
  pose proof (windPoints_le (Server.windSpeed data * 2.237)%float).
  pose proof (avgPeriodPoints_le (Server.avgPeriod data)).
  unfold JS.clamp_0_100 in Hstrike. lia.
Qed.

(** The reading of the first scenario is a strike, at 6.56 ft. *)
Lemma X1_surf_strike_needs_height_band_witness :
  JS.ge (2.0 * 3.28084)%float 2 = true /\ JS.le (2.0 * 3.28084)%float 15 = true.
Proof.
  apply (X1_surf_strike_needs_height_band
           {| Server.buoyId := "B1"; Server.waveHeight := 2.0;
              Server.dominantPeriod := 14; Server.avgPeriod := 10;
              Server.waveDirection := 0; Server.windSpeed := 2;
              Server.windDirection := 0; Server.pressure := 0;
              Server.waterTemp := 0; Server.timestamp := "" |}).
  vm_compute. reflexivity.
Defined.

(** Without fresh snow the ski score is at most 40. *)
Lemma calculateSkiScore_little_snow (data : Ski.SkiInput) :
  JS.ge (Ski.snow24h data) 4 = false ->
  JS.ge (Ski.snow48h data) 12 = false ->
  Ski.calculateSkiScore data <= 40.
Proof.
  intros H24 H48. unfold Ski.calculateSkiScore.
  rewrite (ge_false_above _ 4 12 eq_refl H24),
    (ge_false_above _ 4 8 eq_refl H24), (ge_false_above _ 4 6 eq_refl H24),
    (ge_false_above _ 12 18 eq_refl H48), (ge_false_above _ 12 20 eq_refl H48),
    H24, H48.
  cbn [andb].
  set (tempF := (Ski.temp data * 9 / 5 + 32)%float).
  set (windMph := (Ski.windSpeed data * 2.237)%float).
  destruct (JS.lt tempF 32), (JS.gt tempF 15), (JS.lt tempF 15),
    (JS.lt tempF 35), (JS.lt windMph 15),
    (JS.lt windMph 25), (JS.gt windMph 40);
    vm_compute; congruence.
Qed.

(** X2: [calculateSkiScore] reaches the strike threshold only with fresh
    snow: at least 4 in over 24 h or at least 12 in over 48 h. *)
Theorem X2_ski_strike_needs_snow (data : Ski.SkiInput) :
  70 <= Ski.calculateSkiScore data ->
  JS.ge (Ski.snow24h data) 4 = true \/ JS.ge (Ski.snow48h data) 12 = true.
Proof.
  intros Hstrike.
  destruct (JS.ge (Ski.snow24h data) 4) eqn:H24; [left; reflexivity|].
  destruct (JS.ge (Ski.snow48h data) 12) eqn:H48; [right; reflexivity|].
  pose proof (calculateSkiScore_little_snow data H24 H48). lia.
Qed.

(** A foot of snow at -5 degrees and 2 m/s is a strike. *)
Lemma X2_ski_strike_needs_snow_witness :
  JS.ge 12 4 = true \/ JS.ge 0 12 = true.
Proof.
  apply (X2_ski_strike_needs_snow
           {| Ski.snow24h := 12; Ski.snow48h := 0; Ski.temp := -5;
              Ski.windSpeed := 2 |}).
  vm_compute. discriminate.
Defined.

(** Only a number can be at least 6: [undefined] compares as NaN, [null]
    as 0 and a boolean as 0 or 1. *)
Lemma ToNumber_ge_6 (v : JS.Value) :
  JS.ge (JS.ToNumber v) 6 = true ->
  exists x, v = JS.VNumber x /\ JS.ge x 6 = true.
Proof.
  destruct v as [| |[]|x]; cbn [JS.ToNumber]; intros H;
    try (vm_compute in H; discriminate).
  exists x. split; [reflexivity|exact H].
Qed.

(** X3: on arguments whose properties are numbers, booleans, [null] or
    [undefined], the placeholder [calculateSkiScore] of server.js reaches
    the strike threshold only when [snowData] is an object whose
    [freshSnow24h] is a number of at least 6: the weather and the base depth
    add at most 20 + 20 + 20 = 60, whether their properties are numbers,
    [null] (which compares as 0, so that a [null] wind speed adds 20) or
    [undefined]. *)
Theorem X3_placeholder_strike_needs_snow
    (weatherData : option Server.WeatherArg)
    (snowData : option Server.SnowArg) :
  70 <= Server.calculateSkiScore weatherData snowData ->
  exists snow x,
    snowData = Some snow /\ Server.freshSnow24h snow = JS.VNumber x /\
    JS.ge x 6 = true.
Proof.
  intros Hstrike.
  assert (Hfresh :
            JS.ge (JS.ToNumber (JS.optionalChain snowData Server.freshSnow24h))
                  6 = true).
  { destruct (JS.ge (JS.ToNumber
                       (JS.optionalChain snowData Server.freshSnow24h)) 6)
      eqn:H6; [reflexivity|exfalso].
    revert Hstrike. unfold Server.calculateSkiScore.
    rewrite (ge_false_above _ 6 12 eq_refl H6), H6.
    set (temp := JS.ToNumber (JS.optionalChain weatherData Server.weather_temp)).
    set (wind :=
           JS.ToNumber (JS.optionalChain weatherData Server.weather_windSpeed)).
    set (base := JS.ToNumber (JS.optionalChain snowData Server.baseDepth)).
    destruct (JS.lt temp 32), (JS.gt temp 10), (JS.lt wind 20),
      (JS.lt wind 30), (JS.ge base 60); vm_compute; congruence. }
  apply ToNumber_ge_6 in Hfresh as [x [Hx Hge]].
  destruct snowData as [snow|]; [|discriminate].
  exists snow, x. split; [reflexivity|]. split; [exact Hx|exact Hge].
Qed.

(** Six inches of fresh snow on a deep base at 20 degrees, with a wind speed
    that is [null]: 25 + 20 + 20 + 20 = 85. *)
Lemma X3_placeholder_strike_needs_snow_witness :
  Server.calculateSkiScore
    (Some {| Server.weather_temp := JS.VNumber 20;
             Server.weather_windSpeed := JS.VNull |})
    (Some {| Server.freshSnow24h := JS.VNumber 6;
             Server.baseDepth := JS.VNumber 60 |}) = 85 /\
  exists snow x,
    Some {| Server.freshSnow24h := JS.VNumber 6;
            Server.baseDepth := JS.VNumber 60 |} = Some snow /\
    Server.freshSnow24h snow = JS.VNumber x /\ JS.ge x 6 = true.
Proof.
  split; [vm_compute; reflexivity|].
  apply (X3_placeholder_strike_needs_snow
           (Some {| Server.weather_temp := JS.VNumber 20;
                    Server.weather_windSpeed := JS.VNull |})).
  vm_compute. discriminate.
Defined.

(** With every property [null] the wind chain alone adds its 20 points. *)
Example placeholder_score_of_null :
  Server.calculateSkiScore
    (Some {| Server.weather_temp := JS.VNull;
             Server.weather_windSpeed := JS.VNull |})
    (Some {| Server.freshSnow24h := JS.VNull;
             Server.baseDepth := JS.VNull |}) = 20.
Proof. vm_compute. reflexivity. Qed.

(** *** The columns of the feed *)

Lemma assignColumns_snoc (headers latest : list string) (header : string) :
  Server.assignColumns (headers ++ [header]) latest =
  <[header := latest !! length headers]> (Server.assignColumns headers latest).
Proof.
  unfold Server.assignColumns.
  rewrite imap_app, foldl_app. cbn. rewrite Nat.add_0_r. reflexivity.
Qed.

(** A column that no header names is [undefined]. *)
Lemma getColumn_missing (headers latest : list string) (key : string) :
  key ∉ headers ->
  Server.getColumn (Server.assignColumns headers latest) key = None.
Proof.
  unfold Server.getColumn.
  induction headers as [|header headers IH] using rev_ind; intros Hkey.
  - unfold Server.assignColumns. cbn. rewrite lookup_empty. reflexivity.
  - rewrite assignColumns_snoc.
    apply not_elem_of_app in Hkey as [Hkey Hne].
    rewrite lookup_insert_ne by set_solver. apply IH, Hkey.
Qed.

(** A column is read at the position of the last header that names it. *)
Lemma getColumn_last (headers latest : list string) (key : string) (i : nat) :
  headers !! i = Some key -> key ∉ drop (S i) headers ->
  Server.getColumn (Server.assignColumns headers latest) key = latest !! i.
Proof.
  unfold Server.getColumn. revert i.
  induction headers as [|header headers IH] using rev_ind; intros i Hi Hlast.
  - discriminate.
  - rewrite assignColumns_snoc.
    destruct (decide (i = length headers)) as [->|Hne].
    + rewrite list_lookup_middle in Hi by reflexivity.
      injection Hi as ->. rewrite lookup_insert_eq. reflexivity.
    + assert (Hlt : (i < length headers)%nat).
      { apply lookup_lt_Some in Hi. rewrite length_app in Hi. cbn in Hi. lia. }
      rewrite lookup_app_l in Hi by exact Hlt.
      rewrite drop_app_le in Hlast by lia.
      apply not_elem_of_app in Hlast as [Hlast Hheader].
      rewrite lookup_insert_ne by set_solver.
      apply IH; assumption.
Qed.

Lemma parseBuoyData_Some (text buoyId : string) (r : Server.BuoyReading) :
  Server.parseBuoyData text buoyId = Some r ->
  let column key :=
    Server.getColumn
      (Server.assignColumns (Server.headerTokens text)
                            (Server.latestTokens text)) key in
  Server.buoyId r = buoyId /\
  Server.metrics r =
    (fun key => JS.or_zero (JS.parseFloat (column key)))
    <$> Server.metricColumns /\
  Server.timestamp r =
    (JS.to_string (column "YY") +:+ "-" +:+ JS.to_string (column "MM") +:+ "-"
     +:+ JS.to_string (column "DD") +:+ "T" +:+ JS.to_string (column "hh")
     +:+ ":" +:+ JS.to_string (column "mm") +:+ ":00Z")%string.
Proof.
  unfold Server.parseBuoyData, Server.headerTokens, Server.latestTokens.
  destruct (length (Server.nonBlankLines text) <? 3)%nat; [discriminate|].
  intros [= <-]. repeat split.
Qed.

(** X4: [parseBuoyData] finds each metric by the name of its column, at
    the position of the last header token with that name, and reads the
    token at that position in the third non-blank line; the metric is 0
    when this token does not parse or when the row is too short. *)
Theorem X4_metric_read_by_column_name (text buoyId : string)
    (r : Server.BuoyReading) :
  Server.parseBuoyData text buoyId = Some r ->
  Forall2 (fun key x =>
             forall i,
               Server.headerTokens text !! i = Some key ->
               key ∉ drop (S i) (Server.headerTokens text) ->
               x = JS.or_zero (JS.parseFloat (Server.latestTokens text !! i))
               /\ (Server.latestTokens text !! i = None -> x = 0%float))
          Server.metricColumns (Server.metrics r).
Proof.
  intros Hr. destruct (parseBuoyData_Some _ _ _ Hr) as (_ & -> & _).
  apply Forall2_fmap_r, Forall_Forall2_diag, Forall_forall.
  intros key _ i Hi Hlast. rewrite (getColumn_last _ _ _ _ Hi Hlast).
  split; [reflexivity|]. intros ->. vm_compute. reflexivity.
Qed.

(** In the sample feed the wave height is the ninth column. *)
Lemma X4_metric_read_by_column_name_witness :
  exists r,
    Server.parseBuoyData Server.sampleFeed "46221" = Some r /\
    Server.waveHeight r =
      JS.or_zero (JS.parseFloat (Server.latestTokens Server.sampleFeed !! 8%nat)).
Proof.
  eexists. split; [vm_compute; reflexivity|].
  pose proof (X4_metric_read_by_column_name Server.sampleFeed "46221" _
                ltac:(vm_compute; reflexivity)) as Hall.
  apply Forall2_cons_1 in Hall as [Hwave _].
  apply (Hwave 8%nat); [vm_compute; reflexivity|].
  apply (bool_decide_unpack _). vm_compute. exact I.
Defined.

(** X5: a metric whose column is named by no token of the header row is
    0 in the reading. *)
Theorem X5_missing_column_is_zero (text buoyId : string)
    (r : Server.BuoyReading) :
  Server.parseBuoyData text buoyId = Some r ->
  Forall2 (fun key x => key ∉ Server.headerTokens text -> x = 0%float)
          Server.metricColumns (Server.metrics r).
Proof.
  intros Hr. destruct (parseBuoyData_Some _ _ _ Hr) as (_ & -> & _).
  apply Forall2_fmap_r, Forall_Forall2_diag, Forall_forall.
  intros key _ Hkey. rewrite (getColumn_missing _ _ _ Hkey).
  vm_compute. reflexivity.
Qed.

(** A feed with no column of a metric: every metric is 0. *)
Lemma X5_missing_column_is_zero_witness :
  exists r,
    Server.parseBuoyData Server.bareFeed "46221" = Some r /\
    Server.waveHeight r = 0%float.
Proof.
  eexists. split; [vm_compute; reflexivity|].
  pose proof (X5_missing_column_is_zero Server.bareFeed "46221" _
                ltac:(vm_compute; reflexivity)) as Hall.
  apply Forall2_cons_1 in Hall as [Hwave _].
  apply Hwave. apply (bool_decide_unpack _). vm_compute. exact I.
Defined.

(** X6: when no token of the header row is [YY], the text handed to
    [new Date] starts with ["undefined-"]; this is so for the feed of the
    buoy centre, whose header row starts with [#YY]. *)
Theorem X6_timestamp_undefined_year (text buoyId : string)
    (r : Server.BuoyReading) :
  Server.parseBuoyData text buoyId = Some r ->
  "YY"%string ∉ Server.headerTokens text ->
  exists rest, Server.timestamp r = ("undefined-" +:+ rest)%string.
Proof.
  intros Hr Hyy. destruct (parseBuoyData_Some _ _ _ Hr) as (_ & _ & ->).
  rewrite (getColumn_missing _ _ _ Hyy). eexists. reflexivity.
Qed.

Lemma X6_timestamp_undefined_year_witness :
  exists r rest,
    Server.parseBuoyData Server.sampleFeed "46221" = Some r /\
    Server.timestamp r = ("undefined-" +:+ rest)%string.
Proof.
  eexists.
  destruct (X6_timestamp_undefined_year Server.sampleFeed "46221" _
              ltac:(vm_compute; reflexivity)
              ltac:(apply (bool_decide_unpack _); vm_compute; exact I))
    as [rest Hrest].
  exists rest. split; [vm_compute; reflexivity|exact Hrest].
Defined.

(** X7: a reading whose wind speed column does not parse is scored as calm:
    the wind speed defaults to 0 and the wind chain adds its full 20
    points. *)
Theorem X7_missing_wind_scored_as_calm (text buoyId : string)
    (r : Server.BuoyReading) :
  Server.parseBuoyData text buoyId = Some r ->
  PrimFloat.is_nan
    (JS.parseFloat (Server.getColumn (Server.latestColumns text) "WSPD"))
  = true ->
  Server.windSpeed r = 0%float /\
  Server.windPoints (Server.windSpeed r * 2.237)%float = 20 /\
  Server.calculateSurfScore r =
  JS.clamp_0_100
    (Server.heightPoints (Server.waveHeight r * 3.28084)%float
     + Server.periodPoints (Server.dominantPeriod r)
     + 20 + Server.avgPeriodPoints (Server.avgPeriod r)).
Proof.
  intros Hr Hnan.
  assert (Hwind : Server.windSpeed r = 0%float).
  { pose proof (parseBuoyData_metrics _ _ _ Hr) as Hm.
    unfold Server.metrics, Server.metricColumns in Hm. cbn [fmap list_fmap] in Hm.
    injection Hm as _ _ _ _ -> _ _ _. apply or_zero_of_nan, Hnan. }
  split; [exact Hwind|].
  rewrite calculateSurfScore_points, Hwind. split; reflexivity.
Qed.

Lemma X7_missing_wind_scored_as_calm_witness :
  exists r,
    Server.parseBuoyData Server.missingFeed "46221" = Some r /\
    Server.windPoints (Server.windSpeed r * 2.237)%float = 20.
Proof.
  eexists. split; [vm_compute; reflexivity|].
  apply (X7_missing_wind_scored_as_calm Server.missingFeed "46221");
    vm_compute; reflexivity.
Defined.

(** *** Blank lines *)

Lemma split_nonempty (sep : ascii) (s : string) : JS.split sep s <> [].
Proof.
  destruct s as [|c s]; cbn; [discriminate|].
  destruct (Ascii.eqb c sep); [discriminate|].
  destruct (JS.split sep s); discriminate.
Qed.

Lemma split_app (sep : ascii) (a b : string) :
  JS.split sep (a +:+ String sep b) = JS.split sep a ++ JS.split sep b.
Proof.
  induction a as [|c a IH].
  - change (""%string +:+ String sep b) with (String sep b). cbn.
    rewrite Ascii.eqb_refl. reflexivity.
  - change (String c a +:+ String sep b) with (String c (a +:+ String sep b)).
    cbn. destruct (Ascii.eqb c sep); [rewrite IH; reflexivity|].
    rewrite IH. pose proof (split_nonempty sep a).
    destruct (JS.split sep a); [congruence|reflexivity].
Qed.

Lemma trim_allWhiteSpace (s : string) :
  JS.allWhiteSpace s = true -> JS.trim s = ""%string.
Proof.
  unfold JS.trim. induction s as [|c s IH]; cbn; [reflexivity|].
  intros [Hc Hs]%andb_prop. rewrite Hc. apply IH, Hs.
Qed.

Lemma split_allWhiteSpace (sep : ascii) (s : string) :
  JS.allWhiteSpace s = true ->
  Forall (fun piece => JS.allWhiteSpace piece = true) (JS.split sep s).
Proof.
  induction s as [|c s IH]; cbn; [repeat constructor|].
  intros [Hc Hs]%andb_prop. specialize (IH Hs).
  destruct (Ascii.eqb c sep); [constructor; [reflexivity|exact IH]|].
  destruct IH as [|w ws Hw Hws]; repeat constructor; cbn;
    rewrite ?Hc, ?Hw; try reflexivity; assumption.
Qed.

Lemma nonBlankLines_allWhiteSpace (s : string) :
  JS.allWhiteSpace s = true -> Server.nonBlankLines s = [].
Proof.
  intros Hs. unfold Server.nonBlankLines.
  induction (split_allWhiteSpace "010" s Hs) as [|w ws Hw _ IH];
    [reflexivity|].
  rewrite filter_cons, decide_False; [exact IH|].
  rewrite (trim_allWhiteSpace _ Hw). discriminate.
Qed.

Lemma nonBlankLines_app (a b : string) :
  Server.nonBlankLines (a +:+ String "010" b) =
  Server.nonBlankLines a ++ Server.nonBlankLines b.
Proof.
  unfold Server.nonBlankLines. rewrite split_app, filter_app. reflexivity.
Qed.

Lemma nonBlankLines_blank_first (blank b : string) :
  JS.allWhiteSpace blank = true ->
  Server.nonBlankLines (blank +:+ String "010" b) = Server.nonBlankLines b.
Proof.
  intros Hblank.
  rewrite nonBlankLines_app, (nonBlankLines_allWhiteSpace _ Hblank).
  reflexivity.
Qed.

Lemma nonBlankLines_blank_last (a blank : string) :
  JS.allWhiteSpace blank = true ->
  Server.nonBlankLines (a +:+ String "010" blank) = Server.nonBlankLines a.
Proof.
  intros Hblank.
  rewrite nonBlankLines_app, (nonBlankLines_allWhiteSpace _ Hblank).
  apply app_nil_r.
Qed.

(** X8: [parseBuoyData] ignores blank lines: a line of white space added
    between two lines of a text, before the first or after the last changes
    nothing. *)
Theorem X8_blank_lines_ignored (a blank b buoyId : string) :
  JS.allWhiteSpace blank = true ->
  Server.parseBuoyData (a +:+ String "010" (blank +:+ String "010" b)) buoyId
  = Server.parseBuoyData (a +:+ String "010" b) buoyId /\
  Server.parseBuoyData (blank +:+ String "010" b) buoyId
  = Server.parseBuoyData b buoyId /\
  Server.parseBuoyData (a +:+ String "010" blank) buoyId
  = Server.parseBuoyData a buoyId.
Proof.
  intros Hblank. unfold Server.parseBuoyData.
  rewrite (nonBlankLines_app a (blank +:+ String "010" b)),
    (nonBlankLines_app a b),
    (nonBlankLines_blank_first _ _ Hblank),
    (nonBlankLines_blank_last _ _ Hblank).
  repeat split.
Qed.

Lemma X8_blank_lines_ignored_witness :
  Server.parseBuoyData
    ("WVHT DPD" +:+ String "010"
       ("   " +:+ String "010" ("m s" +:+ String "010" "1.5 9")))%string
    "46221"
  = Server.parseBuoyData
      ("WVHT DPD" +:+ String "010" ("m s" +:+ String "010" "1.5 9"))%string
      "46221" /\
  Server.parseBuoyData
    ("   " +:+ String "010" ("m s" +:+ String "010" "1.5 9"))%string "46221"
  = Server.parseBuoyData ("m s" +:+ String "010" "1.5 9")%string "46221" /\
  Server.parseBuoyData ("WVHT DPD" +:+ String "010" "   ")%string "46221"
  = Server.parseBuoyData "WVHT DPD"%string "46221".
Proof.
  apply (X8_blank_lines_ignored "WVHT DPD" "   "
           ("m s" +:+ String "010" "1.5 9") "46221").
  reflexivity.
Defined.

(** *** The cache after a cycle, and the routes that read it *)

Lemma parseBuoyData_buoyId (text buoyId : string) (r : Server.BuoyReading) :
  Server.parseBuoyData text buoyId = Some r -> Server.buoyId r = buoyId.
Proof.
  unfold Server.parseBuoyData.
  destruct (length (Server.nonBlankLines text) <? 3)%nat; [discriminate|].
  intros [= <-]. reflexivity.
Qed.

Lemma refreshedEntry_Some (fetchText : string -> option string)
    (k : string) (e : Server.BuoyEntry) :
  Server.refreshedEntry fetchText k = Some e <->
  exists buoyInfo,
    (k, buoyInfo) ∈ Server.BUOYS /\
    Server.storedEntry fetchText k buoyInfo = Some e.
Proof.
  unfold Server.refreshedEntry. split.
  - destruct (list_to_map Server.BUOYS !! k) as [buoyInfo|] eqn:Hk; cbn;
      [|discriminate].
    intros He. exists buoyInfo. split; [|exact He].
    apply elem_of_list_to_map_2, Hk.
  - intros (buoyInfo & Hin & He).
    rewrite (elem_of_list_to_map_1 _ _ _ BUOYS_NoDup Hin). exact He.
Qed.

Lemma storedEntry_Some (fetchText : string -> option string)
    (k : string) (buoyInfo : Server.BuoyInfo) (e : Server.BuoyEntry) :
  Server.storedEntry fetchText k buoyInfo = Some e ->
  exists text,
    fetchText k = Some text /\
    Server.parseBuoyData text k = Some (Server.reading e) /\
    Server.info e = buoyInfo /\
    Server.score e = Server.calculateSurfScore (Server.reading e).
Proof.
  unfold Server.storedEntry.
  destruct (fetchText k) as [text|]; cbn; [|discriminate].
  destruct (Server.parseBuoyData text k) as [parsed|] eqn:Hp; cbn;
    [|discriminate].
  intros [= <-]. exists text. cbn. auto.
Qed.

(** X9: after a cycle of [fetchAllBuoys], every entry of the cache sits
    under the id of a buoy of [BUOYS], carries that buoy's static data and
    that id as its [buoyId], holds the reading parsed from the text fetched
    for that id in this cycle, and a score that is the surf score of this
    reading, between 0 and 100. *)
Theorem X9_cache_entries_after_cycle (fetchText : string -> option string)
    (now : Z) (st : Server.State) (k : string) (e : Server.BuoyEntry) :
  Server.buoyCache (Server.fetchAllBuoys fetchText now st) !! k = Some e ->
  (k, Server.info e) ∈ Server.BUOYS /\
  Server.buoyId (Server.reading e) = k /\
  (exists text, fetchText k = Some text /\
                Server.parseBuoyData text k = Some (Server.reading e)) /\
  Server.score e = Server.calculateSurfScore (Server.reading e) /\
  0 <= Server.score e <= 100.
Proof.
  rewrite fetchAllBuoys_lookup. intros (buoyInfo & Hin & He)%refreshedEntry_Some.
  destruct (storedEntry_Some _ _ _ _ He) as (text & Hf & Hp & Hinfo & Hscore).
  subst buoyInfo. split; [exact Hin|].
  split; [apply (parseBuoyData_buoyId _ _ _ Hp)|].
  split; [exists text; auto|]. split; [exact Hscore|].
  rewrite Hscore. unfold Server.calculateSurfScore. apply clamp_0_100_range.
Qed.

Lemma X9_cache_entries_after_cycle_witness :
  exists e,
    Server.buoyCache
      (Server.fetchAllBuoys (fun _ => Some Server.sampleFeed) 1
                            Server.initialState) !! "46221"%string = Some e /\
    ("46221"%string, Server.info e) ∈ Server.BUOYS /\
    Server.buoyId (Server.reading e) = "46221"%string /\
    (exists text, Some Server.sampleFeed = Some text /\
                  Server.parseBuoyData text "46221" = Some (Server.reading e)) /\
    Server.score e = Server.calculateSurfScore (Server.reading e) /\
    0 <= Server.score e <= 100.
Proof.
  eexists. split; [vm_compute; reflexivity|].
  apply (X9_cache_entries_after_cycle (fun _ => Some Server.sampleFeed) 1
           Server.initialState "46221").
  vm_compute. reflexivity.
Defined.

Lemma Object_keys_length {V : Type} (o : gmap string V) :
  length (JS.Object_keys o) = size o.
Proof.
  unfold JS.Object_keys. rewrite length_fmap.
  rewrite (Permutation_length (sort_Permutation _ _)).
  apply length_map_to_list.
Qed.

(** The loop of [fetchAllBuoys] adds one entry per buoy fetched and
    parsed. *)
Lemma fetch_loop_size (fetchText : string -> option string)
    (buoys : list (string * Server.BuoyInfo)) :
  NoDup buoys.*1 ->
  forall results : gmap string Server.BuoyEntry,
    (forall k, k ∈ buoys.*1 -> results !! k = None) ->
    size (foldl (Server.fetchOneBuoy fetchText) results buoys) =
    (size results
     + length (filter (fun b => is_Some (Server.storedEntry fetchText b.1 b.2))
                      buoys))%nat.
Proof.
  induction buoys as [|[k buoyInfo] buoys IH]; intros Hnd results Hfresh.
  - cbn. lia.
  - cbn [fmap list_fmap fst] in *. apply NoDup_cons in Hnd as [Hk Hnd].
    cbn [foldl]. rewrite filter_cons. cbn [fst snd].
    assert (Hstep : forall k', k' ∈ buoys.*1 ->
              Server.fetchOneBuoy fetchText results (k, buoyInfo) !! k' = None).
    { intros k' Hk'. rewrite fetchOneBuoy_lookup.
      rewrite decide_False by (intros ->; contradiction).
      apply Hfresh. right. exact Hk'. }
    rewrite (IH Hnd _ Hstep).
    assert (Hsize : size (Server.fetchOneBuoy fetchText results (k, buoyInfo))
                    = (size results
                       + if decide (is_Some (Server.storedEntry fetchText k buoyInfo))
                         then 1 else 0)%nat).
    { unfold Server.fetchOneBuoy, Server.storedEntry.
      destruct (fetchText k) as [text|]; cbn;
        [destruct (Server.parseBuoyData text k) as [parsed|]; cbn|].
      - rewrite decide_True by (eexists; reflexivity).
        rewrite map_size_insert_None by (apply Hfresh; left). lia.
      - rewrite decide_False by (intros [? ?]; discriminate). lia.
      - rewrite decide_False by (intros [? ?]; discriminate). lia. }
    rewrite Hsize.
    destruct (decide (is_Some (Server.storedEntry fetchText k buoyInfo)));
      cbn [length]; lia.
Qed.

Lemma count_after_cycle (fetchText : string -> option string)
    (now : Z) (st : Server.State) :
  size (Server.buoyCache (Server.fetchAllBuoys fetchText now st)) =
  length (filter (fun b => is_Some (Server.storedEntry fetchText b.1 b.2))
                 Server.BUOYS) /\
  (size (Server.buoyCache (Server.fetchAllBuoys fetchText now st)) <= 4)%nat.
Proof.
  unfold Server.fetchAllBuoys. cbn [Server.buoyCache].
  rewrite (fetch_loop_size _ _ BUOYS_NoDup) by (intros; apply lookup_empty).
  rewrite map_size_empty. cbn [Nat.add]. split; [reflexivity|].
  etrans; [apply length_filter|]. reflexivity.
Qed.

(** X10: after a cycle, the count that [/api/health] and [/api/buoys]
    report is the number of buoys of [BUOYS] whose feed was fetched and
    parsed in this cycle, at most the four buoys of the table, and the
    time they report is that of the cycle. *)
Theorem X10_count_after_cycle (fetchText : string -> option string)
    (now : Z) (st : Server.State) :
  let st' := Server.fetchAllBuoys fetchText now st in
  let fetched :=
    filter (fun b => is_Some (Server.storedEntry fetchText b.1 b.2))
           Server.BUOYS in
  Server.health_buoysCount (Server.getHealth st') = length fetched /\
  (Server.getBuoys st').1.2 = length fetched /\
  (length fetched <= 4)%nat /\
  Server.health_lastUpdate (Server.getHealth st') = Some now /\
  (Server.getBuoys st').2 = Some now.
Proof.
  intros st' fetched.
  destruct (count_after_cycle fetchText now st) as [Hsize Hle].
  fold st' fetched in Hsize, Hle.
  unfold Server.getHealth, Server.getBuoys.
  cbn [Server.health_buoysCount Server.health_lastUpdate fst snd].
  rewrite Object_keys_length, Hsize. repeat split. lia.
Qed.

Lemma getStrikes_Permutation (st : Server.State) :
  (Server.getStrikes st).1 ≡ₚ
  Server.toStrike <$>
    filter (fun buoy => Server.isStrike (Server.score buoy) = true)
           (map_to_list (Server.buoyCache st)).*2.
Proof.
  unfold Server.getStrikes. cbn [fst].
  rewrite sort_Permutation, collectStrikes_filter, Object_values_Permutation.
  reflexivity.
Qed.

(** The ids of the values kept by a filter are among the keys, in order. *)
Lemma filtered_ids_sublist {V : Type} (id : V -> string) (P : V -> Prop)
    `{!forall v, Decision (P v)} (l : list (string * V)) :
  Forall (fun kv => id kv.2 = kv.1) l ->
  sublist (id <$> filter P l.*2) l.*1.
Proof.
  induction 1 as [|[k v] l Hkv _ IH].
  - constructor.
  - rewrite !fmap_cons. cbn [fst snd] in *. rewrite filter_cons.
    destruct (decide (P v)).
    + rewrite fmap_cons, Hkv. constructor. exact IH.
    + constructor. exact IH.
Qed.

(** X11: after a cycle, [/api/strikes] lists no buoy twice and at most the
    four buoys of [BUOYS]; each strike is the entry stored in this cycle for
    a buoy of the table, of type ['surf'] and of score from 70 to 100; and
    every buoy stored in this cycle with a score of at least 70 is listed. *)
Theorem X11_strikes_after_cycle (fetchText : string -> option string)
    (now : Z) (st : Server.State) :
  let strikes :=
    (Server.getStrikes (Server.fetchAllBuoys fetchText now st)).1 in
  NoDup (Server.strike_id <$> strikes) /\
  (length strikes <= 4)%nat /\
  Forall (fun s =>
            Server.strike_type s = "surf"%string /\
            70 <= Server.strike_score s <= 100 /\
            exists buoyInfo e,
              (Server.strike_id s, buoyInfo) ∈ Server.BUOYS /\
              Server.storedEntry fetchText (Server.strike_id s) buoyInfo
              = Some e /\
              s = Server.toStrike e)
         strikes /\
  (forall k buoyInfo e,
      (k, buoyInfo) ∈ Server.BUOYS ->
      Server.storedEntry fetchText k buoyInfo = Some e ->
      70 <= Server.score e ->
      Server.toStrike e ∈ strikes).
Proof.
  intros strikes.
  set (st' := Server.fetchAllBuoys fetchText now st) in *.
  pose proof (getStrikes_Permutation st') as Hperm. fold strikes in Hperm.
  assert (Hentries : Forall
            (fun kv : string * Server.BuoyEntry =>
               Server.buoyCache st' !! kv.1 = Some kv.2)
            (map_to_list (Server.buoyCache st'))).
  { apply Forall_forall. intros [k e] Hin. apply elem_of_map_to_list, Hin. }
  assert (Hids : Forall
            (fun kv : string * Server.BuoyEntry =>
               Server.buoyId (Server.reading kv.2) = kv.1)
            (map_to_list (Server.buoyCache st'))).
  { eapply Forall_impl; [exact Hentries|]. intros [k e] He.
    cbn [fst snd] in *.
    subst st'. rewrite fetchAllBuoys_lookup in He.
    apply refreshedEntry_Some in He as (buoyInfo & _ & He).
    destruct (storedEntry_Some _ _ _ _ He) as (text & _ & Hp & _).
    apply (parseBuoyData_buoyId _ _ _ Hp). }
  assert (Hsub : sublist (Server.strike_id <$>
                   (Server.toStrike <$>
                      filter (fun buoy => Server.isStrike (Server.score buoy) = true)
                             (map_to_list (Server.buoyCache st')).*2))
                   (map_to_list (Server.buoyCache st')).*1).
  { rewrite <- list_fmap_compose.
    apply (filtered_ids_sublist
             (fun e => Server.buoyId (Server.reading e))). exact Hids. }
  split; [|split; [|split]].
  - rewrite Hperm. eapply sublist_NoDup; [|exact Hsub].
    apply NoDup_fst_map_to_list.
  - rewrite Hperm, length_fmap. etrans; [apply length_filter|].
    rewrite length_fmap, length_map_to_list.
    apply (proj2 (count_after_cycle fetchText now st)).
  - rewrite Hperm. apply Forall_fmap, Forall_forall. intros e He.
    apply list_elem_of_filter in He as [Hstrike He].
    apply list_elem_of_fmap in He as ([k e'] & -> & Hin). cbn [snd] in *.
    apply elem_of_map_to_list in Hin. subst st'.
    rewrite fetchAllBuoys_lookup in Hin.
    apply refreshedEntry_Some in Hin as (buoyInfo & HinB & He).
    destruct (storedEntry_Some _ _ _ _ He) as (text & _ & Hp & _ & Hscore).
    pose proof (parseBuoyData_buoyId _ _ _ Hp) as Hid.
    cbn. split; [reflexivity|]. split.
    + unfold Server.isStrike in Hstrike. apply Z.leb_le in Hstrike.
      split; [exact Hstrike|]. rewrite Hscore.
      unfold Server.calculateSurfScore. apply clamp_0_100_range.
    + exists buoyInfo, e'. rewrite Hid. auto.
  - intros k buoyInfo e HinB He Hscore. rewrite Hperm.
    apply list_elem_of_fmap. exists e. split; [reflexivity|].
    apply list_elem_of_filter. split; [apply Z.leb_le, Hscore|].
    apply list_elem_of_fmap. exists (k, e). split; [reflexivity|].
    apply elem_of_map_to_list. subst st'. rewrite fetchAllBuoys_lookup.
    apply refreshedEntry_Some. exists buoyInfo. auto.
Qed.

(** All four buoys parse the sample feed into a strike. *)
Lemma X11_strikes_after_cycle_witness :
  exists e,
    Server.storedEntry (fun _ => Some Server.sampleFeed) "46221"
      {| Server.name := "Santa Barbara"; Server.lat := 34.274;
         Server.lon := -119.863; Server.region := "Southern CA" |} = Some e /\
    Server.toStrike e ∈
      (Server.getStrikes
         (Server.fetchAllBuoys (fun _ => Some Server.sampleFeed) 1
                               Server.initialState)).1.
Proof.
  eexists. split; [vm_compute; reflexivity|].
  apply (X11_strikes_after_cycle (fun _ => Some Server.sampleFeed) 1
           Server.initialState) with (k := "46221"%string)
    (buoyInfo := {| Server.name := "Santa Barbara"; Server.lat := 34.274;
                    Server.lon := -119.863; Server.region := "Southern CA" |}).
  - do 2 apply list_elem_of_further. apply list_elem_of_here.
  - vm_compute. reflexivity.
  - vm_compute. discriminate.
Defined.

Lemma BUOYS_not_inherited (k : string) :
  k ∈ Server.BUOYS.*1 -> k ∉ JS.inheritedNames.
Proof.
  intros Hk Hin. revert Hk.
  unfold JS.inheritedNames in Hin.
  repeat (apply elem_of_cons in Hin as [->|Hin];
          [apply (bool_decide_unpack _); vm_compute; exact I|]).
  apply elem_of_nil in Hin. contradiction.
Qed.

(** X12: after a cycle, [GET /api/buoys/:id] answers 404 exactly when the
    cycle stored nothing for the id and the id is not the name of a
    property that every object inherits (such as [constructor]); it
    answers with the entry stored in this cycle when there is one.  For the
    id of a buoy of [BUOYS] it is 404 exactly when the fetch or the parse
    failed in this cycle. *)
Theorem X12_buoy_route_after_cycle (fetchText : string -> option string)
    (now : Z) (st : Server.State) (id : string) :
  let response :=
    Server.getBuoy (Server.fetchAllBuoys fetchText now st) id in
  (response = Server.BuoyNotFound <->
   Server.refreshedEntry fetchText id = None /\ id ∉ JS.inheritedNames) /\
  (forall buoy, response = Server.BuoyFound buoy <->
                Server.refreshedEntry fetchText id = Some buoy) /\
  (forall buoyInfo,
      (id, buoyInfo) ∈ Server.BUOYS ->
      response =
      match Server.storedEntry fetchText id buoyInfo with
      | Some buoy => Server.BuoyFound buoy
      | None => Server.BuoyNotFound
      end).
Proof.
  intros response. subst response. unfold Server.getBuoy, JS.getProperty.
  rewrite fetchAllBuoys_lookup. split; [|split].
  - destruct (Server.refreshedEntry fetchText id) as [e|].
    + split; [discriminate|]. intros [? _]. discriminate.
    + destruct (bool_decide_reflect (id ∈ JS.inheritedNames)) as [Hin|Hnot].
      * split; [discriminate|]. intros [_ ?]. contradiction.
      * split; auto.
  - intros buoy. destruct (Server.refreshedEntry fetchText id) as [e|].
    + split; congruence.
    + destruct (bool_decide (id ∈ JS.inheritedNames)); split; discriminate.
  - intros buoyInfo Hin.
    assert (Hnot : id ∉ JS.inheritedNames).
    { apply BUOYS_not_inherited. apply list_elem_of_fmap.
      exists (id, buoyInfo). split; [reflexivity|exact Hin]. }
    unfold Server.refreshedEntry.
    rewrite (elem_of_list_to_map_1 _ _ _ BUOYS_NoDup Hin). cbn.
    destruct (Server.storedEntry fetchText id buoyInfo); [reflexivity|].
    rewrite bool_decide_eq_false_2 by exact Hnot. reflexivity.
Qed.

(** With every fetch failing, buoy 46221 is not found. *)
Lemma X12_buoy_route_after_cycle_witness :
  Server.getBuoy (Server.fetchAllBuoys (fun _ => None) 1 Server.initialState)
                 "46221" = Server.BuoyNotFound.
Proof.
  apply (X12_buoy_route_after_cycle (fun _ => None) 1 Server.initialState
           "46221").
  split; [reflexivity|].
  apply (bool_decide_unpack _). vm_compute. exact I.
Defined.

(** The route does not answer 404 for the name of an inherited property,
    although no buoy has it. *)
Example buoy_route_constructor :
  Server.getBuoy (Server.fetchAllBuoys (fun _ => None) 1 Server.initialState)
                 "constructor" = Server.BuoyInherited.
Proof. vm_compute. reflexivity. Qed.

(** X13: [GET /api/resorts/:id] answers 404 exactly when no resort of
    [SKI_RESORTS] has the id; otherwise it answers with a resort of the
    table that has this id, and with the weather fetched for the resort's
    coordinates, which is [null] when the fetch fails and has at most
    three periods. *)
Theorem X13_resort_route {P : Type}
    (periods : float -> float -> option (list P)) (id : string) :
  match Server.getResort periods id with
  | Server.ResortNotFound => id ∉ Server.resort_id <$> Server.SKI_RESORTS
  | Server.ResortFound r weather =>
      r ∈ Server.SKI_RESORTS /\ Server.resort_id r = id /\
      weather = take 3 <$> periods (Server.resort_lat r) (Server.resort_lon r)
      /\ (forall ps, weather = Some ps -> (length ps <= 3)%nat)
  end.
Proof.
  unfold Server.getResort.
  destruct (find (fun r => String.eqb (Server.resort_id r) id)
                 Server.SKI_RESORTS) as [r|] eqn:Hfind.
  - apply find_some in Hfind as [Hin Heq].
    apply String.eqb_eq in Heq. split; [apply list_elem_of_In, Hin|].
    split; [exact Heq|]. unfold Server.fetchSkiWeather.
    destruct (periods (Server.resort_lat r) (Server.resort_lon r)) as [ps|];
      cbn; split; try reflexivity.
    + intros ps' [= <-]. rewrite length_take. lia.
    + discriminate.
  - intros Hin. apply list_elem_of_fmap in Hin as (r & -> & Hr).
    apply list_elem_of_In in Hr.
    pose proof (find_none _ _ Hfind r Hr) as Hne. cbn in Hne.
    rewrite String.eqb_refl in Hne. discriminate.
Qed.

(** *** One run of [fetchAllSkiData] *)

(** The resolution of a resort adds the resort's calls to the log, whatever
    the log holds. *)
Lemma fetchResortData_log (w : Ski.World) (r : Ski.Resort)
    (log : list Ski.Call) :
  Ski.fetchResortData w r log = (Ski.resolved w r, log ++ Ski.callsFor w r).
Proof.
  unfold Ski.resolved, Ski.callsFor. rewrite !fetchResortData_resolve.
  generalize (Ski.preferenceOrder r). intros adapters. revert log.
  induction adapters as [|a adapters IH]; intros log.
  - cbn. rewrite app_nil_r. reflexivity.
  - cbn [Ski.resolve]. unfold Ski.bind. rewrite !runAdapter_log.
    destruct (Ski.answer w (Ski.lat r) (Ski.lon r) a) as [d|].
    + reflexivity.
    + rewrite (IH (log ++ _)), (IH ([] ++ _)). cbn [fst snd app].
      rewrite <- app_assoc. reflexivity.
Qed.

Lemma fetchEach_unfold (w : Ski.World) (resorts : list Ski.Resort) :
  forall results log,
    Ski.fetchEach w resorts results log =
    (results ++ omap (fun r => Ski.makeResult r <$> Ski.resolved w r) resorts,
     log ++ concat (Ski.callsFor w <$> resorts)).
Proof.
  induction resorts as [|r resorts IH]; intros results log.
  - cbn. rewrite !app_nil_r. reflexivity.
  - cbn [Ski.fetchEach]. unfold Ski.bind. rewrite fetchResortData_log.
    rewrite fmap_cons. cbn [concat].
    change (omap (fun r => Ski.makeResult r <$> Ski.resolved w r)
                 (r :: resorts))
      with (match Ski.makeResult r <$> Ski.resolved w r with
            | Some y =>
                y :: omap (fun r => Ski.makeResult r <$> Ski.resolved w r)
                          resorts
            | None =>
                omap (fun r => Ski.makeResult r <$> Ski.resolved w r) resorts
            end).
    destruct (Ski.resolved w r) as [d|]; rewrite IH; cbn;
      rewrite <- ?app_assoc; reflexivity.
Qed.

Lemma callsFor_cases (w : Ski.World) (r : Ski.Resort) :
  Ski.callsFor w r =
  if String.eqb (Ski.country r) "US" then
    match Ski.answer w (Ski.lat r) (Ski.lon r) Ski.NOAA with
    | Some _ => [Ski.CallNOAA (Ski.lat r) (Ski.lon r)]
    | None => [Ski.CallNOAA (Ski.lat r) (Ski.lon r);
               Ski.CallOpenWeather (Ski.lat r) (Ski.lon r)]
    end
  else [Ski.CallOpenWeather (Ski.lat r) (Ski.lon r)].
Proof.
  unfold Ski.callsFor. rewrite fetchResortData_resolve.
  unfold Ski.preferenceOrder.
  destruct (String.eqb (Ski.country r) "US"); cbn [Ski.resolve];
    unfold Ski.bind; rewrite !runAdapter_log.
  - destruct (Ski.answer w (Ski.lat r) (Ski.lon r) Ski.NOAA); [reflexivity|].
    rewrite runAdapter_log.
    destruct (Ski.answer w (Ski.lat r) (Ski.lon r) Ski.OpenWeather);
      reflexivity.
  - destruct (Ski.answer w (Ski.lat r) (Ski.lon r) Ski.OpenWeather);
      reflexivity.
Qed.

Lemma omap_sublist {A B : Type} (f : A -> option B) (g : B -> A)
    (l : list A) :
  (forall a b, f a = Some b -> g b = a) ->
  sublist (g <$> omap f l) l.
Proof.
  intros Hg. induction l as [|a l IH]; cbn; [constructor|].
  destruct (f a) as [b|] eqn:Hb.
  - rewrite fmap_cons, (Hg _ _ Hb). constructor. exact IH.
  - constructor. exact IH.
Qed.

(** X14: [fetchAllSkiData] returns one element for each resort of
    [SKI_RESORTS] that an adapter answered for, made from that answer, in
    the order of the table: the resorts of the result are a sublist of
    [SKI_RESORTS], so none is repeated and there are at most 19.  The
    answer for a resort is what the adapters return when they are called
    for it, an answer of OpenWeather being read at the clock of that
    call. *)
Theorem X14_one_result_per_resolved_resort (w : Ski.World) :
  let results := (Ski.fetchAllSkiData w).1 in
  results =
    omap (fun r => Ski.makeResult r <$> Ski.resolved w r) Ski.SKI_RESORTS /\
  sublist (Ski.resort <$> results) Ski.SKI_RESORTS /\
  (length results <= 19)%nat.
Proof.
  intros results.
  assert (Hres : results =
            omap (fun r => Ski.makeResult r <$> Ski.resolved w r)
                 Ski.SKI_RESORTS).
  { subst results. unfold Ski.fetchAllSkiData. rewrite fetchEach_unfold.
    reflexivity. }
  assert (Hsub : sublist (Ski.resort <$> results) Ski.SKI_RESORTS).
  { rewrite Hres. apply omap_sublist. intros r res.
    destruct (Ski.resolved w r); cbn; [|discriminate].
    intros [= <-]. reflexivity. }
  split; [exact Hres|]. split; [exact Hsub|].
  apply sublist_length in Hsub. rewrite length_fmap in Hsub. exact Hsub.
Qed.

Lemma concat_length_le {A B : Type} (f : A -> list B) (bound : A -> nat)
    (l : list A) :
  (forall a, (length (f a) <= bound a)%nat) ->
  (length (concat (f <$> l)) <= foldr Nat.add 0%nat (bound <$> l))%nat.
Proof.
  intros Hf. induction l as [|a l IH]; cbn; [lia|].
  rewrite length_app. specialize (Hf a). lia.
Qed.

(** X15: the adapter calls of a run are, resort after resort in the order
    of [SKI_RESORTS]: for a resort of the United States one call to the
    weather service, followed by one call to OpenWeather exactly when the
    weather service did not answer; for any other resort one call to
    OpenWeather and none to the weather service.  A run makes at most
    14 * 2 + 5 = 33 calls. *)
Theorem X15_adapter_calls_of_a_run (w : Ski.World) :
  let calls := (Ski.fetchAllSkiData w).2 in
  calls =
    concat
      ((fun r =>
          if String.eqb (Ski.country r) "US" then
            match Ski.answer w (Ski.lat r) (Ski.lon r) Ski.NOAA with
            | Some _ => [Ski.CallNOAA (Ski.lat r) (Ski.lon r)]
            | None => [Ski.CallNOAA (Ski.lat r) (Ski.lon r);
                       Ski.CallOpenWeather (Ski.lat r) (Ski.lon r)]
            end
          else [Ski.CallOpenWeather (Ski.lat r) (Ski.lon r)])
       <$> Ski.SKI_RESORTS) /\
  (length calls <= 33)%nat.
Proof.
  intros calls.
  assert (Hcalls : calls = concat (Ski.callsFor w <$> Ski.SKI_RESORTS)).
  { subst calls. unfold Ski.fetchAllSkiData. rewrite fetchEach_unfold.
    reflexivity. }
  split.
  - rewrite Hcalls. f_equal. apply list_fmap_ext. intros _ r _.
    apply callsFor_cases.
  - rewrite Hcalls.
    etrans; [apply (concat_length_le _
               (fun r => if String.eqb (Ski.country r) "US" then 2 else 1)%nat)|].
    + intros r. rewrite callsFor_cases.
      destruct (String.eqb (Ski.country r) "US"); [|cbn; lia].
      destruct (Ski.answer w (Ski.lat r) (Ski.lon r) Ski.NOAA); cbn; lia.
    + vm_compute. lia.
Qed.

(** What the two adapters return, whatever the log. *)
Lemma fetchNOAAWeather_Some (w : Ski.World) (lat lon : float)
    (log : list Ski.Call) (d : Ski.WeatherData) :
  (Ski.fetchNOAAWeather w lat lon log).1 = Some d ->
  Ski.source d = "noaa"%string /\ Ski.current d = None /\
  Ski.data_snow24h d = None /\ Ski.data_snow48h d = None /\
  (length (Ski.forecast d) <= 6)%nat.
Proof.
  unfold Ski.fetchNOAAWeather, Ski.bind, Ski.called, Ski.ret.
  destruct (Ski.noaa w lat lon) as [|periods]; cbn; [discriminate|].
  intros [= <-]. cbn. repeat split. rewrite length_take. lia.
Qed.

Lemma fetchOpenWeather_Some (w : Ski.World) (lat lon : float)
    (log : list Ski.Call) (d : Ski.WeatherData) :
  (Ski.fetchOpenWeather w lat lon log).1 = Some d ->
  Ski.source d = "openweather"%string /\ is_Some (Ski.current d) /\
  is_Some (Ski.data_snow24h d) /\ is_Some (Ski.data_snow48h d) /\
  (length (Ski.forecast d) <= 8)%nat /\
  exists key, Ski.OPENWEATHER_KEY w = Some key /\ key <> ""%string.
Proof.
  unfold Ski.fetchOpenWeather, Ski.bind, Ski.called, Ski.ret.
  destruct (Ski.OPENWEATHER_KEY w) as [[|c k]|]; cbn; try discriminate.
  destruct (Ski.openweather w lat lon) as [|cur items]; cbn; [discriminate|].
  destruct (Ski.accumulateSnow _ items). cbn.
  intros [= <-]. cbn. repeat split; try (eexists; reflexivity).
  - rewrite length_fmap, length_take. lia.
  - eexists. split; [reflexivity|discriminate].
Qed.

(** The reading resolved for a resort comes from one of the adapters. *)
Lemma resolved_Some (w : Ski.World) (r : Ski.Resort) (d : Ski.WeatherData) :
  Ski.resolved w r = Some d ->
  (Ski.country r = "US"%string /\
   (Ski.fetchNOAAWeather w (Ski.lat r) (Ski.lon r) []).1 = Some d) \/
  (exists log, (Ski.fetchOpenWeather w (Ski.lat r) (Ski.lon r) log).1 = Some d).
Proof.
  unfold Ski.resolved, Ski.fetchResortData, Ski.bind.
  destruct (String.eqb_spec (Ski.country r) "US") as [Hus|_].
  - destruct (Ski.fetchNOAAWeather w (Ski.lat r) (Ski.lon r) [])
      as [[d0|] log'] eqn:Hn.
    + cbn. intros [= <-]. left. split; [exact Hus|reflexivity].
    + intros Hd. right. exists log'. exact Hd.
  - intros Hd. right. exists []. exact Hd.
Qed.

(** X16: without an OpenWeather key (unset or empty) a run has results
    for resorts of the United States only, each of source ['noaa'], and
    [findStrikes] finds no strike in them. *)
Theorem X16_no_key_no_strike (w : Ski.World) :
  Ski.OPENWEATHER_KEY w = None \/ Ski.OPENWEATHER_KEY w = Some ""%string ->
  let results := (Ski.fetchAllSkiData w).1 in
  Forall (fun r => Ski.source (Ski.weather r) = "noaa"%string /\
                   Ski.country (Ski.resort r) = "US"%string /\
                   Ski.isStrike r = false) results /\
  Ski.findStrikes results = [].
Proof.
  intros Hkey results.
  assert (Hall : Forall (fun r => Ski.source (Ski.weather r) = "noaa"%string /\
                                  Ski.country (Ski.resort r) = "US"%string /\
                                  Ski.isStrike r = false) results).
  { subst results. unfold Ski.fetchAllSkiData.
    apply fetchEach_results; [|constructor].
    intros resort log d Hd.
    rewrite fetchResortData_log in Hd. cbn [fst] in Hd.
    destruct (resolved_Some _ _ _ Hd) as [[Hus Hn]|[log' How]].
    - destruct (fetchNOAAWeather_Some _ _ _ _ _ Hn)
        as (Hsrc & Hcur & H24 & H48 & _).
      cbn [Ski.makeResult Ski.weather Ski.resort Ski.isStrike].
      split; [exact Hsrc|]. split; [exact Hus|].
      apply Z.leb_gt.
      assert (Hle : Ski.calculateSkiScore (Ski.scoreInput d) <= 40).
      { unfold Ski.scoreInput. rewrite H24, H48.
        apply calculateSkiScore_no_snow. }
      lia.
    - destruct (fetchOpenWeather_Some _ _ _ _ _ How)
        as (_ & _ & _ & _ & _ & key & Hk & Hne).
      destruct Hkey as [Hkey|Hkey]; congruence. }
  split; [exact Hall|].
  unfold Ski.findStrikes.
  assert (Hnone : filter (fun r => Ski.isStrike r = true) results = []).
  { clear -Hall. induction Hall as [|r l (_ & _ & Hr) _ IH]; [reflexivity|].
    rewrite filter_cons, decide_False by congruence. exact IH. }
  rewrite Hnone. reflexivity.
Qed.

Lemma X16_no_key_no_strike_witness :
  Ski.findStrikes
    (Ski.fetchAllSkiData
       {| Ski.noaa := Ski.noaa Ski.noaaUp;
          Ski.openweather := Ski.openweather Ski.noaaUp;
          Ski.OPENWEATHER_KEY := None;
          Ski.nowSeconds := fun _ _ => 0%float |}).1 = [].
Proof.
  apply (X16_no_key_no_strike
           {| Ski.noaa := Ski.noaa Ski.noaaUp;
              Ski.openweather := Ski.openweather Ski.noaaUp;
              Ski.OPENWEATHER_KEY := None;
              Ski.nowSeconds := fun _ _ => 0%float |}).
  left. reflexivity.
Defined.

(** No two resorts of [SKI_RESORTS] share their point, so a run calls
    [fetchOpenWeather] at most once for a point. *)
Lemma SKI_RESORTS_points_NoDup :
  NoDup ((fun r => (Ski.lat r, Ski.lon r)) <$> Ski.SKI_RESORTS).
Proof.
  apply (NoDup_fmap_1
           (fun p : float * float =>
              Uint63.to_Z (normfr_mantissa (fst (frshiftexp p.1))))).
  apply (bool_decide_unpack _). vm_compute. reflexivity.
Qed.

(** What [fetchOpenWeather] returns is made from the answer of OpenWeather
    for the point, its snow counted at the clock of this call. *)
Lemma fetchOpenWeather_reading (w : Ski.World) (lat lon : float)
    (log : list Ski.Call) (d : Ski.WeatherData) :
  (Ski.fetchOpenWeather w lat lon log).1 = Some d ->
  exists cur items,
    Ski.openweather w lat lon = Ski.OwForecast cur items /\
    Ski.current d = Some cur /\
    Ski.forecast d = Ski.item <$> take 8 items /\
    Ski.data_snow24h d =
      Some ((Ski.accumulateSnow (Ski.nowSeconds w lat lon) items).1 / 25.4)%float
    /\
    Ski.data_snow48h d =
      Some ((Ski.accumulateSnow (Ski.nowSeconds w lat lon) items).2 / 25.4)%float.
Proof.
  unfold Ski.fetchOpenWeather, Ski.bind, Ski.called, Ski.ret. cbv zeta.
  destruct (Ski.OPENWEATHER_KEY w) as [[|c k]|]; try discriminate.
  destruct (Ski.openweather w lat lon) as [|cur items]; [discriminate|].
  destruct (Ski.accumulateSnow (Ski.nowSeconds w lat lon) items)
    as [s24 s48] eqn:Hacc.
  intros [= <-]. exists cur, items. rewrite Hacc. repeat split.
Qed.

(** X17: every element of the array [fetchAllSkiData] returns carries the
    reading resolved for its resort, a resort of [SKI_RESORTS]; its score is
    the ski score of that reading's input, between 0 and 100, and its flag
    tells whether the score is at least 70.  The reading is either of
    source ['noaa'], for a resort of the United States, without [current]
    and with at most 6 forecast periods, or of source ['openweather'], with
    the [current] and the first 8 forecast items that OpenWeather answered
    for the resort's point, and the snow totals of that answer counted at
    the clock of the call made for this resort. *)
Theorem X17_shape_of_results (w : Ski.World) :
  Forall (fun r =>
            Ski.resort r ∈ Ski.SKI_RESORTS /\
            Ski.resolved w (Ski.resort r) = Some (Ski.weather r) /\
            Ski.score r = Ski.calculateSkiScore (Ski.scoreInput (Ski.weather r))
            /\ 0 <= Ski.score r <= 100 /\
            Ski.isStrike r = (70 <=? Ski.score r) /\
            (Ski.source (Ski.weather r) = "noaa"%string /\
             Ski.country (Ski.resort r) = "US"%string /\
             Ski.current (Ski.weather r) = None /\
             (length (Ski.forecast (Ski.weather r)) <= 6)%nat
             \/
             Ski.source (Ski.weather r) = "openweather"%string /\
             is_Some (Ski.current (Ski.weather r)) /\
             is_Some (Ski.data_snow24h (Ski.weather r)) /\
             is_Some (Ski.data_snow48h (Ski.weather r)) /\
             (length (Ski.forecast (Ski.weather r)) <= 8)%nat /\
             exists cur items,
               let lat := Ski.lat (Ski.resort r) in
               let lon := Ski.lon (Ski.resort r) in
               let totals :=
                 Ski.accumulateSnow (Ski.nowSeconds w lat lon) items in
               Ski.openweather w lat lon = Ski.OwForecast cur items /\
               Ski.current (Ski.weather r) = Some cur /\
               Ski.forecast (Ski.weather r) = Ski.item <$> take 8 items /\
               Ski.data_snow24h (Ski.weather r)
               = Some (totals.1 / 25.4)%float /\
               Ski.data_snow48h (Ski.weather r)
               = Some (totals.2 / 25.4)%float))
         (Ski.fetchAllSkiData w).1.
Proof.
  unfold Ski.fetchAllSkiData. rewrite fetchEach_unfold. cbn [fst app].
  apply Forall_forall. intros res Hres.
  apply list_elem_of_omap in Hres as (r & Hr & Hres).
  destruct (Ski.resolved w r) as [d|] eqn:Hd; cbn in Hres; [|discriminate].
  injection Hres as <-.
  cbn [Ski.makeResult Ski.resort Ski.weather Ski.score Ski.isStrike].
  split; [exact Hr|]. split; [exact Hd|]. split; [reflexivity|].
  split; [unfold Ski.calculateSkiScore; apply clamp_0_100_range|].
  split; [reflexivity|].
  destruct (resolved_Some _ _ _ Hd) as [[Hus Hn]|[log' How]].
  - left. destruct (fetchNOAAWeather_Some _ _ _ _ _ Hn)
      as (Hsrc & Hcur & _ & _ & Hlen). auto.
  - right. destruct (fetchOpenWeather_Some _ _ _ _ _ How)
      as (Hsrc & Hcur & H24 & H48 & Hlen & _).
    repeat (split; [assumption|]).
    apply (fetchOpenWeather_reading _ _ _ _ _ How).
Qed.

(** *** The snow totals of OpenWeather *)

Lemma le_48_of_24 (hours : float) :
  JS.le hours 24 = true -> JS.le hours 48 = true.
Proof. intros H. apply (js_le_trans _ 24); [exact H|reflexivity]. Qed.

(** X18: the snow totals that [fetchOpenWeather] accumulates only depend
    on the forecast items with a truthy [snow['3h']] that lie at most 48
    hours after now: every other item, and in particular every item further
    ahead, is skipped; with no such item both totals are 0. *)
Theorem X18_snow_totals_skip_items (now : float) (items : list Ski.OwItem) :
  Ski.accumulateSnow now items =
  Ski.accumulateSnow now (filter (fun it => Ski.counted now it = true) items)
  /\ (Forall (fun it => Ski.counted now it = false) items ->
      Ski.accumulateSnow now items = (0%float, 0%float)).
Proof.
  unfold Ski.accumulateSnow.
  match goal with |- foldl ?f _ _ = _ /\ _ => set (step := f) end.
  assert (Hskip : forall acc,
             foldl step acc items =
             foldl step acc
                   (filter (fun it => Ski.counted now it = true) items)).
  { induction items as [|it items IH]; intros [s24 s48]; [reflexivity|].
    rewrite filter_cons. destruct (Ski.counted now it) eqn:Hc.
    - rewrite decide_True by reflexivity. cbn [foldl]. apply IH.
    - rewrite decide_False by discriminate. cbn [foldl].
      assert (Hstep : step (s24, s48) it = (s24, s48)).
      { subst step. cbn beta iota zeta. unfold Ski.counted in Hc.
        destruct (JS.truthy_opt (Ski.snow_3h it)); [|reflexivity].
        cbn [andb] in Hc. rewrite Hc.
        destruct (JS.le ((Ski.dt it - now) / 3600) 24) eqn:H24;
          [rewrite (le_48_of_24 _ H24) in Hc; discriminate|reflexivity]. }
      rewrite Hstep. apply IH. }
  split; [apply Hskip|].
  intros Hnone. rewrite Hskip.
  assert (Hempty : filter (fun it => Ski.counted now it = true) items = []).
  { clear -Hnone. induction Hnone as [|it l Hit _ IH]; [reflexivity|].
    rewrite filter_cons, decide_False by congruence. exact IH. }
  rewrite Hempty. reflexivity.
Qed.

(** A forecast item without snow leaves both totals at 0. *)
Lemma X18_snow_totals_skip_items_witness :
  Ski.accumulateSnow 0
    [ {| Ski.dt := 3600; Ski.snow_3h := None;
         Ski.item := {| Ski.main_temp := None; Ski.wind_speed := None |} |} ]
  = (0%float, 0%float).
Proof.
  apply (X18_snow_totals_skip_items 0). repeat constructor.
Defined.

(** *** Ties in [findStrikes] *)

Section Stable.
Context {A : Type} (compare : A -> A -> Z) (key : A -> Z).
Hypothesis compare_key : forall a b, compare a b = key b - key a.

(** The elements of one key keep their order through the sort. *)
Lemma insertSorted_same_key (k : Z) (x : A) (l : list A) :
  filter (fun a => key a = k) (JS.insertSorted compare x l) =
  filter (fun a => key a = k) (x :: l).
Proof.
  induction l as [|y l IH]; cbn [JS.insertSorted]; [reflexivity|].
  destruct (Z.ltb_spec 0 (compare x y)) as [Hlt|Hge]; [|reflexivity].
  rewrite compare_key in Hlt.
  rewrite (filter_cons _ y), IH, !(filter_cons _ x), (filter_cons _ y).
  destruct (decide (key x = k)), (decide (key y = k)); try reflexivity.
  lia.
Qed.

Lemma sort_same_key (k : Z) (l : list A) :
  filter (fun a => key a = k) (JS.sort compare l) =
  filter (fun a => key a = k) l.
Proof.
  induction l as [|x l IH]; cbn [JS.sort]; [reflexivity|].
  rewrite insertSorted_same_key, !filter_cons, IH. reflexivity.
Qed.

End Stable.

(** X19: on any array, [findStrikes] returns the elements flagged as
    strikes, whatever their scores, by descending score, and those of equal
    score in the order they have in the array; so its result is determined
    by the flags and the scores, and is empty when nothing is flagged. *)
Theorem X19_findStrikes_any_array (resortData : list Ski.Result) :
  StronglySorted (fun a b => Ski.strike_score b <= Ski.strike_score a)
                 (Ski.findStrikes resortData) /\
  (forall k,
      filter (fun s => Ski.strike_score s = k) (Ski.findStrikes resortData) =
      Ski.toSkiStrike <$>
        filter (fun r => Ski.score r = k)
               (filter (fun r => Ski.isStrike r = true) resortData)) /\
  (length (Ski.findStrikes resortData) <= length resortData)%nat /\
  (Forall (fun r => Ski.isStrike r = false) resortData ->
   Ski.findStrikes resortData = []).
Proof.
  unfold Ski.findStrikes. split; [|split; [|split]].
  - apply (StronglySorted_mapped Ski.toSkiStrike
             (fun a b => Ski.score b <= Ski.score a)).
    + intros a b Hab. exact Hab.
    + apply (sort_descending _ Ski.score). reflexivity.
  - intros k.
    rewrite <- (sort_same_key (fun a b => Ski.score b - Ski.score a)
                  Ski.score (fun a b => eq_refl) k).
    generalize (JS.sort (fun a b => Ski.score b - Ski.score a)
                  (filter (fun r => Ski.isStrike r = true) resortData)).
    intros l. induction l as [|r l IH]; [reflexivity|].
    rewrite fmap_cons, !filter_cons. cbn [Ski.toSkiStrike Ski.strike_score].
    destruct (decide (Ski.score r = k)); rewrite IH; reflexivity.
  - rewrite length_fmap, (Permutation_length (sort_Permutation _ _)).
    apply length_filter.
  - intros Hnone.
    assert (Hempty : filter (fun r => Ski.isStrike r = true) resortData = []).
    { clear -Hnone. induction Hnone as [|r l Hr _ IH]; [reflexivity|].
      rewrite filter_cons, decide_False by congruence. exact IH. }
    rewrite Hempty. reflexivity.
Qed.

(** *** The SQL scorers *)

Lemma Qle_bool_false (a b : Q) : Qle_bool a b = false -> (b < a)%Q.
Proof.
  intros H. apply Qnot_le_lt. intros Hle. apply Qle_bool_iff in Hle.
  congruence.
Qed.

Ltac q_props :=
  repeat match goal with
  | H : Qle_bool _ _ = true |- _ => apply Qle_bool_iff in H
  | H : Qle_bool _ _ = false |- _ => apply Qle_bool_false in H
  end.

Lemma sql_heightPoints_band (height_feet : Sql.numeric) :
  Sql.heightPoints height_feet <> 0 ->
  exists x, height_feet = Some x /\ (2 <= x <= 15)%Q.
Proof.
  destruct height_feet as [x|]; [|cbn; congruence].
  unfold Sql.heightPoints, Sql.ge, Sql.le, Sql.lt, Sql.gt, Sql.cmp, Sql.lit,
    Sql.and3, Sql.holds.
  intros H. exists x. split; [reflexivity|].
  destruct (Qle_bool 4 x) eqn:H4, (Qle_bool x 10) eqn:H10,
    (Qle_bool 2 x) eqn:H2, (Qle_bool x 4) eqn:H4', (Qle_bool x 15) eqn:H15;
    cbn in H; try congruence; q_props; lra.
Qed.

Lemma sql_points_le (dominant_period wind_mph avg_period : Sql.numeric) :
  Sql.periodPoints dominant_period <= 30 /\ Sql.windPoints wind_mph <= 20 /\
  Sql.avgPeriodPoints avg_period <= 10.
Proof.
  unfold Sql.periodPoints, Sql.windPoints, Sql.avgPeriodPoints.
  repeat match goal with |- context [if ?c then _ else _] => destruct c end;
    lia.
Qed.

(** X20: the SQL scorers reach 70 only with a wave height or with snow:
    [calculate_surf_score] needs a wave height that is not NULL and lies
    between 2 and 15 ft, and [calculate_ski_score] needs at least 6 in of
    snow over 24 h or at least 18 in over 48 h. *)
Theorem X20_sql_strike_needs_height_or_snow :
  (forall wave_height dominant_period wind_speed avg_period : Sql.numeric,
      70 <= Sql.calculate_surf_score wave_height dominant_period wind_speed
                                     avg_period ->
      exists h, wave_height = Some h /\ (2 <= h * 3.28084 <= 15)%Q) /\
  (forall snow_24h snow_48h base_depth temperature wind_speed : Sql.numeric,
      70 <= Sql.calculate_ski_score snow_24h snow_48h base_depth temperature
                                    wind_speed ->
      (exists q, snow_24h = Some q /\ (6 <= q)%Q) \/
      (exists q, snow_48h = Some q /\ (18 <= q)%Q)).
Proof.
  split.
  - intros wave_height dominant_period wind_speed avg_period Hstrike.
    rewrite calculate_surf_score_points in Hstrike.
    destruct (sql_points_le dominant_period
                (Sql.mul wind_speed (Sql.lit 3.28084)) avg_period) as (Hp & _ & Ha).
    destruct (sql_points_le dominant_period
                (Sql.mul wind_speed (Sql.lit 2.237)) avg_period) as (_ & Hw & _).
    destruct (sql_heightPoints_band (Sql.mul wave_height (Sql.lit 3.28084)))
      as (x & Hx & Hband).
    { intros Hzero. rewrite Hzero in Hstrike.
      unfold JS.clamp_0_100 in Hstrike. lia. }
    destruct wave_height as [h|]; [|discriminate].
    exists h. split; [reflexivity|]. injection Hx as <-. exact Hband.
  - intros snow_24h snow_48h base_depth temperature wind_speed.
    unfold Sql.calculate_ski_score.
    repeat match goal with
    | |- context [Sql.holds ?c] =>
        lazymatch c with
        | context [base_depth] => generalize (Sql.holds c); intros ?
        | context [temperature] => generalize (Sql.holds c); intros ?
        | context [wind_speed] => generalize (Sql.holds c); intros ?
        end
    end.
    destruct snow_24h as [q24|], snow_48h as [q48|];
      unfold Sql.ge, Sql.cmp, Sql.lit, Sql.holds;
      repeat match goal with
      | |- context [Qle_bool ?a ?b] => destruct (Qle_bool a b) eqn:?
      end;
      q_props;
      try (left; eexists; split; [reflexivity|lra]);
      try (right; eexists; split; [reflexivity|lra]);
      repeat match goal with b : bool |- _ => destruct b end;
      vm_compute; intros Habs; exfalso; apply Habs; reflexivity.
Qed.

(** The first scenario, stored as decimals, and a foot of snow. *)
Lemma X20_sql_strike_needs_height_or_snow_witness :
  (exists h, Some 2%Q = Some h /\ (2 <= h * 3.28084 <= 15)%Q) /\
  ((exists q, Some 12%Q = Some q /\ (6 <= q)%Q) \/
   (exists q, Some 0%Q = Some q /\ (18 <= q)%Q)).
Proof.
  split.
  - apply (proj1 X20_sql_strike_needs_height_or_snow
             (Some 2%Q) (Some 14%Q) (Some 2%Q) (Some 10%Q)).
    vm_compute. discriminate.
  - apply (proj2 X20_sql_strike_needs_height_or_snow
             (Some 12%Q) (Some 0%Q) (Some 80%Q) (Some 20%Q) (Some 5%Q)).
    vm_compute. discriminate.
Defined.
